(** * Wind-yk/3D: the mesh transform pipeline and the FBX tree reader

    A shallow embedding of [src/packages/mesh.py] (the class [Mesh]: its
    property setters, [_scale_matrix], [_shift_matrix], [_rotation_matrix],
    [_to2D], [applyTransform], [reset], [enable], [disable], [getVertex],
    [get2DVertex] and [__init__]) and of [src/packages/fbx.py] ([fbx2json]
    and [readFBX]: their calls to the operating system, and the traversal
    of the parsed document), followed by the properties proved of them.

    Conventions of the embedding.
    - Python numbers ([int] and [float]) are real numbers: the development
      is about the algebra and the control flow of the pipeline, not about
      rounding.  [numpy.pi], [sin], [cos], [sqrt] are [PI], [sin], [cos],
      [sqrt] of the Standard Library.  The statements follow the code
      operation by operation and rely on no law of the real numbers that
      floats lack; the one place where rounding decides a property, the
      product that the tracked scale is, is followed on binary64 floats.
    - A Python exception is a value [Err e]; a method of [Mesh] is a
      function from the object's state to an outcome and the state the
      object is left in, so the fields written before a [raise] stay
      written, as they do in Python.
    - A numpy matrix is the list of its rows.  Shape errors of [@]
      are [ValueError]s, as in numpy.
    - [assert] raises [AssertionError] (the interpreter is not run with
      [-O]). *)

From Corelib Require Import PrimFloat.
From Stdlib Require Import Reals Lra Psatz String List Bool Arith Lia.
#[local] Set Warnings "-register-all".
#[local] Set Warnings "-inexact-float".
Import ListNotations.
Local Open Scope R_scope.

(** ** Exceptions and outcomes *)

Inductive exn : Type :=
| AssertionError
| TypeError (msg : string)
| ValueError (msg : string)
| IndexError (msg : string)
| LinAlgError (msg : string).

Inductive res (A : Type) : Type :=
| Ok (a : A)
| Err (e : exn).
Arguments Ok {A} a.
Arguments Err {A} e.

Definition is_ok {A} (r : res A) : bool :=
  match r with Ok _ => true | Err _ => false end.

Definition rbind {A B} (r : res A) (k : A -> res B) : res B :=
  match r with Ok a => k a | Err e => Err e end.

Declare Scope res_scope.
Delimit Scope res_scope with res.
Notation "x <-? r ;; k" := (rbind r (fun x => k))
  (at level 61, r at next level, right associativity) : res_scope.
Notation "' pat <-? r ;; k" := (rbind r (fun x => match x with pat => k end))
  (at level 61, pat pattern, r at next level, right associativity) : res_scope.
Local Open Scope res_scope.

Fixpoint mapM {A B} (f : A -> res B) (l : list A) : res (list B) :=
  match l with
  | [] => Ok []
  | a :: l' => rbind (f a) (fun b => rbind (mapM f l') (fun bs => Ok (b :: bs)))
  end.

(** ** Decidable tests on numbers *)

Definition Reqb (x y : R) : bool := if Req_dec_T x y then true else false.
Definition Rleb (x y : R) : bool := if Rle_dec x y then true else false.
Definition Rltb (x y : R) : bool := if Rlt_dec x y then true else false.

(** ** Point

    [packages/point.py] is not part of the sources at hand; [Mesh] only
    uses its constructor, its iteration and [+=], [*=].  A Point is a
    value here (the specification has it immutable by convention): [+=]
    and [*=] give the new Point, which the property setter then stores. *)

(** Modelled from the spec: [Point(x, y, z)] of [packages/point.py], a
    vector of three numbers. *)
Record Point : Type := mkPoint { px : R; py : R; pz : R }.

(** ** The Python values the program handles *)

Inductive pyobj : Type :=
| PNum (r : R)                      (* int, float *)
| PStr (s : string)                 (* str *)
| PList (l : list pyobj)            (* list *)
| PTuple (l : list pyobj)           (* tuple *)
| PPoint (p : Point)                (* packages.point.Point *)
| PMatrix (m : list (list R))       (* numpy.matrix *)
| PNone.

Definition matrix : Type := list (list R).

(** [bool(o)], as [all] and [assert] use it. *)
Definition truthy (o : pyobj) : bool :=
  match o with
  | PNum r => negb (Reqb r 0)
  | PStr s => negb (String.eqb s EmptyString)
  | PList l | PTuple l => match l with [] => false | _ => true end
  | PPoint _ => true
  | PMatrix _ => true   (* numpy refuses the test on more than one entry;
                           no scale list of the program holds a matrix *)
  | PNone => false
  end.

(** A number where a number is needed. *)
Definition as_num (o : pyobj) : res R :=
  match o with
  | PNum r => Ok r
  | _ => Err (TypeError "a number is required")
  end.

(** Modelled from the spec: the iteration over a Point, which is in
    [packages/point.py], gives its three components in order; [Mesh]
    relies on it in [Point( *scale)], [x, y, z = shift] and
    [for angle in rotation]. *)
Definition Point_components (p : Point) : list pyobj :=
  [PNum (px p); PNum (py p); PNum (pz p)].

(** [iter(o)]: lists, tuples, strings and Points are iterable. *)
Definition py_iter (o : pyobj) : res (list pyobj) :=
  match o with
  | PList l | PTuple l => Ok l
  | PPoint p => Ok (Point_components p)
  | PStr s => Ok (map (fun c => PStr (String c EmptyString)) (list_ascii_of_string s))
  | PNum _ | PMatrix _ | PNone => Err (TypeError "object is not iterable")
  end.

(** [x, y, z = o] *)
Definition unpack3 (o : pyobj) : res (pyobj * pyobj * pyobj) :=
  rbind (py_iter o) (fun l =>
  match l with
  | [x; y; z] => Ok (x, y, z)
  | _ :: _ :: _ :: _ :: _ => Err (ValueError "too many values to unpack (expected 3)")
  | _ => Err (ValueError "not enough values to unpack (expected 3)")
  end).

(** Modelled from the spec: the constructor of [Point], which is in
    [packages/point.py]: three numeric components, one number broadcast
    to the three, another Point (copied), or one sequence of three
    numbers; anything else is rejected with a [TypeError]. *)
Definition Point_new (args : list pyobj) : res Point :=
  match args with
  | [PNum x; PNum y; PNum z] => Ok (mkPoint x y z)
  | [PNum s] => Ok (mkPoint s s s)
  | [PPoint p] => Ok p
  | [PList [PNum x; PNum y; PNum z]] => Ok (mkPoint x y z)
  | [PTuple [PNum x; PNum y; PNum z]] => Ok (mkPoint x y z)
  | _ => Err (TypeError "Point: three numbers, one number or a Point expected")
  end.

(** Modelled from the spec: [Point.__iadd__], component-wise addition of
    a three-component operand. *)
Definition Point_iadd (p : Point) (o : pyobj) : res Point :=
  match py_iter o with
  | Ok [PNum x; PNum y; PNum z] => Ok (mkPoint (px p + x) (py p + y) (pz p + z))
  | _ => Err (TypeError "Point: unsupported operand for +=")
  end.

(** Modelled from the spec: [Point.__imul__], scaling by a number or
    component-wise by a three-component operand. *)
Definition Point_imul (p : Point) (o : pyobj) : res Point :=
  match o with
  | PNum s => Ok (mkPoint (px p * s) (py p * s) (pz p * s))
  | _ =>
    match py_iter o with
    | Ok [PNum x; PNum y; PNum z] => Ok (mkPoint (px p * x) (py p * y) (pz p * z))
    | _ => Err (TypeError "Point: unsupported operand for *=")
    end
  end.

(** ** numpy matrices *)

Definition nrows (A : matrix) : nat := length A.
Definition ncols (A : matrix) : nat :=
  match A with [] => 0%nat | r :: _ => length r end.

(** The matrix is rectangular, [r] rows of [c] entries. *)
Definition has_shape (r c : nat) (A : matrix) : Prop :=
  length A = r /\ Forall (fun row => length row = c) A.

Definition col (j : nat) (A : matrix) : list R := map (fun r => nth j r 0) A.

(** [A.T] *)
Definition transpose (A : matrix) : matrix :=
  map (fun j => col j A) (seq 0 (ncols A)).

Fixpoint dot (u v : list R) : R :=
  match u, v with
  | x :: u', y :: v' => x * y + dot u' v'
  | _, _ => 0
  end.

(** The product: entry (i, j) is row i of [A] times column j of [B]. *)
Definition mmul (A B : matrix) : matrix :=
  map (fun r => map (dot r) (transpose B)) A.

(** [A @ B]: the product when the shapes agree, a [ValueError] otherwise. *)
Definition matmul (A B : matrix) : res matrix :=
  if Nat.eqb (ncols A) (nrows B)
  then Ok (mmul A B)
  else Err (ValueError "matmul: Input operand 1 has a mismatch in its core dimension 0").

(** [numpy.identity(n)] *)
Definition identity (n : nat) : matrix :=
  map (fun i => map (fun j => if Nat.eqb i j then 1 else 0) (seq 0 n)) (seq 0 n).

Fixpoint remove_nth {A} (j : nat) (l : list A) : list A :=
  match j, l with
  | _, [] => []
  | O, _ :: t => t
  | S j', h :: t => h :: remove_nth j' t
  end.

Definition sign (k : nat) : R := if Nat.even k then 1 else -1.

Definition Rsum (l : list R) : R := fold_right Rplus 0 l.

(** Determinant of an [n]×[n] matrix, expanded along the first row. *)
Fixpoint det (n : nat) (A : matrix) : R :=
  match n with
  | O => 1
  | S k =>
    match A with
    | [] => 0
    | r :: rest =>
      Rsum (map (fun j => sign j * nth j r 0 * det k (map (remove_nth j) rest))
                (seq 0 (S k)))
    end
  end.

Definition cofactor (n i j : nat) (A : matrix) : R :=
  sign (i + j) * det (pred n) (map (remove_nth j) (remove_nth i A)).

(** [numpy.linalg.inv(A)]: the inverse of a square matrix, as the
    transposed cofactor matrix over the determinant; [LinAlgError] when
    [A] is not square or is singular. *)
Definition inv (A : matrix) : res matrix :=
  let n := nrows A in
  if negb (forallb (fun r => Nat.eqb (length r) n) A)
  then Err (LinAlgError "Last 2 dimensions of the array must be square")
  else
    let d := det n A in
    if Reqb d 0 then Err (LinAlgError "Singular matrix")
    else Ok (map (fun i => map (fun j => cofactor n j i A / d) (seq 0 n)) (seq 0 n)).

(** A row of Python numbers, for [matrix([...])] and [asmatrix]. *)
Definition num_row (l : list pyobj) : res (list R) := mapM as_num l.

(** [numpy.matrix(rows)] on a list of rows of numbers.  An entry that is
    no number is a [TypeError] here: numpy would build a matrix of another
    dtype, and the [Point] operation that follows in every caller would
    reject the operand. *)
Definition np_matrix (rows : list (list pyobj)) : res matrix := mapM num_row rows.

Definition seq_items (o : pyobj) : option (list pyobj) :=
  match o with
  | PList l | PTuple l => Some l
  | _ => None
  end.

(** [numpy.asmatrix(values)] for the numeric inputs: a number is 1×1, a
    flat sequence of [n] numbers is 1×n (the empty one 1×0), a sequence of
    equally long rows of numbers is the matrix of these rows.  Ragged or
    non-numeric data is a [ValueError] (numpy parses a string; that input
    is left out). *)
Definition asmatrix (values : pyobj) : res matrix :=
  match values with
  | PNum r => Ok [[r]]
  | PMatrix A => Ok A
  | PList l | PTuple l =>
    match num_row l with
    | Ok row => Ok [row]
    | Err _ =>
      match mapM (fun o => match seq_items o with
                           | Some r => match num_row r with
                                       | Ok row => Ok row
                                       | Err _ => Err (ValueError "asmatrix: not a numeric array")
                                       end
                           | None => Err (ValueError "asmatrix: inhomogeneous shape")
                           end) l with
      | Ok rows =>
        if forallb (fun r => Nat.eqb (length r) (ncols rows)) rows
        then Ok rows
        else Err (ValueError "asmatrix: inhomogeneous shape")
      | Err e => Err e
      end
    end
  | _ => Err (ValueError "asmatrix: not a numeric array")
  end.

(** [math.isclose(a, b)] with its default tolerances
    ([rel_tol = 1e-09], [abs_tol = 0.0]). *)
Definition rel_tol : R := / 1000000000.
Definition isclose (a b : R) : bool :=
  Reqb a b
  || Rleb (Rabs (b - a)) (Rabs (rel_tol * b))
  || Rleb (Rabs (b - a)) (Rabs (rel_tol * a))
  || Rleb (Rabs (b - a)) 0.

(** [math.radians(x)] *)
Definition radians (o : pyobj) : res R :=
  x <-? as_num o ;; Ok (x * (PI / 180)).

(** ** Mesh: the object's state *)

Record Mesh : Type := mkMesh {
  _vertices : matrix;
  _edges : pyobj;
  _center : Point;
  _angle : Point;
  _scale : Point;
  _transform_matrix : matrix;
  camera : matrix;
  focal : matrix;
  _transform_matrix_backup : matrix;
  _show : bool;
  _color : pyobj;
  _2DVertices : matrix
}.

(** The object before [__init__] has assigned anything.  Python has no
    attribute there at all; [__init__] writes every field before it or a
    method it calls reads it, so the values below are never observed. *)
Definition blank : Mesh :=
  mkMesh [] PNone (mkPoint 0 0 0) (mkPoint 0 0 0) (mkPoint 0 0 0)
         [] [] [] [] false PNone [].

(** A method: an outcome and the state the object is left in. *)
Definition M (A : Type) : Type := Mesh -> res A * Mesh.

Definition ret {A} (a : A) : M A := fun m => (Ok a, m).
Definition raise {A} (e : exn) : M A := fun m => (Err e, m).
Definition lift {A} (r : res A) : M A := fun m => (r, m).
Definition bind {A B} (c : M A) (k : A -> M B) : M B :=
  fun m => match c m with
           | (Ok a, m') => k a m'
           | (Err e, m') => (Err e, m')
           end.
Definition gets {A} (f : Mesh -> A) : M A := fun m => (Ok (f m), m).
Definition modify (f : Mesh -> Mesh) : M unit := fun m => (Ok tt, f m).
(** [assert b] *)
Definition assert (b : bool) : M unit :=
  if b then ret tt else raise AssertionError.

Declare Scope M_scope.
Delimit Scope M_scope with M.
Notation "x <- c ;; k" := (bind c (fun x => k))
  (at level 61, c at next level, right associativity) : M_scope.
Notation "' pat <- c ;; k" := (bind c (fun x => match x with pat => k end))
  (at level 61, pat pattern, c at next level, right associativity) : M_scope.
Notation "c ;; k" := (bind c (fun _ => k))
  (at level 61, right associativity) : M_scope.
Local Open Scope M_scope.

(** Field assignments [self._f = v]. *)
Definition put_vertices (v : matrix) (m : Mesh) : Mesh :=
  mkMesh v (_edges m) (_center m) (_angle m) (_scale m) (_transform_matrix m)
         (camera m) (focal m) (_transform_matrix_backup m) (_show m) (_color m)
         (_2DVertices m).
Definition put_edges (v : pyobj) (m : Mesh) : Mesh :=
  mkMesh (_vertices m) v (_center m) (_angle m) (_scale m) (_transform_matrix m)
         (camera m) (focal m) (_transform_matrix_backup m) (_show m) (_color m)
         (_2DVertices m).
Definition put_center (v : Point) (m : Mesh) : Mesh :=
  mkMesh (_vertices m) (_edges m) v (_angle m) (_scale m) (_transform_matrix m)
         (camera m) (focal m) (_transform_matrix_backup m) (_show m) (_color m)
         (_2DVertices m).
Definition put_angle (v : Point) (m : Mesh) : Mesh :=
  mkMesh (_vertices m) (_edges m) (_center m) v (_scale m) (_transform_matrix m)
         (camera m) (focal m) (_transform_matrix_backup m) (_show m) (_color m)
         (_2DVertices m).
Definition put_scale (v : Point) (m : Mesh) : Mesh :=
  mkMesh (_vertices m) (_edges m) (_center m) (_angle m) v (_transform_matrix m)
         (camera m) (focal m) (_transform_matrix_backup m) (_show m) (_color m)
         (_2DVertices m).
Definition put_transform_matrix (v : matrix) (m : Mesh) : Mesh :=
  mkMesh (_vertices m) (_edges m) (_center m) (_angle m) (_scale m) v
         (camera m) (focal m) (_transform_matrix_backup m) (_show m) (_color m)
         (_2DVertices m).
Definition put_camera (v : matrix) (m : Mesh) : Mesh :=
  mkMesh (_vertices m) (_edges m) (_center m) (_angle m) (_scale m)
         (_transform_matrix m) v (focal m) (_transform_matrix_backup m)
         (_show m) (_color m) (_2DVertices m).
Definition put_focal (v : matrix) (m : Mesh) : Mesh :=
  mkMesh (_vertices m) (_edges m) (_center m) (_angle m) (_scale m)
         (_transform_matrix m) (camera m) v (_transform_matrix_backup m)
         (_show m) (_color m) (_2DVertices m).
Definition put_transform_matrix_backup (v : matrix) (m : Mesh) : Mesh :=
  mkMesh (_vertices m) (_edges m) (_center m) (_angle m) (_scale m)
         (_transform_matrix m) (camera m) (focal m) v (_show m) (_color m)
         (_2DVertices m).
Definition put_show (v : bool) (m : Mesh) : Mesh :=
  mkMesh (_vertices m) (_edges m) (_center m) (_angle m) (_scale m)
         (_transform_matrix m) (camera m) (focal m) (_transform_matrix_backup m)
         v (_color m) (_2DVertices m).
Definition put_color (v : pyobj) (m : Mesh) : Mesh :=
  mkMesh (_vertices m) (_edges m) (_center m) (_angle m) (_scale m)
         (_transform_matrix m) (camera m) (focal m) (_transform_matrix_backup m)
         (_show m) v (_2DVertices m).
Definition put_2DVertices (v : matrix) (m : Mesh) : Mesh :=
  mkMesh (_vertices m) (_edges m) (_center m) (_angle m) (_scale m)
         (_transform_matrix m) (camera m) (focal m) (_transform_matrix_backup m)
         (_show m) (_color m) v.

(** ** Mesh: the property setters *)

(** [values[3,:] == 1).all()] *)
Definition last_row_all_one (values : matrix) : res bool :=
  match nth_error values 3 with
  | Some row => Ok (forallb (fun x => Reqb x 1) row)
  | None => Err (IndexError "index 3 is out of bounds for axis 0")
  end.

Definition vertices_setter (values : pyobj) : M unit :=
  values <- lift (match values with
                  | PMatrix A => Ok A
                  | _ => asmatrix values
                  end) ;;
  values <- (if negb (Nat.eqb (nrows values) 4)
             then assert (Nat.eqb (ncols values) 4) ;; ret (transpose values)
             else ret values) ;;
  ones <- lift (last_row_all_one values) ;;
  values <- (if negb ones
             then assert (Nat.eqb (ncols values) 4) ;; ret (transpose values)
             else ret values) ;;
  modify (put_vertices values).

Definition edges_setter (values : pyobj) : M unit := modify (put_edges values).

Definition center_setter (center : pyobj) : M unit :=
  match center with
  | PPoint p => modify (put_center p)
  | PNum _ => p <- lift (Point_new [center; center; center]) ;; modify (put_center p)
  | PList l | PTuple l => p <- lift (Point_new l) ;; modify (put_center p)
  | _ => raise (TypeError "center must be set using one of: float, int, list, tuple, Point.")
  end.

Definition angle_setter (angle : pyobj) : M unit :=
  match angle with
  | PPoint p => modify (put_angle p)
  | PNum _ => p <- lift (Point_new [angle; angle; angle]) ;; modify (put_angle p)
  | PList l | PTuple l => p <- lift (Point_new l) ;; modify (put_angle p)
  | _ => raise (TypeError "angle must be set using one of: float, int, list, tuple, Point.")
  end.

(** The first test is an [if] of its own, not the head of the chain: a
    Point is stored and then stored again as [Point( *scale)]. *)
Definition scale_setter (scale : pyobj) : M unit :=
  (match scale with
   | PPoint p => modify (put_scale p)
   | _ => ret tt
   end) ;;
  match scale with
  | PNum _ => p <- lift (Point_new [scale; scale; scale]) ;; modify (put_scale p)
  | PList l | PTuple l => p <- lift (Point_new l) ;; modify (put_scale p)
  | PPoint q => p <- lift (Point_new (Point_components q)) ;; modify (put_scale p)
  | _ => raise (TypeError "scale must be set using one of: float, int, list, tuple, Point.")
  end.

Definition show_setter (value : bool) : M unit := modify (put_show value).
Definition transform_matrix_setter (values : matrix) : M unit :=
  modify (put_transform_matrix values).
Definition transform_matrix_backup_setter (values : matrix) : M unit :=
  modify (put_transform_matrix_backup values).
Definition color_setter (value : pyobj) : M unit := modify (put_color value).

(** ** Mesh: the internal methods *)

Definition _scale_matrix (scale : pyobj) : M matrix :=
  ' (x, y, z) <-
    (match scale with
     | PList l | PTuple l =>
       assert (forallb truthy l) ;;       (* check all values are non-zero *)
       lift (unpack3 scale)
     | PNum s =>
       assert (negb (isclose s 0)) ;;
       ret (scale, scale, scale)
     | _ => raise (TypeError "Invalid scale.")
     end) ;;
  scale_matrix <- lift (np_matrix [[x; PNum 0; PNum 0; PNum 0];
                                   [PNum 0; y; PNum 0; PNum 0];
                                   [PNum 0; PNum 0; z; PNum 0];
                                   [PNum 0; PNum 0; PNum 0; PNum 1]]) ;;
  s <- gets _scale ;;
  s' <- lift (Point_imul s (PList [x; y; z])) ;;
  scale_setter (PPoint s') ;;
  ret scale_matrix.

Definition _shift_matrix (shift : pyobj) : M matrix :=
  ' (x, y, z) <- lift (unpack3 shift) ;;
  shift_matrix <- lift (np_matrix [[PNum 1; PNum 0; PNum 0; x];
                                   [PNum 0; PNum 1; PNum 0; y];
                                   [PNum 0; PNum 0; PNum 1; z];
                                   [PNum 0; PNum 0; PNum 0; PNum 1]]) ;;
  c <- gets _center ;;
  c' <- lift (Point_iadd c shift) ;;
  center_setter (PPoint c') ;;
  ret shift_matrix.

(** [-2*pi <= angle < 2*pi] *)
Definition in_range (angle : R) : bool :=
  Rleb (-2 * PI) angle && Rltb angle (2 * PI).

(** [all(-2*pi <= angle < 2*pi for angle in rotation)]: the generator is
    consumed up to the first component out of range. *)
Fixpoint all_in_range (rotation : list pyobj) : res bool :=
  match rotation with
  | [] => Ok true
  | o :: rest =>
    angle <-? as_num o ;;
    if in_range angle then all_in_range rest else Ok false
  end.

Definition _rotation_matrix (rotation : pyobj) : M matrix :=
  l <- lift (py_iter rotation) ;;
  ok <- lift (all_in_range l) ;;
  assert ok ;;
  ' (alfa, beta, gamma) <- lift (unpack3 rotation) ;;
  alfa <- lift (as_num alfa) ;;
  beta <- lift (as_num beta) ;;
  gamma <- lift (as_num gamma) ;;
  let c_a := cos alfa in let c_b := cos beta in let c_c := cos gamma in
  let s_a := sin alfa in let s_b := sin beta in let s_c := sin gamma in
  let rotation_matrix : matrix :=
    [[c_b*c_c; s_a*s_b*c_c - c_a*s_c; c_a*s_b*c_c + s_a*s_c; 0];
     [c_b*s_c; s_a*s_b*s_c + c_a*c_c; c_a*s_b*s_a - s_a*c_c; 0];
     [   -s_b;               s_a*c_b;               c_a*c_b; 0];
     [      0;                     0;                     0; 1]] in
  a <- gets _angle ;;
  a' <- lift (Point_iadd a rotation) ;;
  angle_setter (PPoint a') ;;
  ret rotation_matrix.

Fixpoint map2 {A B C} (f : A -> B -> C) (u : list A) (v : list B) : list C :=
  match u, v with
  | x :: u', y :: v' => f x y :: map2 f u' v'
  | _, _ => []
  end.

(** [mapped_points[:2, :] / mapped_points[2,:]]: the slice takes the rows
    there are; row 2 must exist; the quotient is taken column by column.
    A zero divisor is no exception in numpy. *)
Definition perspective_divide (mapped_points : matrix) : res matrix :=
  match nth_error mapped_points 2 with
  | Some w => Ok (map (fun r => map2 Rdiv r w) (firstn 2 mapped_points))
  | None => Err (IndexError "index 2 is out of bounds for axis 0")
  end.

Definition _to2D : M matrix :=
  f <- gets focal ;;
  c <- gets camera ;;
  ci <- lift (inv c) ;;
  t <- gets _transform_matrix ;;
  v <- gets _vertices ;;
  p1 <- lift (matmul f ci) ;;
  p2 <- lift (matmul p1 t) ;;
  mapped_points <- lift (matmul p2 v) ;;
  lift (perspective_divide mapped_points).

(** ** Mesh: the public methods *)

Definition applyTransform (center angle scale : pyobj) : M unit :=
  shift_matrix <- _shift_matrix center ;;
  rotation_matrix <- _rotation_matrix angle ;;
  scale_matrix <- _scale_matrix scale ;;
  t <- gets _transform_matrix ;;
  p1 <- lift (matmul scale_matrix rotation_matrix) ;;
  p2 <- lift (matmul p1 shift_matrix) ;;
  p3 <- lift (matmul p2 t) ;;
  transform_matrix_setter p3 ;;
  v2d <- _to2D ;;
  modify (put_2DVertices v2d).

Definition reset : M unit :=
  b <- gets _transform_matrix_backup ;;
  transform_matrix_setter b.

Definition disable : M unit := show_setter false.
Definition enable : M unit := show_setter true.

Definition temp : R := sqrt 2 / 2.

Definition the_camera : matrix :=
  [[ temp; temp; 0; 1];
   [-temp; temp; 0; 0];
   [    0;    0; 1; 0];
   [    0;    0; 0; 1]].

Definition the_focal : matrix :=
  [[5; 0; 0; 0];
   [0; 5; 0; 0];
   [0; 0; 1; 0]].

Definition init_body (vertices edges center angle scale color : pyobj) : M unit :=
  vertices_setter vertices ;;
  edges_setter edges ;;
  center_setter center ;;
  angle_setter angle ;;
  scale_setter scale ;;
  transform_matrix_setter (identity 4) ;;
  modify (put_camera the_camera) ;;
  modify (put_focal the_focal) ;;
  applyTransform center angle scale ;;
  t <- gets _transform_matrix ;;
  modify (put_transform_matrix_backup t) ;;
  show_setter true ;;
  color_setter color.

(** [Mesh(vertices, edges, center, angle, scale, color)]: the object when
    [__init__] returns, the exception when it raises. *)
Definition __init__ (vertices edges center angle scale color : pyobj) : res Mesh :=
  match init_body vertices edges center angle scale color blank with
  | (Ok _, m) => Ok m
  | (Err e, _) => Err e
  end.

(** ** The tracked scale on binary64 floats

    The numbers above are real numbers.  What becomes of the tracked scale
    when its products are rounded is followed here on Python's floats, for
    a Mesh constructed with a number [s] as its scale: the scale setter
    stores [Point(s, s, s)]; [_scale_matrix], called by [applyTransform],
    asserts [not isclose(s, 0)], takes [x = y = z = s] and multiplies the
    stored scale by [[x, y, z]]. *)

(** [math.isclose(a, b)] with its default tolerances, on floats: equal
    numbers are close, an infinity is close to nothing else, and otherwise
    the difference is compared with [rel_tol] times either number and
    with [abs_tol = 0.0]. *)
Definition isclose_float (a b : PrimFloat.float) : bool :=
  PrimFloat.eqb a b
  || (negb (PrimFloat.eqb (PrimFloat.abs a) PrimFloat.infinity
            || PrimFloat.eqb (PrimFloat.abs b) PrimFloat.infinity)
      && (PrimFloat.leb (PrimFloat.abs (PrimFloat.sub b a))
                        (PrimFloat.abs (PrimFloat.mul 1e-09%float b))
          || PrimFloat.leb (PrimFloat.abs (PrimFloat.sub b a))
                           (PrimFloat.abs (PrimFloat.mul 1e-09%float a))
          || PrimFloat.leb (PrimFloat.abs (PrimFloat.sub b a)) 0%float)).

(** The tracked scale of [Mesh(vertices, edges, center, angle, s)] for a
    float [s], when the constructor gets as far as [_scale_matrix] and
    past it; [None] when the assert of [_scale_matrix] fails.
    Modelled from the spec: [Point]'s [*=], which is in
    [packages/point.py], multiplies component by component. *)
Definition scale_after_init_float (s : PrimFloat.float)
  : option (PrimFloat.float * PrimFloat.float * PrimFloat.float) :=
  let stored := (s, s, s) in              (* self._scale = Point(scale, scale, scale) *)
  if isclose_float s 0%float then None    (* assert not isclose(scale, 0) *)
  else
    let '(x, y, z) := (s, s, s) in        (* x = y = z = scale *)
    let '(sx, sy, sz) := stored in        (* self.scale *= [x, y, z] *)
    Some (PrimFloat.mul sx x, PrimFloat.mul sy y, PrimFloat.mul sz z).

(** ** Mesh: reading a vertex *)

(** The argument of [getVertex] and [get2DVertex]: an [int], or a value
    of another type (a number that is no [int] is a [float]). *)
Inductive index_arg : Type :=
| Int (i : Z)
| NotInt (o : pyobj).

(** [isinstance(i, int)] *)
Definition is_int (i : index_arg) : bool :=
  match i with Int _ => true | NotInt _ => false end.

(** The position an integer index [i] denotes on an axis of [size]
    entries: [i] itself from 0 on, [size + i] for a negative [i]; an
    [IndexError] outside [-size, size). *)
Definition np_index (size : nat) (i : Z) : res nat :=
  if ((0 <=? i) && (i <? Z.of_nat size))%Z then Ok (Z.to_nat i)
  else if ((- Z.of_nat size <=? i) && (i <? 0))%Z
       then Ok (Z.to_nat (Z.of_nat size + i))
       else Err (IndexError "index is out of bounds for axis 1").

(** Column [j] as a matrix of one column. *)
Definition column (j : nat) (A : matrix) : matrix := map (fun r => [nth j r 0]) A.

(** [A[:, i]] *)
Definition get_column (A : matrix) (i : index_arg) : res matrix :=
  match i with
  | Int z => j <-? np_index (ncols A) z ;; Ok (column j A)
  | NotInt _ => Err (IndexError "only integers are valid indices")
  end.

Definition get2DVertex (i : index_arg) : M matrix :=
  assert (is_int i) ;;
  v <- gets _2DVertices ;;
  lift (get_column v i).

Definition getVertex (i : index_arg) : M matrix :=
  assert (is_int i) ;;
  v <- gets _vertices ;;
  lift (get_column v i).

(** ** The document tree and its reader *)

(** A node of the parsed document: [v['name']], [v['children']] and the
    ['value'] of each entry of [v['properties']]. *)
Inductive node : Type :=
| Node (name : string) (children : list node) (properties : list pyobj).

Definition name (v : node) : string := let (n, _, _) := v in n.
Definition children (v : node) : list node := let (_, c, _) := v in c.
Definition properties (v : node) : list pyobj := let (_, _, p) := v in p.

(** [l[i]] on a list *)
Definition getitem {A} (l : list A) (i : nat) : res A :=
  match nth_error l i with
  | Some a => Ok a
  | None => Err (IndexError "list index out of range")
  end.

(** [o[0]] on a value *)
Definition py_getitem0 (o : pyobj) : res pyobj :=
  match o with
  | PStr EmptyString => Err (IndexError "string index out of range")
  | PStr (String c _) => Ok (PStr (String c EmptyString))
  | PList l | PTuple l => getitem l 0
  | _ => Err (TypeError "object is not subscriptable")
  end.

(** [o == s] for a string literal [s] *)
Definition py_eq_str (o : pyobj) (s : string) : bool :=
  match o with
  | PStr t => String.eqb t s
  | _ => false
  end.

(** The local variables of [readFBX] that the loop updates. *)
Record locals : Type := mkLocals {
  mesh_list : list Mesh;
  counter : nat;
  center : list pyobj;
  angle : list pyobj;
  scale : list pyobj
}.

Fixpoint list_set {A} (l : list A) (i : nat) (a : A) : list A :=
  match l, i with
  | [], _ => []
  | _ :: t, O => a :: t
  | h :: t, S i' => h :: list_set t i' a
  end.

(** One pass of the inner loop, over an attribute [v2] of a "Model". *)
Definition read_attribute (st : locals) (v2 : node) : res locals :=
  p0 <-? getitem (properties v2) 0 ;;
  if py_eq_str p0 "Lcl Translation" then
    c <-? mapM (fun idx => getitem (properties v2) idx) [4; 5; 6]%nat ;;
    Ok (mkLocals (mesh_list st) (counter st) c (angle st) (scale st))
  else if py_eq_str p0 "Lcl Rotation" then
    a <-? mapM (fun idx => v <-? getitem (properties v2) idx ;;
                           r <-? radians v ;; Ok (PNum r)) [4; 5; 6]%nat ;;
    Ok (mkLocals (mesh_list st) (counter st) (center st) a (scale st))
  else
    p00 <-? py_getitem0 p0 ;;
    if py_eq_str p00 "Lcl Scaling" then
      s <-? mapM (fun idx => v <-? getitem (properties v2) idx ;;
                             r <-? as_num v ;; Ok (PNum (r / 100))) [4; 5; 6]%nat ;;
      Ok (mkLocals (mesh_list st) (counter st) (center st) (angle st) (scale st ++ s))
    else Ok st.

Fixpoint foldM {A B} (f : A -> B -> res A) (a : A) (l : list B) : res A :=
  match l with
  | [] => Ok a
  | b :: l' => a' <-? f a b ;; foldM f a' l'
  end.

(** One pass of the outer loop, over a child [v] of the object list. *)
Definition read_child (st : locals) (v : node) : res locals :=
  if String.eqb (name v) "Geometry" then
    c2 <-? getitem (children v) 2 ;;
    vertices <-? getitem (properties c2) 0 ;;
    c4 <-? getitem (children v) 4 ;;
    edges <-? getitem (properties c4) 0 ;;
    new_mesh <-? __init__ vertices edges (PList (center st)) (PList (angle st))
                          (PList (scale st)) (PStr "b") ;;
    Ok (mkLocals (mesh_list st ++ [new_mesh]) (counter st)
                 (center st) (angle st) (scale st))
  else if String.eqb (name v) "Model" then
    c1 <-? getitem (children v) 1 ;;
    st <-? foldM read_attribute st (children c1) ;;
    old <-? getitem (mesh_list st) (counter st) ;;
    new_mesh <-? __init__ (PMatrix (_vertices old)) (_edges old)
                          (PList (center st)) (PList (angle st))
                          (PList (scale st)) (PStr "b") ;;
    Ok (mkLocals (list_set (mesh_list st) (counter st) new_mesh)
                 (S (counter st))
                 [PNum 0; PNum 0; PNum 0] [PNum 0; PNum 0; PNum 0] [])
  else Ok st.

(** The local variables of [readFBX] when its loop starts: no Mesh, the
    counter at 0, [center = [0, 0, 0]], [angle = [0, 0, 0]], [scale = []]. *)
Definition initial_locals : locals :=
  mkLocals [] 0 [PNum 0; PNum 0; PNum 0] [PNum 0; PNum 0; PNum 0] [].

(** [readFBX], from the parsed document [data] on: the conversion of the
    file and the JSON parsing that produce [data] are outside. *)
Definition readFBX (data : node) : res (list Mesh) :=
  objects <-? getitem (children data) 8 ;;
  st <-? foldM read_child initial_locals (children objects) ;;
  Ok (mesh_list st).

(** ** The converter and the file system

    [fbx2json] and the head of [readFBX] act on the operating system.
    They are programs over the calls they make; what the operating system
    answers is left open: a run is taken against any behaviour of it, and
    records the calls in their order. *)

(** What such a program may raise: an exception of the kinds above,
    [FileExistsError], or whatever a call of the operating system raises. *)
Inductive io_exn : Type :=
| PyError (e : exn)
| FileExistsError (msg : string)
| OSError (msg : string).

(** The calls, each with the type of its answer. *)
Inductive os_call : Type -> Type :=
| Chdir (path : string) : os_call unit            (* os.chdir(path) *)
| PathExists (path : option string) : os_call bool (* os.path.exists(path) *)
| Remove (path : option string) : os_call unit    (* os.remove(path) *)
| System (command : string) : os_call Z           (* os.system(command) *)
| LoadJson (path : string) : os_call node.        (* open(path, 'r'), json.load *)

Inductive io (A : Type) : Type :=
| io_ret (a : A)
| io_raise (e : io_exn)
| io_call (X : Type) (c : os_call X) (k : X -> io A).
Arguments io_ret {A} a.
Arguments io_raise {A} e.
Arguments io_call {A X} c k.

Fixpoint io_bind {A B} (p : io A) (f : A -> io B) : io B :=
  match p with
  | io_ret a => f a
  | io_raise e => io_raise e
  | io_call c k => io_call c (fun x => io_bind (k x) f)
  end.

Definition call {X} (c : os_call X) : io X := io_call c io_ret.

Definition io_lift {A} (r : res A) : io A :=
  match r with
  | Ok a => io_ret a
  | Err e => io_raise (PyError e)
  end.

Declare Scope io_scope.
Delimit Scope io_scope with io.
Notation "x <- c ;; k" := (io_bind c (fun x => k))
  (at level 61, c at next level, right associativity) : io_scope.
Notation "c ;; k" := (io_bind c (fun _ => k))
  (at level 61, right associativity) : io_scope.

(** A call as it is recorded. *)
Inductive event : Type :=
| EChdir (path : string)
| EExists (path : option string)
| ERemove (path : option string)
| ESystem (command : string)
| ELoadJson (path : string).

Definition event_of {X} (c : os_call X) : event :=
  match c with
  | Chdir p => EChdir p
  | PathExists p => EExists p
  | Remove p => ERemove p
  | System cmd => ESystem cmd
  | LoadJson p => ELoadJson p
  end.

(** A behaviour of the operating system: the answer to a call, or the
    exception it raises, given the calls made so far. *)
Definition os : Type := list event -> forall X, os_call X -> X + io_exn.

Inductive outcome (A : Type) : Type :=
| Returned (a : A)
| Raised (e : io_exn).
Arguments Returned {A} a.
Arguments Raised {A} e.

(** The run of a program after the calls [done]: its outcome and the
    calls made, in their order. *)
Fixpoint run {A} (sys : os) (p : io A) (done : list event) : outcome A * list event :=
  match p with
  | io_ret a => (Returned a, done)
  | io_raise e => (Raised e, done)
  | io_call c k =>
    match sys done _ c with
    | inl x => run sys (k x) (done ++ [event_of c])
    | inr e => (Raised e, done ++ [event_of c])
    end
  end.

(** [str(path)] in the f-string *)
Definition str_of_path (path : option string) : string :=
  match path with
  | Some p => p
  | None => "None"
  end.

(** [prefix + path] on strings: [None] cannot be concatenated. *)
Definition str_concat (prefix : string) (path : option string) : res string :=
  match path with
  | Some p => Ok (prefix ++ p)%string
  | None => Err (TypeError "can only concatenate str (not NoneType) to str")
  end.

Definition fbx2json (input : string) (output : option string) (force : bool) : io unit :=
  (call (Chdir "src/script") ;;
   found <- call (PathExists output) ;;
   (if found
    then if force
         then call (Remove output)
         else io_raise (FileExistsError (str_of_path output ++ " already exists."))
    else io_ret tt) ;;
   input <- io_lift (str_concat ("readFbxInfo.exe " ++ input ++ " >> ") output) ;;
   call (System input) ;;
   io_ret tt)%io.

(** [readFBX(fbx_path, json_path, overwrite)] as a whole: the conversion,
    the reading of the file it names, and the traversal [readFBX] above. *)
Definition readFBX_file (fbx_path : string) (json_path : option string)
           (overwrite : bool) : io (list Mesh) :=
  (fbx2json fbx_path json_path overwrite ;;
   path <- io_lift (str_concat "../" json_path) ;;
   data <- call (LoadJson path) ;;
   io_lift (readFBX data))%io.

(** * Notions used in the statements *)

(** ** Arguments of the methods *)

(** A three-component argument: a list, a tuple or a Point of numbers. *)
Inductive is_vec3 : pyobj -> R -> R -> R -> Prop :=
| vec3_list x y z : is_vec3 (PList [PNum x; PNum y; PNum z]) x y z
| vec3_tuple x y z : is_vec3 (PTuple [PNum x; PNum y; PNum z]) x y z
| vec3_point x y z : is_vec3 (PPoint (mkPoint x y z)) x y z.

(** A scale argument that [_scale_matrix] reads as the factors
    [x], [y], [z]: a list or a tuple of three numbers, or one number. *)
Inductive is_scale : pyobj -> R -> R -> R -> Prop :=
| scale_list x y z : is_scale (PList [PNum x; PNum y; PNum z]) x y z
| scale_tuple x y z : is_scale (PTuple [PNum x; PNum y; PNum z]) x y z
| scale_num s : is_scale (PNum s) s s s.

(** A scale argument with a zero in it: the number zero, or a list or a
    tuple one component of which is the number zero. *)
Inductive has_zero : pyobj -> Prop :=
| zero_num : has_zero (PNum 0)
| zero_list l : In (PNum 0) l -> has_zero (PList l)
| zero_tuple l : In (PNum 0) l -> has_zero (PTuple l).

(** ** The factor matrices *)

Definition shift_mat (x y z : R) : matrix :=
  [[1; 0; 0; x];
   [0; 1; 0; y];
   [0; 0; 1; z];
   [0; 0; 0; 1]].

Definition rot_mat (alfa beta gamma : R) : matrix :=
  [[cos beta * cos gamma;
    sin alfa * sin beta * cos gamma - cos alfa * sin gamma;
    cos alfa * sin beta * cos gamma + sin alfa * sin gamma; 0];
   [cos beta * sin gamma;
    sin alfa * sin beta * sin gamma + cos alfa * cos gamma;
    cos alfa * sin beta * sin alfa - sin alfa * cos gamma; 0];
   [- sin beta; sin alfa * cos beta; cos alfa * cos beta; 0];
   [0; 0; 0; 1]].

Definition scale_mat (x y z : R) : matrix :=
  [[x; 0; 0; 0];
   [0; y; 0; 0];
   [0; 0; z; 0];
   [0; 0; 0; 1]].

(** The inverse of the fixed camera. *)
Definition camera_inv : matrix :=
  [[temp; - temp; 0; - temp];
   [temp;   temp; 0; - temp];
   [   0;      0; 1;      0];
   [   0;      0; 0;      1]].

(** Entry (i, j) of a matrix. *)
Definition entry (i j : nat) (A : matrix) : R := nth j (nth i A []) 0.

(** The elementary rotations about the axes x, y and z, and their
    composition z · y · x, for comparison with [rot_mat]. *)
Definition rot_x (t : R) : matrix :=
  [[1; 0; 0; 0];
   [0; cos t; - sin t; 0];
   [0; sin t; cos t; 0];
   [0; 0; 0; 1]].

Definition rot_y (t : R) : matrix :=
  [[cos t; 0; sin t; 0];
   [0; 1; 0; 0];
   [- sin t; 0; cos t; 0];
   [0; 0; 0; 1]].

Definition rot_z (t : R) : matrix :=
  [[cos t; - sin t; 0; 0];
   [sin t; cos t; 0; 0];
   [0; 0; 1; 0];
   [0; 0; 0; 1]].

Definition rot_zyx (alfa beta gamma : R) : matrix :=
  mmul (mmul (rot_z gamma) (rot_y beta)) (rot_x alfa).

(** ** Vertex buffers *)

(** The rows have one length, as the rows of a numpy matrix have. *)
Definition rect (A : matrix) : Prop :=
  Forall (fun r => length r = ncols A) A.

(** The nested list of the rows of [A], as a Python value. *)
Definition nested (A : matrix) : pyobj :=
  PList (map (fun r => PList (map PNum r)) A).

(** Every entry of the row is 1. *)
Definition all_ones (row : list R) : Prop := Forall (fun x => x = 1) row.

(** A vertices argument as Python can hand it over: a numpy matrix is
    rectangular. *)
Definition numpy_input (values : pyobj) : Prop :=
  match values with
  | PMatrix A => rect A
  | _ => True
  end.

(** ** States of a Mesh *)

(** What [__init__] establishes and every method keeps: the transform is
    4×4, the vertex buffer has 4 rows, camera and focal are the fixed ones. *)
Definition wf_mesh (m : Mesh) : Prop :=
  has_shape 4 4 (_transform_matrix m)
  /\ (exists n, has_shape 4 n (_vertices m))
  /\ camera m = the_camera
  /\ focal m = the_focal.

(** The state of a constructed Mesh: [wf_mesh], and the backup is 4×4. *)
Definition constructed (m : Mesh) : Prop :=
  wf_mesh m /\ has_shape 4 4 (_transform_matrix_backup m).

(** The fields that [applyTransform] has no assignment to. *)
Definition same_base (m m' : Mesh) : Prop :=
  _vertices m' = _vertices m
  /\ _edges m' = _edges m
  /\ camera m' = camera m
  /\ focal m' = focal m
  /\ _transform_matrix_backup m' = _transform_matrix_backup m
  /\ _show m' = _show m
  /\ _color m' = _color m.

(** A Mesh of two vertices, (0,0,0) and (1,0,0), with the identity as
    its transform. *)
Definition sample_mesh : Mesh :=
  mkMesh [[0; 1]; [0; 0]; [0; 0]; [1; 1]] (PList [PNum 0; PNum 1])
         (mkPoint 0 0 0) (mkPoint 0 0 0) (mkPoint 1 1 1)
         (identity 4) the_camera the_focal (identity 4) true (PStr "b") [].

(** A Mesh of two vertices in front of the camera, (0,0,1) and (1,0,2),
    with the identity as its transform. *)
Definition front_mesh : Mesh :=
  mkMesh [[0; 1]; [0; 0]; [1; 2]; [1; 1]] (PList [PNum 0; PNum 1])
         (mkPoint 0 0 0) (mkPoint 0 0 0) (mkPoint 1 1 1)
         (identity 4) the_camera the_focal (identity 4) true (PStr "b") [].

(** ** The two halves of applyTransform, and sequences of calls *)

(** The first three statements of [applyTransform]: the factors, built
    in its order on the running state. *)
Definition build_factors (center angle scale : pyobj) : M (matrix * matrix * matrix) :=
  shift_matrix <- _shift_matrix center ;;
  rotation_matrix <- _rotation_matrix angle ;;
  scale_matrix <- _scale_matrix scale ;;
  ret (shift_matrix, rotation_matrix, scale_matrix).

(** The remaining statements of [applyTransform]: the product is
    assigned and the projection recomputed. *)
Definition commit (shift_matrix rotation_matrix scale_matrix : matrix) : M unit :=
  t <- gets _transform_matrix ;;
  p1 <- lift (matmul scale_matrix rotation_matrix) ;;
  p2 <- lift (matmul p1 shift_matrix) ;;
  p3 <- lift (matmul p2 t) ;;
  transform_matrix_setter p3 ;;
  v2d <- _to2D ;;
  modify (put_2DVertices v2d).

(** A caller that issues [applyTransform] calls one after the other and
    carries on after a call that raised: the state after the calls. *)
Definition run_calls (m : Mesh) (calls : list (pyobj * pyobj * pyobj)) : Mesh :=
  fold_left (fun m '(c, a, s) => snd (applyTransform c a s m)) calls m.

(** An accepted call, by the numbers in its arguments: the components of
    the center, of the angle and of the scale. *)
Record placement : Type := mkPlacement {
  p_x : R; p_y : R; p_z : R;
  p_alfa : R; p_beta : R; p_gamma : R;
  p_sx : R; p_sy : R; p_sz : R
}.

(** The arguments [(center, angle, scale)] are read as the placement [p],
    and are ones that [applyTransform] accepts. *)
Definition accepts (call : pyobj * pyobj * pyobj) (p : placement) : Prop :=
  let '(c, a, s) := call in
  is_vec3 c (p_x p) (p_y p) (p_z p)
  /\ is_vec3 a (p_alfa p) (p_beta p) (p_gamma p)
  /\ in_range (p_alfa p) = true /\ in_range (p_beta p) = true
  /\ in_range (p_gamma p) = true
  /\ is_scale s (p_sx p) (p_sy p) (p_sz p)
  /\ p_sx p <> 0 /\ p_sy p <> 0 /\ p_sz p <> 0.

(** The matrix an accepted call multiplies onto the transform. *)
Definition factor (p : placement) : matrix :=
  mmul (mmul (scale_mat (p_sx p) (p_sy p) (p_sz p))
             (rot_mat (p_alfa p) (p_beta p) (p_gamma p)))
       (shift_mat (p_x p) (p_y p) (p_z p)).

(** The stored projection is the projection of the state. *)
Definition fresh (m : Mesh) : Prop := _to2D m = (Ok (_2DVertices m), m).

(** A call of a public method on a constructed Mesh. *)
Inductive method : Type :=
| ApplyTransform (center angle scale : pyobj)
| Reset
| Enable
| Disable
| GetVertex (i : index_arg)
| Get2DVertex (i : index_arg).

(** The state the call leaves, whether it returns or raises. *)
Definition state_after (m : Mesh) (c : method) : Mesh :=
  match c with
  | ApplyTransform c a s => snd (applyTransform c a s m)
  | Reset => snd (reset m)
  | Enable => snd (enable m)
  | Disable => snd (disable m)
  | GetVertex i => snd (getVertex i m)
  | Get2DVertex i => snd (get2DVertex i m)
  end.

Definition run_methods (m : Mesh) (calls : list method) : Mesh :=
  fold_left state_after calls m.

(** ** Vertex buffers the setter takes *)

(** Homogeneous coordinates: four rows, the last one all ones. *)
Definition homogeneous (A : matrix) : Prop :=
  nrows A = 4%nat /\ all_ones (nth 3 A []).

(** ** Documents *)

(** The document of the end-to-end scenario: the object list, child 8
    of the root, holds a "Geometry" node and then a "Model" node. *)
Definition leaf (props : list pyobj) : node := Node "" [] props.

Definition scenario_vertices : pyobj :=
  nested [[0; 0; 0; 1]; [1; 0; 0; 1]].

Definition scenario_edges : pyobj := PList [PNum 0; PNum 1].

Definition scenario_geometry : node :=
  Node "Geometry"
       [leaf []; leaf []; leaf [scenario_vertices]; leaf []; leaf [scenario_edges]]
       [].

(** An attribute of a "Model": its name is property 0, its three values
    are properties 4, 5 and 6. *)
Definition attribute (attr : string) (x y z : R) : node :=
  Node "P" [] [PStr attr; PStr attr; PStr ""; PStr "A"; PNum x; PNum y; PNum z].

Definition scenario_model : node :=
  Node "Model"
       [leaf [];
        Node "Properties70"
             [attribute "Lcl Translation" 1 0 0;
              attribute "Lcl Rotation" 0 0 0;
              attribute "Lcl Scaling" 100 100 100]
             []]
       [].

Definition scenario : node :=
  Node ""
       [leaf []; leaf []; leaf []; leaf []; leaf []; leaf []; leaf []; leaf [];
        Node "Objects" [scenario_geometry; scenario_model] []]
       [].

(** A document whose object list holds one "Geometry" node. *)
Definition geometry_only : node :=
  Node ""
       [leaf []; leaf []; leaf []; leaf []; leaf []; leaf []; leaf []; leaf [];
        Node "Objects" [scenario_geometry] []]
       [].

(** A document whose object list is empty. *)
Definition empty_document : node :=
  Node ""
       [leaf []; leaf []; leaf []; leaf []; leaf []; leaf []; leaf []; leaf [];
        Node "Objects" [] []]
       [].

(** An operating system on which every call succeeds: no file is there
    before the conversion, the converter exits with status 0, and the file
    that is read parses to [data]. *)
Definition quiet_os (data : node) : os :=
  fun _ X c =>
    match c in os_call X return X + io_exn with
    | Chdir _ => inl tt
    | PathExists _ => inl false
    | Remove _ => inl tt
    | System _ => inl 0%Z
    | LoadJson _ => inl data
    end.

(** * Properties *)

(** ** The tests on numbers *)

Lemma Reqb_eq (x y : R) : Reqb x y = true <-> x = y.
Proof. unfold Reqb. destruct (Req_dec_T x y); split; congruence. Qed.

Lemma Reqb_neq (x y : R) : Reqb x y = false <-> x <> y.
Proof. unfold Reqb. destruct (Req_dec_T x y); split; congruence. Qed.

Lemma Rleb_le (x y : R) : Rleb x y = true <-> x <= y.
Proof. unfold Rleb. destruct (Rle_dec x y); split; congruence. Qed.

Lemma Rleb_gt (x y : R) : Rleb x y = false <-> y < x.
Proof.
  unfold Rleb. destruct (Rle_dec x y); split; try congruence; intros; lra.
Qed.

Lemma Rltb_lt (x y : R) : Rltb x y = true <-> x < y.
Proof. unfold Rltb. destruct (Rlt_dec x y); split; congruence. Qed.

Lemma Rltb_ge (x y : R) : Rltb x y = false <-> y <= x.
Proof.
  unfold Rltb. destruct (Rlt_dec x y); split; try congruence; intros; lra.
Qed.

Lemma in_range_iff (a : R) : in_range a = true <-> -2 * PI <= a < 2 * PI.
Proof.
  unfold in_range. rewrite andb_true_iff, Rleb_le, Rltb_lt. tauto.
Qed.

Lemma in_range_0 : in_range 0 = true.
Proof. apply in_range_iff. pose proof PI_RGT_0. lra. Qed.

Lemma zero_in_range : -2 * PI <= 0 < 2 * PI.
Proof. pose proof PI_RGT_0. lra. Qed.

Lemma ten_out_of_range : ~ (-2 * PI <= 10 < 2 * PI).
Proof. pose proof PI_4. lra. Qed.

Lemma forallb_in_range_true (l : list R) :
  Forall (fun x => -2 * PI <= x < 2 * PI) l -> forallb in_range l = true.
Proof.
  induction 1 as [|x l Hx _ IH]; [reflexivity|].
  cbn [forallb]. rewrite IH, andb_true_r. apply in_range_iff, Hx.
Qed.

Lemma forallb_in_range_false (l : list R) :
  Exists (fun x => ~ (-2 * PI <= x < 2 * PI)) l -> forallb in_range l = false.
Proof.
  induction 1 as [x l Hx|x l _ IH]; cbn [forallb].
  - destruct (in_range x) eqn:E; [|reflexivity].
    apply in_range_iff in E. contradiction.
  - rewrite IH. apply andb_false_r.
Qed.

(** [isclose(s, 0)] with the default tolerances is the test [s == 0]. *)
Lemma isclose_0 (s : R) : isclose s 0 = Reqb s 0.
Proof.
  unfold isclose, rel_tol.
  destruct (Reqb s 0) eqn:E; [reflexivity|].
  apply Reqb_neq in E. cbn [orb].
  assert (H0 : 0 < Rabs s) by (apply Rabs_pos_lt; exact E).
  assert (Hd : Rabs (0 - s) = Rabs s)
    by (replace (0 - s) with (- s) by ring; apply Rabs_Ropp).
  rewrite Hd.
  replace (Rleb (Rabs s) (Rabs (/ 1000000000 * 0))) with false.
  2:{ symmetry. apply Rleb_gt. rewrite Rmult_0_r, Rabs_R0. exact H0. }
  replace (Rleb (Rabs s) (Rabs (/ 1000000000 * s))) with false.
  2:{ symmetry. apply Rleb_gt. rewrite Rabs_mult.
      rewrite (Rabs_pos_eq (/ 1000000000)) by lra. lra. }
  replace (Rleb (Rabs s) 0) with false.
  2:{ symmetry. apply Rleb_gt. exact H0. }
  reflexivity.
Qed.

Lemma forallb_ones (row : list R) :
  forallb (fun x => Reqb x 1) row = true <-> all_ones row.
Proof.
  unfold all_ones. rewrite forallb_forall, Forall_forall.
  split; intros H x Hx; apply Reqb_eq, H, Hx.
Qed.

Lemma forallb_ones_false (row : list R) :
  forallb (fun x => Reqb x 1) row = false <-> ~ all_ones row.
Proof.
  rewrite <- forallb_ones. destruct (forallb _ row); split; congruence.
Qed.

Lemma forallb_truthy_zero (l : list pyobj) :
  In (PNum 0) l -> forallb truthy l = false.
Proof.
  induction l as [|x l IH]; [contradiction|].
  intros [->|H]; cbn [forallb truthy].
  - rewrite (proj2 (Reqb_eq 0 0) eq_refl). reflexivity.
  - rewrite (IH H). apply andb_false_r.
Qed.

(** ** Matrices: shapes and products *)

Lemma transpose_length (A : matrix) : length (transpose A) = ncols A.
Proof. unfold transpose. now rewrite length_map, length_seq. Qed.

Lemma col_length j (A : matrix) : length (col j A) = length A.
Proof. unfold col. apply length_map. Qed.

Lemma has_shape_ncols r c (A : matrix) : has_shape (S r) c A -> ncols A = c.
Proof.
  intros [Hl Hr]. destruct A as [|row A]; [discriminate|].
  inversion Hr; subst. reflexivity.
Qed.

Lemma has_shape_nrows r c (A : matrix) : has_shape r c A -> nrows A = r.
Proof. intros [Hl _]. exact Hl. Qed.

Lemma transpose_shape (A : matrix) c :
  ncols A = c -> has_shape c (length A) (transpose A).
Proof.
  intros Hc. split.
  - now rewrite transpose_length.
  - unfold transpose. apply Forall_forall. intros r Hin.
    apply in_map_iff in Hin as (j & <- & _). apply col_length.
Qed.

Lemma transpose_row (A : matrix) j :
  (j < ncols A)%nat -> nth_error (transpose A) j = Some (col j A).
Proof.
  intros Hj. unfold transpose.
  rewrite nth_error_map, nth_error_seq.
  destruct (Nat.ltb_spec j (ncols A)); [reflexivity|lia].
Qed.

Lemma mmul_shape r k c (A B : matrix) :
  length A = r -> has_shape (S k) c B -> has_shape r c (mmul A B).
Proof.
  intros HA HB. unfold mmul. split.
  - now rewrite length_map.
  - apply Forall_forall. intros row Hin. apply in_map_iff in Hin as (u & <- & _).
    rewrite length_map, transpose_length. exact (has_shape_ncols _ _ _ HB).
Qed.

Lemma matmul_ok (A B : matrix) :
  ncols A = nrows B -> matmul A B = Ok (mmul A B).
Proof. unfold matmul. intros ->. now rewrite Nat.eqb_refl. Qed.

Lemma shift_mat_shape x y z : has_shape 4 4 (shift_mat x y z).
Proof. split; [reflexivity|repeat constructor]. Qed.

Lemma rot_mat_shape a b c : has_shape 4 4 (rot_mat a b c).
Proof. split; [reflexivity|repeat constructor]. Qed.

Lemma scale_mat_shape x y z : has_shape 4 4 (scale_mat x y z).
Proof. split; [reflexivity|repeat constructor]. Qed.

Lemma identity_4_shape : has_shape 4 4 (identity 4).
Proof. split; [reflexivity|repeat constructor]. Qed.

Create HintDb shapes.
#[local] Hint Resolve shift_mat_shape rot_mat_shape scale_mat_shape
  identity_4_shape : shapes.

Lemma map2_length {A B C} (f : A -> B -> C) (u : list A) (v : list B) n :
  length u = n -> length v = n -> length (map2 f u v) = n.
Proof.
  revert v n. induction u as [|x u IH]; intros [|y v] n Hu Hv; cbn in *;
    try congruence.
  destruct n; [discriminate|]. f_equal. apply IH; congruence.
Qed.

Lemma map2_nth (f : R -> R -> R) (u v : list R) n j :
  length u = n -> length v = n -> (j < n)%nat ->
  nth j (map2 f u v) 0 = f (nth j u 0) (nth j v 0).
Proof.
  revert v n j. induction u as [|x u IH]; intros [|y v] n j Hu Hv Hj;
    cbn in *; try lia.
  destruct j as [|j]; [reflexivity|].
  destruct n; [lia|]. apply (IH v n j); lia.
Qed.

Lemma mapM_length {A B} (f : A -> res B) (l : list A) (l' : list B) :
  mapM f l = Ok l' -> length l' = length l.
Proof.
  revert l'. induction l as [|a l IH]; intros l'; cbn [mapM rbind].
  - intros H; inversion H; reflexivity.
  - destruct (f a); [|discriminate]. destruct (mapM f l); [|discriminate].
    intros H; inversion H; subst. cbn. f_equal. apply IH. reflexivity.
Qed.

Lemma np_matrix_shape (rows : list (list pyobj)) (A : matrix) (c : nat) :
  np_matrix rows = Ok A ->
  Forall (fun r => length r = c) rows ->
  has_shape (length rows) c A.
Proof.
  unfold np_matrix. revert A. induction rows as [|r rows IH]; intros A; cbn [mapM rbind].
  - intros H _; inversion H. split; [reflexivity|constructor].
  - destruct (num_row r) as [row|] eqn:Er; [|discriminate].
    destruct (mapM num_row rows) as [A'|]; [|discriminate].
    intros H F; inversion H; subst. inversion F; subst.
    destruct (IH A' eq_refl) as [L F']; [assumption|].
    split; [cbn; now rewrite L|].
    constructor; [|exact F']. apply mapM_length in Er. exact Er.
Qed.

Lemma num_row_nums (r : list R) : num_row (map PNum r) = Ok r.
Proof.
  unfold num_row. induction r as [|x r IH]; [reflexivity|].
  cbn [map mapM as_num rbind]. now rewrite IH.
Qed.

Lemma length_4_inv (r : list R) :
  length r = 4%nat -> exists a b c d, r = [a; b; c; d].
Proof.
  destruct r as [|a [|b [|c [|d [|? ?]]]]]; try discriminate. eauto.
Qed.

Lemma has_shape_4_4_inv (A : matrix) :
  has_shape 4 4 A ->
  exists r0 r1 r2 r3,
    A = [r0; r1; r2; r3]
    /\ length r0 = 4%nat /\ length r1 = 4%nat
    /\ length r2 = 4%nat /\ length r3 = 4%nat.
Proof.
  intros [L F].
  destruct A as [|r0 [|r1 [|r2 [|r3 [|? ?]]]]]; try discriminate.
  inversion F as [|? ? E0 F0]; subst. inversion F0 as [|? ? E1 F1]; subst.
  inversion F1 as [|? ? E2 F2]; subst. inversion F2 as [|? ? E3 _]; subst.
  exists r0, r1, r2, r3. auto.
Qed.

Ltac explode_4_4 H :=
  let r0 := fresh "r" in let r1 := fresh "r" in
  let r2 := fresh "r" in let r3 := fresh "r" in
  let L0 := fresh "L" in let L1 := fresh "L" in
  let L2 := fresh "L" in let L3 := fresh "L" in
  apply has_shape_4_4_inv in H as (r0 & r1 & r2 & r3 & -> & L0 & L1 & L2 & L3);
  apply length_4_inv in L0 as (? & ? & ? & ? & ->);
  apply length_4_inv in L1 as (? & ? & ? & ? & ->);
  apply length_4_inv in L2 as (? & ? & ? & ? & ->);
  apply length_4_inv in L3 as (? & ? & ? & ? & ->).

Ltac matrix_eq tac :=
  repeat (apply (f_equal2 cons);
          [repeat (apply (f_equal2 cons); [tac|]); reflexivity|]);
  reflexivity.



(** ** The fixed camera is invertible *)

Lemma temp_sq : temp * temp = / 2.
Proof.
  unfold temp.
  replace (sqrt 2 / 2 * (sqrt 2 / 2)) with ((sqrt 2 * sqrt 2) / 4) by field.
  rewrite sqrt_sqrt by lra. lra.
Qed.

Lemma det_the_camera : det 4 the_camera = 1.
Proof.
  unfold the_camera.
  cbv [det map seq nth remove_nth sign Nat.even Rsum fold_right].
  pose proof temp_sq. nra.
Qed.

Lemma inv_the_camera : inv the_camera = Ok camera_inv.
Proof.
  unfold inv. cbv zeta. change (nrows the_camera) with 4%nat.
  replace (forallb (fun r => Nat.eqb (length r) 4) the_camera)
    with true by reflexivity.
  cbn [negb]. rewrite det_the_camera.
  rewrite (proj2 (Reqb_neq 1 0)) by lra.
  apply (f_equal (@Ok matrix)). unfold camera_inv, the_camera.
  cbv [nrows length seq map cofactor det pred Nat.add nth remove_nth sign
       Nat.even Rsum fold_right].
  pose proof temp_sq.
  matrix_eq nra.
Qed.

(** [camera_inv] is the inverse indeed. *)
Lemma camera_inv_right : mmul the_camera camera_inv = identity 4.
Proof.
  unfold mmul, the_camera, camera_inv, identity.
  cbv [map transpose ncols length seq col nth dot Nat.eqb].
  pose proof temp_sq.
  matrix_eq nra.
Qed.

Lemma camera_inv_left : mmul camera_inv the_camera = identity 4.
Proof.
  unfold mmul, the_camera, camera_inv, identity.
  cbv [map transpose ncols length seq col nth dot Nat.eqb].
  pose proof temp_sq.
  matrix_eq nra.
Qed.

(** ** The rotation matrix of the code and the rotation z · y · x *)

(** [rot_mat] is the rotation about x by [alfa], then about y by [beta],
    then about z by [gamma], but for its entry (1, 2), which has
    [sin alfa] where the rotation has [sin gamma]. *)
Lemma rot_mat_entries (alfa beta gamma : R) :
  (forall i j, (i, j) <> (1, 2)%nat ->
     entry i j (rot_mat alfa beta gamma) = entry i j (rot_zyx alfa beta gamma))
  /\ entry 1 2 (rot_mat alfa beta gamma)
     = cos alfa * sin beta * sin alfa - sin alfa * cos gamma
  /\ entry 1 2 (rot_zyx alfa beta gamma)
     = cos alfa * sin beta * sin gamma - sin alfa * cos gamma.
Proof.
  unfold rot_zyx, rot_mat, rot_x, rot_y, rot_z, entry.
  cbv [mmul map transpose ncols length seq col nth dot].
  split; [|split; [reflexivity|ring]].
  intros i j Hij.
  destruct i as [|[|[|[|i]]]]; destruct j as [|[|[|[|j]]]];
    try (exfalso; apply Hij; reflexivity); cbn [nth]; try ring;
    destruct j; try ring; destruct i; ring.
Qed.

Lemma rot_mat_0 : rot_mat 0 0 0 = identity 4.
Proof.
  unfold rot_mat, identity. rewrite cos_0, sin_0.
  cbv [map seq Nat.eqb]. matrix_eq ltac:(ring).
Qed.

(** ** Steps of a method *)

Lemma bind_ok {A B} (c : M A) (k : A -> M B) m a m' :
  c m = (Ok a, m') -> bind c k m = k a m'.
Proof. unfold bind. intros ->. reflexivity. Qed.

Lemma bind_err {A B} (c : M A) (k : A -> M B) m e m' :
  c m = (Err e, m') -> bind c k m = (Err e, m').
Proof. unfold bind. intros ->. reflexivity. Qed.

Ltac run_step :=
  match goal with
  | H : (_, _) = (_, _) |- _ => inversion H; subst; clear H
  | H : context [match ?r with Ok _ => _ | Err _ => _ end] |- _ =>
      destruct r eqn:?
  | H : context [match ?p with (_, _) => _ end] |- _ => destruct p eqn:?
  | H : context [if ?b then _ else _] |- _ => destruct b eqn:?
  end.

Ltac mesh_fields :=
  cbn [_vertices _edges _center _angle _scale _transform_matrix camera focal
       _transform_matrix_backup _show _color _2DVertices
       put_vertices put_edges put_center put_angle put_scale
       put_transform_matrix put_camera put_focal put_transform_matrix_backup
       put_show put_color put_2DVertices blank px py pz].

(** ** The setters of center, angle and scale *)

Lemma center_setter_point p m : center_setter (PPoint p) m = (Ok tt, put_center p m).
Proof. reflexivity. Qed.

Lemma angle_setter_point p m : angle_setter (PPoint p) m = (Ok tt, put_angle p m).
Proof. reflexivity. Qed.

Lemma scale_setter_point p m :
  scale_setter (PPoint p) m = (Ok tt, put_scale p m).
Proof. destruct p. reflexivity. Qed.

Lemma center_setter_ok c x y z m :
  is_vec3 c x y z -> center_setter c m = (Ok tt, put_center (mkPoint x y z) m).
Proof. intros []; reflexivity. Qed.

Lemma angle_setter_ok a x y z m :
  is_vec3 a x y z -> angle_setter a m = (Ok tt, put_angle (mkPoint x y z) m).
Proof. intros []; reflexivity. Qed.

Lemma scale_setter_ok scale x y z m :
  is_scale scale x y z ->
  scale_setter scale m = (Ok tt, put_scale (mkPoint x y z) m).
Proof. intros []; reflexivity. Qed.

Lemma center_setter_frame c m m' :
  center_setter c m = (Ok tt, m') -> exists p, m' = put_center p m.
Proof.
  unfold center_setter, bind, lift, modify, raise. intros H.
  destruct c; repeat run_step; eauto.
Qed.

Lemma angle_setter_frame a m m' :
  angle_setter a m = (Ok tt, m') -> exists p, m' = put_angle p m.
Proof.
  unfold angle_setter, bind, lift, modify, raise. intros H.
  destruct a; repeat run_step; eauto.
Qed.

Lemma scale_setter_frame s m m' :
  scale_setter s m = (Ok tt, m') -> exists p, m' = put_scale p m.
Proof.
  unfold scale_setter, bind, lift, modify, raise, ret. intros H.
  destruct s; repeat run_step; eauto.
  exists a. reflexivity.
Qed.

(** ** The vertices setter *)

Lemma asmatrix_rows_aux (A : matrix) :
  mapM (fun o => match seq_items o with
                 | Some r => match num_row r with
                             | Ok row => Ok row
                             | Err _ => Err (ValueError "asmatrix: not a numeric array")
                             end
                 | None => Err (ValueError "asmatrix: inhomogeneous shape")
                 end)
       (map (fun r => PList (map PNum r)) A) = Ok A.
Proof.
  induction A as [|r A IH]; [reflexivity|].
  cbn [map mapM seq_items rbind]. rewrite num_row_nums. cbn [rbind].
  now rewrite IH.
Qed.

Lemma rect_forallb (A : matrix) :
  rect A -> forallb (fun r => Nat.eqb (length r) (ncols A)) A = true.
Proof.
  unfold rect. intros H. apply forallb_forall. intros r Hr.
  apply Nat.eqb_eq. rewrite Forall_forall in H. exact (H r Hr).
Qed.

(** [asmatrix] of a nested list of numbers is the matrix of its rows. *)
Lemma asmatrix_nested (A : matrix) :
  A <> [] -> rect A -> asmatrix (nested A) = Ok A.
Proof.
  intros Hne Hr. unfold asmatrix, nested.
  destruct A as [|r A]; [contradiction|].
  replace (num_row (map (fun r0 => PList (map PNum r0)) (r :: A)))
    with (@Err (list R) (TypeError "a number is required")) by reflexivity.
  rewrite asmatrix_rows_aux, (rect_forallb _ Hr). reflexivity.
Qed.

Lemma asmatrix_rect v (A : matrix) :
  numpy_input v -> asmatrix v = Ok A -> rect A.
Proof.
  unfold asmatrix, rect.
  assert (Hrows : forall l,
    match num_row l with
    | Ok row => Ok [row]
    | Err _ =>
      match mapM (fun o => match seq_items o with
                           | Some r => match num_row r with
                                       | Ok row => Ok row
                                       | Err _ => Err (ValueError "asmatrix: not a numeric array")
                                       end
                           | None => Err (ValueError "asmatrix: inhomogeneous shape")
                           end) l with
      | Ok rows =>
        if forallb (fun r => Nat.eqb (length r) (ncols rows)) rows
        then Ok rows
        else Err (ValueError "asmatrix: inhomogeneous shape")
      | Err e => Err e
      end
    end = Ok A -> Forall (fun r => length r = ncols A) A).
  { intros l. destruct (num_row l) as [row|].
    - intros H; inversion H. repeat constructor.
    - destruct (mapM _ l) as [rows|]; [|discriminate].
      destruct (forallb _ rows) eqn:F; [|discriminate].
      intros H; inversion H; subst. apply Forall_forall. intros r Hr.
      rewrite forallb_forall in F. apply Nat.eqb_eq, F, Hr. }
  destruct v; try discriminate; intros Hin H.
  - inversion H. repeat constructor.
  - exact (Hrows _ H).
  - exact (Hrows _ H).
  - inversion H; subst. exact Hin.
Qed.

Lemma vertices_setter_from v A m :
  match v with PMatrix B => Ok B | _ => asmatrix v end = Ok A ->
  vertices_setter v m = vertices_setter (PMatrix A) m.
Proof.
  intros H. unfold vertices_setter. unfold bind at 1 5, lift at 1 3.
  rewrite H. reflexivity.
Qed.

Lemma vertices_setter_nested A m :
  A <> [] -> rect A ->
  vertices_setter (nested A) m = vertices_setter (PMatrix A) m.
Proof.
  intros Hne Hr. apply vertices_setter_from. exact (asmatrix_nested A Hne Hr).
Qed.

(** A 4×N buffer whose last row is all ones is stored as it is. *)
Lemma vertices_setter_keeps (A : matrix) (n : nat) m :
  has_shape 4 n A -> all_ones (nth 3 A []) ->
  vertices_setter (PMatrix A) m = (Ok tt, put_vertices A m).
Proof.
  intros [HL _] H1.
  destruct A as [|r0 [|r1 [|r2 [|r3 [|? ?]]]]]; try discriminate.
  cbn [nth] in H1. apply forallb_ones in H1.
  unfold vertices_setter, bind, lift, last_row_all_one.
  cbn [nrows length Nat.eqb negb ret nth_error]. rewrite H1. reflexivity.
Qed.

(** An N×4 buffer whose last column is all ones is stored transposed,
    when it is not also a 4×4 buffer whose last row is all ones. *)
Lemma vertices_setter_transposes (A : matrix) (n : nat) m :
  has_shape (S n) 4 A -> all_ones (col 3 A) ->
  S n <> 4%nat \/ ~ all_ones (nth 3 A []) ->
  vertices_setter (PMatrix A) m = (Ok tt, put_vertices (transpose A) m).
Proof.
  intros HA H1 Hn.
  pose proof (has_shape_ncols _ _ _ HA) as Hc.
  destruct HA as [HL _].
  apply forallb_ones in H1.
  unfold vertices_setter, bind, lift, last_row_all_one, assert. unfold nrows.
  destruct (Nat.eqb (length A) 4) eqn:E4; cbn [negb].
  - apply Nat.eqb_eq in E4. destruct Hn as [Hn|Hn]; [congruence|].
    destruct A as [|r0 [|r1 [|r2 [|r3 [|? ?]]]]]; try discriminate.
    cbn [nth] in Hn. apply forallb_ones_false in Hn.
    cbn [ret nth_error]. rewrite Hn. cbn [negb]. rewrite Hc. reflexivity.
  - rewrite Hc. cbn [Nat.eqb ret].
    rewrite (transpose_row A 3) by lia. rewrite H1. reflexivity.
Qed.

(** What the setter stores has four rows of one length. *)
Lemma vertices_setter_shape (A : matrix) m m' :
  rect A ->
  vertices_setter (PMatrix A) m = (Ok tt, m') ->
  exists B n, m' = put_vertices B m /\ has_shape 4 n B.
Proof.
  intros Hr.
  unfold vertices_setter, bind, lift, last_row_all_one, assert, modify. unfold nrows.
  destruct (Nat.eqb (length A) 4) eqn:E4; cbn [negb].
  - apply Nat.eqb_eq in E4. cbn [ret].
    destruct (nth_error A 3) as [row|]; [|discriminate].
    destruct (forallb (fun x => Reqb x 1) row); cbn [negb].
    + cbn [ret]. intros H; inversion H; subst.
      exists A, (ncols A). split; [reflexivity|]. split; assumption.
    + destruct (Nat.eqb (ncols A) 4) eqn:Ec; cbn [ret raise]; [|discriminate].
      apply Nat.eqb_eq in Ec. intros H; inversion H; subst.
      exists (transpose A), (length A). split; [reflexivity|].
      apply transpose_shape. exact Ec.
  - destruct (Nat.eqb (ncols A) 4) eqn:Ec; cbn [ret raise]; [|discriminate].
    apply Nat.eqb_eq in Ec.
    rewrite (transpose_row A 3) by lia.
    destruct (forallb (fun x => Reqb x 1) (col 3 A)); cbn [negb ret].
    + intros H; inversion H; subst.
      exists (transpose A), (length A). split; [reflexivity|].
      apply transpose_shape. exact Ec.
    + pose proof (transpose_shape A 4 Ec) as HT.
      destruct (Nat.eqb (ncols (transpose A)) 4) eqn:Et; cbn [ret raise];
        [|discriminate].
      apply Nat.eqb_eq in Et. intros H; inversion H; subst.
      exists (transpose (transpose A)), (length (transpose A)).
      split; [reflexivity|]. apply transpose_shape. exact Et.
Qed.

Lemma vertices_setter_stores v m m' :
  numpy_input v ->
  vertices_setter v m = (Ok tt, m') ->
  exists B n, m' = put_vertices B m /\ has_shape 4 n B.
Proof.
  intros Hin H.
  destruct (match v with PMatrix B => Ok B | _ => asmatrix v end) as [A|e] eqn:E.
  - rewrite (vertices_setter_from v A m E) in H.
    apply (vertices_setter_shape A m m'); [|exact H].
    destruct v; exact (asmatrix_rect _ _ Hin E).
  - unfold vertices_setter in H. unfold bind at 1, lift at 1 in H.
    rewrite E in H. discriminate.
Qed.

Lemma scenario_vertices_stored m :
  vertices_setter scenario_vertices m
  = (Ok tt, put_vertices [[0; 1]; [0; 0]; [0; 0]; [1; 1]] m).
Proof.
  unfold scenario_vertices.
  rewrite vertices_setter_nested by (try discriminate; repeat constructor).
  rewrite (vertices_setter_transposes _ 1).
  - reflexivity.
  - split; [reflexivity|repeat constructor].
  - repeat constructor.
  - left. discriminate.
Qed.

(** ** The factor builders *)

Lemma _shift_matrix_frame shift m r m' :
  _shift_matrix shift m = (r, m') ->
  m' = m \/ exists p, m' = put_center p m.
Proof.
  unfold _shift_matrix, bind, lift, gets, ret. intros H.
  repeat run_step; auto.
  all: rewrite center_setter_point in *; repeat run_step; eauto.
Qed.

Lemma _rotation_matrix_frame rotation m r m' :
  _rotation_matrix rotation m = (r, m') ->
  m' = m \/ exists p, m' = put_angle p m.
Proof.
  unfold _rotation_matrix, assert, bind, lift, gets, ret, raise. intros H.
  repeat run_step; auto.
  all: try rewrite angle_setter_point in *; repeat run_step; eauto.
Qed.

Lemma _scale_matrix_frame scale m r m' :
  _scale_matrix scale m = (r, m') ->
  m' = m \/ exists p, m' = put_scale p m.
Proof.
  unfold _scale_matrix, assert, bind, lift, gets, ret, raise. intros H.
  destruct scale; repeat run_step; auto.
  all: try rewrite scale_setter_point in *; repeat run_step; eauto.
Qed.

Lemma same_base_refl m : same_base m m.
Proof. repeat split. Qed.

Lemma same_base_trans m1 m2 m3 :
  same_base m1 m2 -> same_base m2 m3 -> same_base m1 m3.
Proof.
  unfold same_base. intros H1 H2.
  decompose [and] H1. decompose [and] H2. repeat split; congruence.
Qed.

Lemma wf_mesh_same m m' :
  same_base m m' -> _transform_matrix m' = _transform_matrix m ->
  wf_mesh m -> wf_mesh m'.
Proof.
  unfold same_base, wf_mesh. intros (V & _ & C & F & _) T (HT & HV & Hc & Hf).
  rewrite T, V, C, F. auto.
Qed.

(** No factor builder writes the transform. *)
Lemma _shift_matrix_keeps shift m r m' :
  _shift_matrix shift m = (r, m') ->
  _transform_matrix m' = _transform_matrix m /\ same_base m m' /\
  _angle m' = _angle m /\ _scale m' = _scale m.
Proof.
  intros H. apply _shift_matrix_frame in H as [-> | [p ->]];
    repeat split; reflexivity.
Qed.

Lemma _rotation_matrix_keeps rotation m r m' :
  _rotation_matrix rotation m = (r, m') ->
  _transform_matrix m' = _transform_matrix m /\ same_base m m' /\
  _center m' = _center m /\ _scale m' = _scale m.
Proof.
  intros H. apply _rotation_matrix_frame in H as [-> | [p ->]];
    repeat split; reflexivity.
Qed.

Lemma _scale_matrix_keeps scale m r m' :
  _scale_matrix scale m = (r, m') ->
  _transform_matrix m' = _transform_matrix m /\ same_base m m' /\
  _center m' = _center m /\ _angle m' = _angle m.
Proof.
  intros H. apply _scale_matrix_frame in H as [-> | [p ->]];
    repeat split; reflexivity.
Qed.

Lemma _shift_matrix_ok shift x y z m :
  is_vec3 shift x y z ->
  _shift_matrix shift m
  = (Ok (shift_mat x y z),
     put_center (mkPoint (px (_center m) + x) (py (_center m) + y)
                         (pz (_center m) + z)) m).
Proof. intros []; reflexivity. Qed.

Lemma _shift_matrix_shape c m sh m' :
  _shift_matrix c m = (Ok sh, m') -> has_shape 4 4 sh.
Proof.
  unfold _shift_matrix, bind, lift, gets, ret.
  destruct (unpack3 c) as [[[x y] z]|]; [|discriminate].
  destruct (np_matrix _) as [A|] eqn:E; [|discriminate].
  apply (np_matrix_shape _ _ 4) in E; [|repeat constructor].
  destruct (Point_iadd (_center m) c); [|discriminate].
  rewrite center_setter_point. intros H; inversion H; subst. exact E.
Qed.

Lemma all_in_range_nums (l : list R) :
  all_in_range (map PNum l) = Ok (forallb in_range l).
Proof.
  induction l as [|x l IH]; [reflexivity|].
  cbn [map all_in_range as_num rbind forallb].
  destruct (in_range x); [exact IH|reflexivity].
Qed.

Lemma _rotation_matrix_ok rotation alfa beta gamma m :
  is_vec3 rotation alfa beta gamma ->
  in_range alfa = true -> in_range beta = true -> in_range gamma = true ->
  _rotation_matrix rotation m
  = (Ok (rot_mat alfa beta gamma),
     put_angle (mkPoint (px (_angle m) + alfa) (py (_angle m) + beta)
                        (pz (_angle m) + gamma)) m).
Proof.
  intros [] Ha Hb Hc; unfold _rotation_matrix, bind, lift;
    cbn [py_iter Point_components px py pz all_in_range as_num rbind];
    rewrite Ha, Hb, Hc; reflexivity.
Qed.

Lemma _rotation_matrix_rejects rotation (l : list R) m :
  py_iter rotation = Ok (map PNum l) ->
  forallb in_range l = false ->
  _rotation_matrix rotation m = (Err AssertionError, m).
Proof.
  intros Hi Hr. unfold _rotation_matrix, bind, lift.
  rewrite Hi, all_in_range_nums, Hr. reflexivity.
Qed.

Lemma _rotation_matrix_in_range rotation (l : list R) m :
  py_iter rotation = Ok (map PNum l) ->
  forallb in_range l = true ->
  (length l = 3%nat -> exists R0 p, _rotation_matrix rotation m = (Ok R0, put_angle p m))
  /\ (length l <> 3%nat -> exists msg, _rotation_matrix rotation m = (Err (ValueError msg), m)).
Proof.
  intros Hi Hr. unfold _rotation_matrix, bind, lift, unpack3, Point_iadd.
  rewrite Hi, all_in_range_nums, Hr. cbn [assert ret rbind].
  destruct l as [|a [|b [|c [|d l]]]]; cbn [map length]; split; intros Hl;
    try congruence; try lia; cbn [as_num gets]; eauto.
  rewrite angle_setter_point. unfold ret. eauto.
Qed.

Lemma _rotation_matrix_shape a m ro m' :
  _rotation_matrix a m = (Ok ro, m') -> has_shape 4 4 ro.
Proof.
  unfold _rotation_matrix, assert, bind, lift, gets, ret, raise. intros H.
  repeat run_step.
  rewrite angle_setter_point in *. repeat run_step.
  split; [reflexivity|repeat constructor].
Qed.

Lemma _scale_matrix_ok scale x y z m :
  is_scale scale x y z ->
  x <> 0 -> y <> 0 -> z <> 0 ->
  _scale_matrix scale m
  = (Ok (scale_mat x y z),
     put_scale (mkPoint (px (_scale m) * x) (py (_scale m) * y)
                        (pz (_scale m) * z)) m).
Proof.
  intros [] Hx Hy Hz; unfold _scale_matrix, bind, lift;
    cbn [forallb truthy andb]; rewrite ?isclose_0;
    repeat match goal with
           | H : ?u <> 0 |- _ => apply Reqb_neq in H; rewrite ?H; clear H
           end; reflexivity.
Qed.

Lemma _scale_matrix_zero_component (l : list pyobj) m :
  In (PNum 0) l ->
  _scale_matrix (PList l) m = (Err AssertionError, m)
  /\ _scale_matrix (PTuple l) m = (Err AssertionError, m).
Proof.
  intros H. unfold _scale_matrix, bind.
  rewrite (forallb_truthy_zero l H). split; reflexivity.
Qed.

Lemma _scale_matrix_zero_number m :
  _scale_matrix (PNum 0) m = (Err AssertionError, m).
Proof.
  unfold _scale_matrix, bind. rewrite isclose_0.
  rewrite (proj2 (Reqb_eq 0 0) eq_refl). reflexivity.
Qed.

Lemma _scale_matrix_rejects_zero s m :
  has_zero s -> _scale_matrix s m = (Err AssertionError, m).
Proof.
  intros [|l H|l H].
  - apply _scale_matrix_zero_number.
  - apply (_scale_matrix_zero_component l m H).
  - apply (_scale_matrix_zero_component l m H).
Qed.

Lemma _scale_matrix_empty_list m :
  _scale_matrix (PList []) m
  = (Err (ValueError "not enough values to unpack (expected 3)"), m).
Proof. reflexivity. Qed.

(** What [_scale_matrix] has accepted when it returns. *)
Lemma _scale_matrix_ok_inv scale m sm m' :
  _scale_matrix scale m = (Ok sm, m') ->
  exists x y z, is_scale scale x y z /\ x <> 0 /\ y <> 0 /\ z <> 0.
Proof.
  unfold _scale_matrix, assert, bind, lift, unpack3, np_matrix, num_row.
  destruct scale as [s|?|l|l|?|?|]; cbn [py_iter rbind raise]; try discriminate.
  - rewrite isclose_0. destruct (Reqb s 0) eqn:E; cbn [negb ret]; [discriminate|].
    intros _. apply Reqb_neq in E. exists s, s, s. repeat split; auto. constructor.
  - destruct (forallb truthy l) eqn:E; cbn [ret]; [|discriminate].
    destruct l as [|[x| | | | | |] [|[y| | | | | |] [|[z| | | | | |] [|? ?]]]];
      cbn [mapM as_num rbind]; try discriminate.
    cbn [forallb truthy] in E. rewrite !andb_true_iff, !negb_true_iff in E.
    destruct E as (Ex & Ey & Ez & _). apply Reqb_neq in Ex, Ey, Ez.
    intros _. exists x, y, z. repeat split; auto. constructor.
  - destruct (forallb truthy l) eqn:E; cbn [ret]; [|discriminate].
    destruct l as [|[x| | | | | |] [|[y| | | | | |] [|[z| | | | | |] [|? ?]]]];
      cbn [mapM as_num rbind]; try discriminate.
    cbn [forallb truthy] in E. rewrite !andb_true_iff, !negb_true_iff in E.
    destruct E as (Ex & Ey & Ez & _). apply Reqb_neq in Ex, Ey, Ez.
    intros _. exists x, y, z. repeat split; auto. constructor.
Qed.

Lemma _scale_matrix_err_state scale m e m' :
  _scale_matrix scale m = (Err e, m') -> m' = m.
Proof.
  unfold _scale_matrix, assert, bind, lift, gets, ret, raise. intros H.
  destruct scale; repeat run_step; auto.
  all: rewrite scale_setter_point in *; repeat run_step.
Qed.

Lemma _scale_matrix_shape s m sc m' :
  _scale_matrix s m = (Ok sc, m') -> has_shape 4 4 sc.
Proof.
  intros H.
  destruct (_scale_matrix_ok_inv _ _ _ _ H) as (x & y & z & Hs & Nx & Ny & Nz).
  rewrite (_scale_matrix_ok _ _ _ _ m Hs Nx Ny Nz) in H. inversion H; subst.
  apply scale_mat_shape.
Qed.

Lemma build_factors_keeps c a s m r m' :
  build_factors c a s m = (r, m') ->
  _transform_matrix m' = _transform_matrix m.
Proof.
  unfold build_factors. unfold bind at 1.
  destruct (_shift_matrix c m) as [[sh|e] m1] eqn:H1;
    apply _shift_matrix_keeps in H1 as (T1 & _);
    [|intros H; inversion H; subst; exact T1].
  unfold bind at 1.
  destruct (_rotation_matrix a m1) as [[ro|e] m2] eqn:H2;
    apply _rotation_matrix_keeps in H2 as (T2 & _);
    [|intros H; inversion H; subst; congruence].
  unfold bind at 1.
  destruct (_scale_matrix s m2) as [[sc|e] m3] eqn:H3;
    apply _scale_matrix_keeps in H3 as (T3 & _);
    intros H; inversion H; subst; congruence.
Qed.

Lemma build_factors_ok_inv c a s m f m3 :
  build_factors c a s m = (Ok f, m3) ->
  exists sh m1 ro m2 sc,
    _shift_matrix c m = (Ok sh, m1)
    /\ _rotation_matrix a m1 = (Ok ro, m2)
    /\ _scale_matrix s m2 = (Ok sc, m3)
    /\ f = (sh, ro, sc).
Proof.
  unfold build_factors, bind, ret.
  destruct (_shift_matrix c m) as [[sh|e] m1] eqn:H1; [|discriminate].
  destruct (_rotation_matrix a m1) as [[ro|e] m2] eqn:H2; [|discriminate].
  destruct (_scale_matrix s m2) as [[sc|e] m3'] eqn:H3; [|discriminate].
  intros H; inversion H; subst. exists sh, m1, ro, m2, sc. auto.
Qed.

Lemma build_factors_shapes c a s m sh ro sc m' :
  build_factors c a s m = (Ok (sh, ro, sc), m') ->
  has_shape 4 4 sh /\ has_shape 4 4 ro /\ has_shape 4 4 sc.
Proof.
  intros H. apply build_factors_ok_inv in H
    as (sh' & m1 & ro' & m2 & sc' & H1 & H2 & H3 & E).
  inversion E; subst.
  split; [exact (_shift_matrix_shape _ _ _ _ H1)|].
  split; [exact (_rotation_matrix_shape _ _ _ _ H2)|].
  exact (_scale_matrix_shape _ _ _ _ H3).
Qed.

Lemma build_factors_wf c a s m r m' :
  build_factors c a s m = (r, m') -> wf_mesh m -> wf_mesh m'.
Proof.
  unfold build_factors. unfold bind at 1.
  destruct (_shift_matrix c m) as [[sh|e] m1] eqn:H1;
    apply _shift_matrix_keeps in H1 as (T1 & B1 & _);
    [|intros H; inversion H; subst; exact (wf_mesh_same _ _ B1 T1)].
  unfold bind at 1.
  destruct (_rotation_matrix a m1) as [[ro|e] m2] eqn:H2;
    apply _rotation_matrix_keeps in H2 as (T2 & B2 & _);
    [|intros H W; inversion H; subst;
      exact (wf_mesh_same _ _ B2 T2 (wf_mesh_same _ _ B1 T1 W))].
  unfold bind at 1.
  destruct (_scale_matrix s m2) as [[sc|e] m3] eqn:H3;
    apply _scale_matrix_keeps in H3 as (T3 & B3 & _);
    intros H W; inversion H; subst;
    exact (wf_mesh_same _ _ B3 T3
             (wf_mesh_same _ _ B2 T2 (wf_mesh_same _ _ B1 T1 W))).
Qed.

Lemma build_factors_point_scale c a p m :
  exists e m', build_factors c a (PPoint p) m = (Err e, m').
Proof.
  unfold build_factors, bind.
  destruct (_shift_matrix c m) as [[sh|e] m1]; [|eauto].
  destruct (_rotation_matrix a m1) as [[ro|e] m2]; [|eauto].
  cbn. eauto.
Qed.

Lemma build_factors_empty_scale c a m :
  exists e m', build_factors c a (PList []) m = (Err e, m').
Proof.
  unfold build_factors, bind.
  destruct (_shift_matrix c m) as [[sh|e] m1]; [|eauto].
  destruct (_rotation_matrix a m1) as [[ro|e] m2]; [|eauto].
  rewrite _scale_matrix_empty_list. eauto.
Qed.

(** ** The projection *)

Lemma _to2D_state m : snd (_to2D m) = m.
Proof.
  unfold _to2D, bind, lift, gets.
  repeat match goal with
         | |- context [match ?r with Ok _ => _ | Err _ => _ end] => destruct r
         end; reflexivity.
Qed.

Lemma _to2D_reads m v :
  _to2D (put_2DVertices v m) = (fst (_to2D m), put_2DVertices v m).
Proof.
  unfold _to2D, bind, lift, gets. cbn [camera focal _transform_matrix _vertices put_2DVertices].
  repeat match goal with
         | |- context [match ?r with Ok _ => _ | Err _ => _ end] => destruct r
         end; reflexivity.
Qed.

Lemma _to2D_ok (m : Mesh) (n : nat) :
  has_shape 4 4 (_transform_matrix m) ->
  has_shape 4 n (_vertices m) ->
  camera m = the_camera -> focal m = the_focal ->
  exists r0 r1 r2,
    mmul (mmul (mmul the_focal camera_inv) (_transform_matrix m)) (_vertices m)
    = [r0; r1; r2]
    /\ length r0 = n /\ length r1 = n /\ length r2 = n
    /\ _to2D m = (Ok [map2 Rdiv r0 r2; map2 Rdiv r1 r2], m).
Proof.
  intros HT HV Hc Hf.
  assert (S1 : has_shape 3 4 (mmul the_focal camera_inv))
    by (apply (mmul_shape 3 3 4); [reflexivity|split; [reflexivity|repeat constructor]]).
  assert (S2 : has_shape 3 4 (mmul (mmul the_focal camera_inv) (_transform_matrix m)))
    by (apply (mmul_shape 3 3 4); [apply S1|exact HT]).
  assert (S3 : has_shape 3 n
                 (mmul (mmul (mmul the_focal camera_inv) (_transform_matrix m))
                       (_vertices m)))
    by (apply (mmul_shape 3 3 n); [apply S2|exact HV]).
  unfold _to2D, bind, lift, gets. rewrite Hc, Hf, inv_the_camera.
  rewrite (matmul_ok the_focal camera_inv) by reflexivity.
  rewrite (matmul_ok _ (_transform_matrix m))
    by (rewrite (has_shape_ncols _ _ _ S1); symmetry; apply HT).
  rewrite (matmul_ok _ (_vertices m))
    by (rewrite (has_shape_ncols _ _ _ S2); symmetry; apply HV).
  destruct S3 as [L3 F3].
  destruct (mmul (mmul (mmul the_focal camera_inv) (_transform_matrix m))
                 (_vertices m)) as [|r0 [|r1 [|r2 [|? ?]]]]; try discriminate.
  inversion F3 as [|? ? E0 F2]; subst. inversion F2 as [|? ? E1 F1]; subst.
  inversion F1 as [|? ? E2 _]; subst.
  exists r0, r1, r2. repeat split; auto.
Qed.

(** ** applyTransform *)

(** [applyTransform] is its factors, then the commit. *)
Lemma applyTransform_eq c a s m :
  applyTransform c a s m
  = bind (build_factors c a s) (fun '(sh, ro, sc) => commit sh ro sc) m.
Proof.
  unfold applyTransform, build_factors, commit, bind.
  destruct (_shift_matrix c m) as [[sh|e1] m1]; [|reflexivity].
  destruct (_rotation_matrix a m1) as [[ro|e2] m2]; [|reflexivity].
  destruct (_scale_matrix s m2) as [[sc|e3] m3]; reflexivity.
Qed.

Lemma applyTransform_factor_failure c a s m e m' :
  build_factors c a s m = (Err e, m') ->
  applyTransform c a s m = (Err e, m')
  /\ _transform_matrix m' = _transform_matrix m.
Proof.
  intros H. split; [|exact (build_factors_keeps _ _ _ _ _ _ H)].
  rewrite applyTransform_eq. exact (bind_err _ _ _ _ _ H).
Qed.

(** Conversely, a call that changed the transform had its three factors. *)
Lemma applyTransform_commit_needs_factors c a s m :
  _transform_matrix (snd (applyTransform c a s m)) <> _transform_matrix m ->
  exists f m1, build_factors c a s m = (Ok f, m1).
Proof.
  intros H. destruct (build_factors c a s m) as [[f|e] m1] eqn:B; [eauto|].
  apply applyTransform_factor_failure in B as [E T].
  rewrite E in H. cbn in H. contradiction.
Qed.

Lemma commit_state sh ro sc m :
  snd (commit sh ro sc m) = m
  \/ (exists p, snd (commit sh ro sc m) = put_transform_matrix p m)
  \/ (exists p v, snd (commit sh ro sc m)
                  = put_2DVertices v (put_transform_matrix p m)).
Proof.
  unfold commit, bind, lift, gets, transform_matrix_setter, modify.
  destruct (matmul sc ro) as [p1|e]; [|auto].
  destruct (matmul p1 sh) as [p2|e]; [|auto].
  destruct (matmul p2 (_transform_matrix m)) as [p3|e]; [|auto].
  pose proof (_to2D_state (put_transform_matrix p3 m)) as S2.
  destruct (_to2D (put_transform_matrix p3 m)) as [[v|e] m4]; cbn in S2; subst m4;
    cbn; eauto.
Qed.

Lemma commit_ok sh ro sc (m : Mesh) (n : nat) :
  has_shape 4 4 sh -> has_shape 4 4 ro -> has_shape 4 4 sc ->
  has_shape 4 4 (_transform_matrix m) ->
  has_shape 4 n (_vertices m) ->
  camera m = the_camera -> focal m = the_focal ->
  exists v,
    commit sh ro sc m
    = (Ok tt,
       put_2DVertices v
         (put_transform_matrix
            (mmul (mmul (mmul sc ro) sh) (_transform_matrix m)) m))
    /\ has_shape 2 n v.
Proof.
  intros Hsh Hro Hsc HT HV Hc Hf.
  assert (S1 : has_shape 4 4 (mmul sc ro))
    by (apply (mmul_shape 4 3 4); [apply Hsc|exact Hro]).
  assert (S2 : has_shape 4 4 (mmul (mmul sc ro) sh))
    by (apply (mmul_shape 4 3 4); [apply S1|exact Hsh]).
  assert (S3 : has_shape 4 4 (mmul (mmul (mmul sc ro) sh) (_transform_matrix m)))
    by (apply (mmul_shape 4 3 4); [apply S2|exact HT]).
  unfold commit, bind, lift, gets, transform_matrix_setter, modify.
  rewrite (matmul_ok sc ro)
    by (rewrite (has_shape_ncols _ _ _ Hsc); symmetry; apply Hro).
  rewrite (matmul_ok _ sh)
    by (rewrite (has_shape_ncols _ _ _ S1); symmetry; apply Hsh).
  rewrite (matmul_ok _ (_transform_matrix m))
    by (rewrite (has_shape_ncols _ _ _ S2); symmetry; apply HT).
  set (m1 := put_transform_matrix _ m).
  destruct (_to2D_ok m1 n S3 HV Hc Hf) as (r0 & r1 & r2 & _ & L0 & L1 & L2 & ->).
  eexists. split; [reflexivity|].
  split; [reflexivity|].
  repeat constructor; apply map2_length; assumption.
Qed.

Lemma commit_recomputes sh ro sc m m' :
  commit sh ro sc m = (Ok tt, m') -> _to2D m' = (Ok (_2DVertices m'), m').
Proof.
  unfold commit, bind, lift, gets, transform_matrix_setter, modify.
  destruct (matmul sc ro) as [p1|e]; [|discriminate].
  destruct (matmul p1 sh) as [p2|e]; [|discriminate].
  destruct (matmul p2 (_transform_matrix m)) as [p3|e]; [|discriminate].
  pose proof (_to2D_state (put_transform_matrix p3 m)) as S2.
  destruct (_to2D (put_transform_matrix p3 m)) as [[v|e] m4] eqn:E;
    cbn in S2; subst m4; [|discriminate].
  intros H; inversion H; subst.
  rewrite _to2D_reads, E. reflexivity.
Qed.

(** [applyTransform] leaves the fields it has no assignment to. *)
Lemma applyTransform_same_base c a s m : same_base m (snd (applyTransform c a s m)).
Proof.
  unfold applyTransform.
  unfold bind at 1.
  destruct (_shift_matrix c m) as [[sh|e] m1] eqn:H1;
    apply _shift_matrix_keeps in H1 as (_ & B1 & _); [|exact B1].
  unfold bind at 1.
  destruct (_rotation_matrix a m1) as [[ro|e] m2] eqn:H2;
    apply _rotation_matrix_keeps in H2 as (_ & B2 & _);
    [|exact (same_base_trans _ _ _ B1 B2)].
  unfold bind at 1.
  destruct (_scale_matrix s m2) as [[sc|e] m3] eqn:H3;
    apply _scale_matrix_keeps in H3 as (_ & B3 & _);
    pose proof (same_base_trans _ _ _ (same_base_trans _ _ _ B1 B2) B3) as B;
    [|exact B].
  unfold bind, lift, gets, transform_matrix_setter, modify.
  destruct (matmul sc ro) as [p1|e]; [|exact B].
  destruct (matmul p1 sh) as [p2|e]; [|exact B].
  destruct (matmul p2 (_transform_matrix m3)) as [p3|e]; [|exact B].
  pose proof (_to2D_state (put_transform_matrix p3 m3)) as S2.
  destruct (_to2D (put_transform_matrix p3 m3)) as [[v|e] m4]; cbn in S2; subst m4;
    exact B.
Qed.

(** A call with arguments that the three builders accept. *)
Section AcceptedCall.
Variables (c a s : pyobj) (x y z alfa beta gamma sx sy sz : R).
Hypothesis Hc : is_vec3 c x y z.
Hypothesis Ha : is_vec3 a alfa beta gamma.
Hypothesis R1 : in_range alfa = true.
Hypothesis R2 : in_range beta = true.
Hypothesis R3 : in_range gamma = true.
Hypothesis Hs : is_scale s sx sy sz.
Hypothesis N1 : sx <> 0.
Hypothesis N2 : sy <> 0.
Hypothesis N3 : sz <> 0.

Lemma build_factors_ok m :
  build_factors c a s m
  = (Ok (shift_mat x y z, rot_mat alfa beta gamma, scale_mat sx sy sz),
     put_scale (mkPoint (px (_scale m) * sx) (py (_scale m) * sy)
                        (pz (_scale m) * sz))
       (put_angle (mkPoint (px (_angle m) + alfa) (py (_angle m) + beta)
                           (pz (_angle m) + gamma))
          (put_center (mkPoint (px (_center m) + x) (py (_center m) + y)
                               (pz (_center m) + z)) m))).
Proof.
  unfold build_factors.
  rewrite (bind_ok _ _ _ _ _ (_shift_matrix_ok _ _ _ _ m Hc)).
  rewrite (bind_ok _ _ _ _ _ (_rotation_matrix_ok _ _ _ _ _ Ha R1 R2 R3)).
  rewrite (bind_ok _ _ _ _ _ (_scale_matrix_ok _ _ _ _ _ Hs N1 N2 N3)).
  reflexivity.
Qed.

Lemma applyTransform_ok m :
  wf_mesh m ->
  exists m',
    applyTransform c a s m = (Ok tt, m')
    /\ _transform_matrix m'
       = mmul (mmul (mmul (scale_mat sx sy sz) (rot_mat alfa beta gamma))
                    (shift_mat x y z))
              (_transform_matrix m)
    /\ _center m' = mkPoint (px (_center m) + x) (py (_center m) + y)
                            (pz (_center m) + z)
    /\ _angle m' = mkPoint (px (_angle m) + alfa) (py (_angle m) + beta)
                           (pz (_angle m) + gamma)
    /\ _scale m' = mkPoint (px (_scale m) * sx) (py (_scale m) * sy)
                           (pz (_scale m) * sz).
Proof.
  intros (HT & (n & HV) & Hcam & Hfoc).
  rewrite applyTransform_eq.
  rewrite (bind_ok _ _ _ _ _ (build_factors_ok m)).
  set (m3 := put_scale _ _).
  destruct (commit_ok (shift_mat x y z) (rot_mat alfa beta gamma)
                      (scale_mat sx sy sz) m3 n) as (v & -> & _);
    auto with shapes.
  eexists. split; [reflexivity|]. repeat split.
Qed.
End AcceptedCall.

Lemma applyTransform_ok_inv c a s m m' :
  applyTransform c a s m = (Ok tt, m') ->
  exists sh ro sc m3,
    build_factors c a s m = (Ok (sh, ro, sc), m3)
    /\ commit sh ro sc m3 = (Ok tt, m').
Proof.
  rewrite applyTransform_eq. unfold bind.
  destruct (build_factors c a s m) as [[[[sh ro] sc]|e] m3]; [|discriminate].
  intros H. exists sh, ro, sc, m3. auto.
Qed.

(** [applyTransform] keeps the state well-formed, and on a well-formed
    state it raises only while building a factor. *)
Lemma applyTransform_wf c a s m :
  wf_mesh m -> wf_mesh (snd (applyTransform c a s m)).
Proof.
  intros W. rewrite applyTransform_eq. unfold bind.
  destruct (build_factors c a s m) as [[[[sh ro] sc]|e] m3] eqn:B;
    pose proof (build_factors_wf _ _ _ _ _ _ B W) as W3; [|exact W3].
  destruct (build_factors_shapes _ _ _ _ _ _ _ _ B) as (S1 & S2 & S3).
  destruct W3 as (HT & (n & HV) & Hc & Hf).
  destruct (commit_ok sh ro sc m3 n S1 S2 S3 HT HV Hc Hf) as (v & -> & _).
  cbn [snd]. unfold wf_mesh.
  cbn [_transform_matrix _vertices camera focal put_2DVertices put_transform_matrix].
  split; [|split; [exists n; exact HV|split; assumption]].
  apply (mmul_shape 4 3 4); [|exact HT].
  apply (mmul_shape 4 3 4); [|exact S1].
  apply (mmul_shape 4 3 4); [apply S3|exact S2].
Qed.

Lemma applyTransform_raises_in_factors c a s m e :
  wf_mesh m ->
  fst (applyTransform c a s m) = Err e ->
  exists m', build_factors c a s m = (Err e, m').
Proof.
  intros W. rewrite applyTransform_eq. unfold bind.
  destruct (build_factors c a s m) as [[[[sh ro] sc]|e'] m3] eqn:B.
  - pose proof (build_factors_wf _ _ _ _ _ _ B W) as (HT & (n & HV) & Hc & Hf).
    destruct (build_factors_shapes _ _ _ _ _ _ _ _ B) as (S1 & S2 & S3).
    destruct (commit_ok sh ro sc m3 n S1 S2 S3 HT HV Hc Hf) as (v & -> & _).
    discriminate.
  - cbn. intros H; inversion H; subst. eauto.
Qed.

(** Whatever [Point()] does in the scale setter, [applyTransform] raises
    on the empty scale. *)
Lemma applyTransform_empty_scale c a m :
  is_ok (fst (applyTransform c a (PList []) m)) = false.
Proof.
  destruct (build_factors_empty_scale c a m) as (e & m' & B).
  apply applyTransform_factor_failure in B as [-> _]. reflexivity.
Qed.

(** The call [applyTransform()], with the default arguments [(0, 0, 1.)],
    raises: the center [0] is not iterable. *)
Lemma applyTransform_defaults m :
  applyTransform (PNum 0) (PNum 0) (PNum 1) m
  = (Err (TypeError "object is not iterable"), m).
Proof. reflexivity. Qed.

Lemma sample_mesh_wf : wf_mesh sample_mesh.
Proof.
  split; [exact identity_4_shape|].
  split; [exists 2%nat; split; [reflexivity|repeat constructor]|].
  split; reflexivity.
Qed.

(** A call whose angle is out of range raises after the shift has moved
    the tracked center. *)
Lemma factors_fail_after_shift :
  build_factors (PList [PNum 1; PNum 0; PNum 0]) (PList [PNum 10; PNum 0; PNum 0])
                (PNum 1) sample_mesh
  = (Err AssertionError,
     put_center (mkPoint (0 + 1) (0 + 0) (0 + 0)) sample_mesh).
Proof.
  unfold build_factors.
  rewrite (bind_ok _ _ _ _ _
             (_shift_matrix_ok (PList [PNum 1; PNum 0; PNum 0]) 1 0 0 sample_mesh
                               (vec3_list 1 0 0))).
  rewrite (bind_err _ _ _ _ _
             (_rotation_matrix_rejects (PList [PNum 10; PNum 0; PNum 0]) [10; 0; 0]
                _ eq_refl
                (forallb_in_range_false [10; 0; 0]
                   (Exists_cons_hd (fun x => ~ (-2 * PI <= x < 2 * PI)) 10 [0; 0]
                                   ten_out_of_range)))).
  reflexivity.
Qed.

Lemma run_calls_same_base calls m : same_base m (run_calls m calls).
Proof.
  unfold run_calls. revert m.
  induction calls as [|[[c a] s] calls IH]; intros m; cbn [fold_left].
  - apply same_base_refl.
  - eapply same_base_trans; [apply applyTransform_same_base|apply IH].
Qed.

(** ** The constructor *)

Lemma __init___inv v e c a s col m :
  __init__ v e c a s col = Ok m ->
  exists mv mc ma ms m1,
    vertices_setter v blank = (Ok tt, mv)
    /\ center_setter c (put_edges e mv) = (Ok tt, mc)
    /\ angle_setter a mc = (Ok tt, ma)
    /\ scale_setter s ma = (Ok tt, ms)
    /\ applyTransform c a s
         (put_focal the_focal
            (put_camera the_camera (put_transform_matrix (identity 4) ms)))
       = (Ok tt, m1)
    /\ m = put_color col
             (put_show true
                (put_transform_matrix_backup (_transform_matrix m1) m1)).
Proof.
  unfold __init__, init_body. intros H.
  unfold bind at 1 in H.
  destruct (vertices_setter v blank) as [[[]|e1] mv] eqn:Hv; [|discriminate].
  unfold bind at 1 in H. unfold edges_setter at 1, modify at 1 in H.
  unfold bind at 1 in H.
  destruct (center_setter c (put_edges e mv)) as [[[]|e1] mc] eqn:Hc; [|discriminate].
  unfold bind at 1 in H.
  destruct (angle_setter a mc) as [[[]|e1] ma] eqn:Ha; [|discriminate].
  unfold bind at 1 in H.
  destruct (scale_setter s ma) as [[[]|e1] ms] eqn:Hs; [|discriminate].
  unfold bind at 1 in H. unfold transform_matrix_setter at 1, modify at 1 in H.
  unfold bind at 1 in H. unfold modify at 1 in H.
  unfold bind at 1 in H. unfold modify at 1 in H.
  unfold bind at 1 in H.
  destruct (applyTransform c a s _) as [[[]|e1] m1] eqn:Hap; [|discriminate].
  cbn in H. inversion H; subst.
  exists mv, mc, ma, ms, m1. repeat split; assumption.
Qed.

Lemma __init___ok v e c a s col (A : matrix) (n : nat)
      x y z alfa beta gamma sx sy sz :
  vertices_setter v blank = (Ok tt, put_vertices A blank) ->
  has_shape 4 n A ->
  is_vec3 c x y z -> is_vec3 a alfa beta gamma ->
  in_range alfa = true -> in_range beta = true -> in_range gamma = true ->
  is_scale s sx sy sz -> sx <> 0 -> sy <> 0 -> sz <> 0 ->
  exists m,
    __init__ v e c a s col = Ok m
    /\ wf_mesh m
    /\ _vertices m = A /\ _edges m = e
    /\ _transform_matrix m
       = mmul (mmul (mmul (scale_mat sx sy sz) (rot_mat alfa beta gamma))
                    (shift_mat x y z))
              (identity 4)
    /\ _transform_matrix_backup m = _transform_matrix m
    /\ _center m = mkPoint (x + x) (y + y) (z + z)
    /\ _angle m = mkPoint (alfa + alfa) (beta + beta) (gamma + gamma)
    /\ _scale m = mkPoint (sx * sx) (sy * sy) (sz * sz)
    /\ _show m = true.
Proof.
  intros Hv HA Hc Ha R1 R2 R3 Hs N1 N2 N3.
  unfold __init__, init_body.
  rewrite (bind_ok _ _ _ _ _ Hv).
  unfold edges_setter at 1. unfold bind at 1, modify at 1.
  rewrite (bind_ok _ _ _ _ _ (center_setter_ok _ _ _ _ _ Hc)).
  rewrite (bind_ok _ _ _ _ _ (angle_setter_ok _ _ _ _ _ Ha)).
  rewrite (bind_ok _ _ _ _ _ (scale_setter_ok _ _ _ _ _ Hs)).
  unfold transform_matrix_setter at 1. unfold bind at 1, modify at 1.
  unfold bind at 1, modify at 1. unfold bind at 1, modify at 1.
  set (m0 := put_focal _ _).
  assert (W0 : wf_mesh m0).
  { split; [exact identity_4_shape|]. split; [exists n; exact HA|].
    split; reflexivity. }
  destruct (applyTransform_ok c a s _ _ _ _ _ _ _ _ _
              Hc Ha R1 R2 R3 Hs N1 N2 N3 m0 W0) as (m1 & E & T & C1 & A1 & S1).
  rewrite (bind_ok _ _ _ _ _ E).
  unfold bind, gets, modify, show_setter, color_setter.
  eexists. split; [reflexivity|].
  pose proof (applyTransform_same_base c a s m0) as B. rewrite E in B.
  cbn [snd] in B. destruct B as (BV & BE & BC & BF & _).
  unfold wf_mesh. mesh_fields. rewrite BV, BE, BC, BF, T, C1, A1, S1.
  subst m0. mesh_fields.
  split.
  { split; [|split; [exists n; exact HA|split; reflexivity]].
    apply (mmul_shape 4 3 4); [reflexivity|exact identity_4_shape]. }
  repeat split.
Qed.

Lemma __init___backup v e c a s col m :
  __init__ v e c a s col = Ok m ->
  _transform_matrix_backup m = _transform_matrix m.
Proof.
  intros H.
  apply __init___inv in H as (mv & mc & ma & ms & m1 & _ & _ & _ & _ & _ & ->).
  reflexivity.
Qed.

Lemma __init___empty_scale v e c a col :
  is_ok (__init__ v e c a (PList []) col) = false.
Proof.
  destruct (__init__ v e c a (PList []) col) as [m|e1] eqn:H; [|reflexivity].
  apply __init___inv in H as (mv & mc & ma & ms & m1 & _ & _ & _ & _ & Hap & _).
  pose proof (applyTransform_empty_scale c a
                (put_focal the_focal
                   (put_camera the_camera
                      (put_transform_matrix (identity 4) ms)))) as F.
  rewrite Hap in F. discriminate.
Qed.

(** The constructor establishes the well-formed state. *)
Lemma __init___constructed v e c a s col m :
  numpy_input v -> __init__ v e c a s col = Ok m -> constructed m.
Proof.
  intros Hin H.
  destruct (__init___inv _ _ _ _ _ _ _ H)
    as (mv & mc & ma & ms & m1 & Hv & Hc & Ha & Hs & Hap & ->).
  apply (vertices_setter_stores _ _ _ Hin) in Hv as (B & n & -> & HB).
  apply center_setter_frame in Hc as (p1 & ->).
  apply angle_setter_frame in Ha as (p2 & ->).
  apply scale_setter_frame in Hs as (p3 & ->).
  match type of Hap with applyTransform _ _ _ ?m0 = _ =>
    assert (W0 : wf_mesh m0)
      by (split; [exact identity_4_shape|split; [exists n; exact HB|split; reflexivity]]);
    pose proof (applyTransform_wf c a s m0 W0) as W1
  end.
  rewrite Hap in W1. cbn [snd] in W1.
  destruct W1 as (HT & HV & Hcam & Hfoc).
  split; [split; [|split; [|split]]|]; assumption.
Qed.

Lemma scenario_mesh_built (c a s : pyobj) x y z sx sy sz :
  is_vec3 c x y z -> is_vec3 a 0 0 0 ->
  is_scale s sx sy sz -> sx <> 0 -> sy <> 0 -> sz <> 0 ->
  exists m,
    __init__ scenario_vertices scenario_edges c a s (PStr "b") = Ok m
    /\ wf_mesh m
    /\ _center m = mkPoint (x + x) (y + y) (z + z).
Proof.
  intros Hc Ha Hs N1 N2 N3.
  destruct (__init___ok scenario_vertices scenario_edges c a s (PStr "b")
              [[0; 1]; [0; 0]; [0; 0]; [1; 1]] 2 x y z 0 0 0 sx sy sz
              (scenario_vertices_stored blank))
    as (m & E & W & _ & _ & _ & _ & C & _); auto using in_range_0.
  - split; [reflexivity|repeat constructor].
  - exists m. auto.
Qed.

Lemma applyTransform_constructed c a s m :
  constructed m -> constructed (snd (applyTransform c a s m)).
Proof.
  intros [W B]. split; [exact (applyTransform_wf c a s m W)|].
  destruct (applyTransform_same_base c a s m) as (_ & _ & _ & _ & -> & _).
  exact B.
Qed.

Lemma reset_constructed m : constructed m -> constructed (snd (reset m)).
Proof.
  intros [(HT & HV & Hc & Hf) B]. split; [split; [|split; [|split]]|]; assumption.
Qed.

Lemma run_calls_constructed calls m :
  constructed m -> constructed (run_calls m calls).
Proof.
  unfold run_calls. revert m.
  induction calls as [|[[c a] s] calls IH]; intros m Hm; cbn [fold_left];
    [exact Hm|].
  apply IH, applyTransform_constructed, Hm.
Qed.

(** ** C2: the composition *)



(** ** C3: the projection to 2D *)

(** C3. On a Mesh with a 4×4 transform, a 4×N vertex buffer and the
    fixed camera and focal, [_to2D] returns: the camera has an inverse,
    which is [camera_inv] and multiplies with the camera to the identity
    from both sides; the product
    focal · camera⁻¹ · transform_matrix · vertices has three rows [r0],
    [r1], [r2] of length N, and the result is the 2×N matrix of the
    entries of [r0] and [r1] divided by those of [r2], column by column.
    After every [applyTransform] call that returns, the stored projection
    is [_to2D] of the new state; and a call with accepted arguments does
    return, multiplies its factor onto the transform, and stores the
    projection of the vertices under the new transform. *)
Theorem projection_to_2D (m : Mesh) (n : nat) :
  has_shape 4 4 (_transform_matrix m) ->
  has_shape 4 n (_vertices m) ->
  camera m = the_camera -> focal m = the_focal ->
  (exists ci r0 r1 r2,
     inv (camera m) = Ok ci
     /\ ci = camera_inv
     /\ mmul (camera m) ci = identity 4
     /\ mmul ci (camera m) = identity 4
     /\ mmul (mmul (mmul (focal m) ci) (_transform_matrix m)) (_vertices m)
        = [r0; r1; r2]
     /\ _to2D m = (Ok [map2 Rdiv r0 r2; map2 Rdiv r1 r2], m)
     /\ has_shape 2 n [map2 Rdiv r0 r2; map2 Rdiv r1 r2]
     /\ forall j, (j < n)%nat ->
          nth j (map2 Rdiv r0 r2) 0 = nth j r0 0 / nth j r2 0
          /\ nth j (map2 Rdiv r1 r2) 0 = nth j r1 0 / nth j r2 0)
  /\ (forall c a s m',
        applyTransform c a s m = (Ok tt, m') ->
        _to2D m' = (Ok (_2DVertices m'), m'))
  /\ (forall c a s p,
        accepts (c, a, s) p ->
        exists m' r0 r1 r2,
          applyTransform c a s m = (Ok tt, m')
          /\ _transform_matrix m' = mmul (factor p) (_transform_matrix m)
          /\ _vertices m' = _vertices m
          /\ mmul (mmul (mmul the_focal camera_inv) (_transform_matrix m'))
                  (_vertices m')
             = [r0; r1; r2]
          /\ _2DVertices m' = [map2 Rdiv r0 r2; map2 Rdiv r1 r2]
          /\ has_shape 2 n (_2DVertices m')).
Proof.
  intros HT HV Hc Hf. split; [|split].
  - destruct (_to2D_ok m n HT HV Hc Hf) as (r0 & r1 & r2 & E & L0 & L1 & L2 & E2).
    exists camera_inv, r0, r1, r2. rewrite Hc, Hf.
    split; [exact inv_the_camera|]. split; [reflexivity|].
    split; [exact camera_inv_right|]. split; [exact camera_inv_left|].
    split; [exact E|]. split; [exact E2|].
    split.
    + split; [reflexivity|]. repeat constructor; apply map2_length; assumption.
    + intros j Hj. split; apply (map2_nth Rdiv _ _ n); assumption.
  - intros c a s m' H.
    apply applyTransform_ok_inv in H as (sh & ro & sc & m3 & _ & Hco).
    exact (commit_recomputes _ _ _ _ _ Hco).
  - intros c a s p (Hc' & Ha & R1 & R2 & R3 & Hs & N1 & N2 & N3).
    assert (W : wf_mesh m)
      by (split; [exact HT|split; [exists n; exact HV|split; assumption]]).
    destruct (applyTransform_ok c a s _ _ _ _ _ _ _ _ _ Hc' Ha R1 R2 R3 Hs N1 N2 N3 m W)
      as (m' & E & T & _).
    pose proof (applyTransform_wf c a s m W) as W'.
    pose proof (applyTransform_same_base c a s m) as (V & _).
    rewrite E in W', V. cbn [snd] in W', V.
    destruct W' as (HT' & _ & Hc'' & Hf'').
    assert (HV' : has_shape 4 n (_vertices m')) by (rewrite V; exact HV).
    destruct (_to2D_ok m' n HT' HV' Hc'' Hf'')
      as (r0 & r1 & r2 & P & L0 & L1 & L2 & E2).
    pose proof E as E'.
    apply applyTransform_ok_inv in E' as (sh & ro & sc & m3 & _ & Hco).
    pose proof (commit_recomputes _ _ _ _ _ Hco) as Fr.
    rewrite E2 in Fr. injection Fr as D.
    exists m', r0, r1, r2. split; [exact E|]. split; [exact T|].
    split; [exact V|]. split; [exact P|]. split; [symmetry; exact D|].
    rewrite <- D. split; [reflexivity|].
    repeat constructor; apply map2_length; assumption.
Qed.

(** Two vertices in front of the camera, at depths 1 and 2, and the same
    vertices after a shift by (0, 0, 1), at depths 2 and 3. *)
Lemma projection_to_2D_witness :
  _to2D front_mesh = (Ok [[- (5 * temp); 0]; [- (5 * temp); 0]], front_mesh)
  /\ exists m',
       applyTransform (PList [PNum 0; PNum 0; PNum 1]) (PList [PNum 0; PNum 0; PNum 0])
                      (PNum 1) front_mesh
       = (Ok tt, m')
       /\ _2DVertices m' = [[- (5 * temp) / 2; 0]; [- (5 * temp) / 2; 0]].
Proof.
  destruct (projection_to_2D front_mesh 2)
    as [(ci & r0 & r1 & r2 & _ & -> & _ & _ & P & E & _) [_ A]].
  { exact identity_4_shape. }
  { split; [reflexivity|repeat constructor]. }
  { reflexivity. }
  { reflexivity. }
  split.
  - rewrite E. revert P.
    cbv [front_mesh focal _transform_matrix _vertices the_focal camera_inv identity
         mmul map transpose ncols length seq col nth dot Nat.eqb].
    intros P. injection P as <- <- <-. cbn [map2].
    apply (f_equal (fun v => (Ok v, front_mesh))).
    matrix_eq ltac:(field).
  - destruct (A (PList [PNum 0; PNum 0; PNum 1]) (PList [PNum 0; PNum 0; PNum 0])
                (PNum 1) (mkPlacement 0 0 1 0 0 0 1 1 1))
      as (m' & q0 & q1 & q2 & E' & T' & V' & P' & D & _).
    { cbn. repeat split; try constructor; try apply in_range_0; lra. }
    exists m'. split; [exact E'|]. rewrite D. revert P'. rewrite T', V'.
    unfold factor, rot_mat, scale_mat, shift_mat.
    cbn [p_x p_y p_z p_alfa p_beta p_gamma p_sx p_sy p_sz].
    rewrite cos_0, sin_0.
    cbv [front_mesh _transform_matrix _vertices the_focal camera_inv identity
         mmul map transpose ncols length seq col nth dot Nat.eqb].
    intros P'. injection P' as <- <- <-. cbn [map2].
    matrix_eq ltac:(field).
Defined.

(** ** C4: what the vertices setter accepts *)

(** C4. Four rows of four numbers with neither the last row nor the last
    column all ones are accepted by the vertices setter: it transposes
    them and stores the result without looking at it again, here with
    the last row (4, 8, 12, 16). *)
Theorem vertices_setter_accepts_without_ones :
  vertices_setter
    (nested [[1; 2; 3; 4]; [5; 6; 7; 8]; [9; 10; 11; 12]; [13; 14; 15; 16]])
    blank
  = (Ok tt,
     put_vertices [[1; 5; 9; 13]; [2; 6; 10; 14]; [3; 7; 11; 15]; [4; 8; 12; 16]]
                  blank)
  /\ ~ all_ones [4; 8; 12; 16].
Proof.
  split.
  - rewrite vertices_setter_nested by (try discriminate; repeat constructor).
    unfold vertices_setter, bind, lift, last_row_all_one, assert.
    cbn [nrows length Nat.eqb negb ret nth_error forallb].
    rewrite (proj2 (Reqb_neq 13 1)) by lra.
    reflexivity.
  - intros H. inversion H; subst. lra.
Qed.

(** ** C5: a failing factor leaves the transform alone *)

(** C5. When one of the three factor builders of [applyTransform] raises,
    [applyTransform] raises that exception and the object's
    [transform_matrix] is the one it had before the call: the product is
    assigned only once the three factors are there. *)
Theorem applyTransform_all_or_nothing (c a s : pyobj) (m : Mesh) (e : exn) (m' : Mesh) :
  build_factors c a s m = (Err e, m') ->
  applyTransform c a s m = (Err e, m')
  /\ _transform_matrix m' = _transform_matrix m.
Proof.
  intros H. split; [|exact (build_factors_keeps _ _ _ _ _ _ H)].
  revert H. unfold build_factors, applyTransform.
  unfold bind at 1 4.
  destruct (_shift_matrix c m) as [[sh|e1] m1]; [|intros H; congruence].
  unfold bind at 1 3.
  destruct (_rotation_matrix a m1) as [[ro|e2] m2]; [|intros H; congruence].
  unfold bind at 1 2.
  destruct (_scale_matrix s m2) as [[sc|e3] m3]; [|intros H; congruence].
  unfold ret. discriminate.
Qed.

(** A call that raises in [_rotation_matrix]: the tracked center has
    moved, the transform has not. *)
Lemma applyTransform_all_or_nothing_witness :
  applyTransform (PList [PNum 1; PNum 0; PNum 0]) (PList [PNum 10; PNum 0; PNum 0])
                 (PNum 1) sample_mesh
  = (Err AssertionError,
     put_center (mkPoint (0 + 1) (0 + 0) (0 + 0)) sample_mesh)
  /\ _transform_matrix (put_center (mkPoint (0 + 1) (0 + 0) (0 + 0)) sample_mesh)
     = _transform_matrix sample_mesh.
Proof.
  apply (applyTransform_all_or_nothing
           (PList [PNum 1; PNum 0; PNum 0]) (PList [PNum 10; PNum 0; PNum 0])
           (PNum 1) sample_mesh).
  exact factors_fail_after_shift.
Defined.

(** ** C6: the range of the rotation angles *)

(** C6. Let [rotation] be an argument whose components are the numbers
    [l].  If some component is outside [-2π, 2π), [_rotation_matrix] fails
    on the range assertion (the failure the specification files under
    ValueKind), and so does [applyTransform] with a three-component
    center.  If every component is inside, the range assertion does not
    fail, and with three components the rotation matrix is returned. *)
Theorem rotation_range_check (rotation : pyobj) (l : list R) (m : Mesh) :
  py_iter rotation = Ok (map PNum l) ->
  (Exists (fun x => ~ (-2 * PI <= x < 2 * PI)) l ->
     _rotation_matrix rotation m = (Err AssertionError, m)
     /\ forall c s x y z, is_vec3 c x y z ->
          fst (applyTransform c rotation s m) = Err AssertionError)
  /\ (Forall (fun x => -2 * PI <= x < 2 * PI) l ->
     fst (_rotation_matrix rotation m) <> Err AssertionError
     /\ (length l = 3%nat -> is_ok (fst (_rotation_matrix rotation m)) = true)).
Proof.
  intros Hi. split.
  - intros Hex. apply forallb_in_range_false in Hex. split.
    + exact (_rotation_matrix_rejects _ _ _ Hi Hex).
    + intros c s x y z Hc. unfold applyTransform.
      rewrite (bind_ok _ _ _ _ _ (_shift_matrix_ok _ _ _ _ m Hc)).
      rewrite (bind_err _ _ _ _ _ (_rotation_matrix_rejects _ _ _ Hi Hex)).
      reflexivity.
  - intros Hall. apply forallb_in_range_true in Hall.
    destruct (_rotation_matrix_in_range rotation l m Hi Hall) as [H3 Hn3].
    destruct (Nat.eq_dec (length l) 3) as [E|E].
    + destruct (H3 E) as (R0 & p & ->). cbn. split; [discriminate|reflexivity].
    + destruct (Hn3 E) as (msg & ->). cbn. split; [discriminate|contradiction].
Qed.

Lemma rotation_range_check_witness :
  _rotation_matrix (PList [PNum 10; PNum 0; PNum 0]) blank
  = (Err AssertionError, blank).
Proof.
  apply (rotation_range_check (PList [PNum 10; PNum 0; PNum 0]) [10; 0; 0] blank
           eq_refl).
  apply Exists_cons_hd. exact ten_out_of_range.
Defined.

(** ** C7: the scale factors *)

Lemma is_scale_unique s x y z x' y' z' :
  is_scale s x y z -> is_scale s x' y' z' -> x' = x /\ y' = y /\ z' = z.
Proof. intros H H'. destruct H; inversion H'; subst; auto. Qed.

(** When [_scale_matrix] returns, the argument was read as three
    non-zero factors, and the tracked scale has been multiplied by them. *)
Lemma _scale_matrix_ok_scale s m sc m' :
  _scale_matrix s m = (Ok sc, m') ->
  exists x y z,
    is_scale s x y z /\ x <> 0 /\ y <> 0 /\ z <> 0
    /\ _scale m' = mkPoint (px (_scale m) * x) (py (_scale m) * y)
                           (pz (_scale m) * z).
Proof.
  intros H.
  destruct (_scale_matrix_ok_inv _ _ _ _ H) as (x & y & z & Hs & N1 & N2 & N3).
  rewrite (_scale_matrix_ok s x y z m Hs N1 N2 N3) in H. inversion H; subst.
  exists x, y, z. repeat split; assumption.
Qed.

Lemma applyTransform_ok_scale c a s m m' :
  applyTransform c a s m = (Ok tt, m') ->
  exists x y z,
    is_scale s x y z /\ x <> 0 /\ y <> 0 /\ z <> 0
    /\ _scale m' = mkPoint (px (_scale m) * x) (py (_scale m) * y)
                           (pz (_scale m) * z).
Proof.
  intros H.
  apply applyTransform_ok_inv in H as (sh & ro & sc & m3 & B & Cm).
  apply build_factors_ok_inv in B
    as (sh' & m1 & ro' & m2 & sc' & S1 & S2 & S3 & _).
  apply _shift_matrix_keeps in S1 as (_ & _ & _ & K1).
  apply _rotation_matrix_keeps in S2 as (_ & _ & _ & K2).
  apply _scale_matrix_ok_scale in S3 as (x & y & z & Hs & N1 & N2 & N3 & K3).
  exists x, y, z. split; [exact Hs|]. split; [exact N1|]. split; [exact N2|].
  split; [exact N3|].
  rewrite <- K1, <- K2, <- K3.
  pose proof (commit_state sh ro sc m3) as St. rewrite Cm in St. cbn [snd] in St.
  destruct St as [->|[(q & ->)|(q & v & ->)]]; reflexivity.
Qed.

(** The constructor stores the scale and then multiplies the stored
    scale by the same factors. *)
Lemma __init___scale_squares v e c a s col m :
  __init__ v e c a s col = Ok m ->
  exists x y z,
    is_scale s x y z /\ x <> 0 /\ y <> 0 /\ z <> 0
    /\ _scale m = mkPoint (x * x) (y * y) (z * z).
Proof.
  intros H.
  destruct (__init___inv _ _ _ _ _ _ _ H)
    as (mv & mc & ma & ms & m1 & _ & _ & _ & Hs & Hap & ->).
  apply applyTransform_ok_scale in Hap as (x & y & z & Hx & N1 & N2 & N3 & K).
  rewrite (scale_setter_ok _ _ _ _ ma Hx) in Hs. inversion Hs; subst ms.
  exists x, y, z. split; [exact Hx|]. split; [exact N1|]. split; [exact N2|].
  split; [exact N3|]. exact K.
Qed.

(** C7, as amended.  A scale argument with a zero in it (the number zero,
    or a list or tuple with the number zero as a component) makes
    [_scale_matrix] fail on its assertion (the failure the specification
    files under ValueKind) with the object untouched, and [applyTransform]
    fail the same way once center and angle were accepted, with the
    tracked scale and the transform as before.  So every factor that is
    multiplied into the tracked scale is non-zero: when [_scale_matrix] or
    [applyTransform] returns, the scale was read as three non-zero factors
    and the tracked scale has been multiplied by them, and a constructed
    Mesh tracks their squares.  For three non-zero factors [_scale_matrix]
    returns the diagonal matrix of the factors and 1. *)
Theorem scale_zero_rejected :
  (forall s m, has_zero s -> _scale_matrix s m = (Err AssertionError, m))
  /\ (forall c a s m x y z alfa beta gamma,
        is_vec3 c x y z -> is_vec3 a alfa beta gamma ->
        in_range alfa = true -> in_range beta = true -> in_range gamma = true ->
        has_zero s ->
        fst (applyTransform c a s m) = Err AssertionError
        /\ _scale (snd (applyTransform c a s m)) = _scale m
        /\ _transform_matrix (snd (applyTransform c a s m)) = _transform_matrix m)
  /\ (forall s m sc m',
        _scale_matrix s m = (Ok sc, m') ->
        exists x y z,
          is_scale s x y z /\ x <> 0 /\ y <> 0 /\ z <> 0
          /\ _scale m' = mkPoint (px (_scale m) * x) (py (_scale m) * y)
                                 (pz (_scale m) * z))
  /\ (forall c a s m m',
        applyTransform c a s m = (Ok tt, m') ->
        exists x y z,
          is_scale s x y z /\ x <> 0 /\ y <> 0 /\ z <> 0
          /\ _scale m' = mkPoint (px (_scale m) * x) (py (_scale m) * y)
                                 (pz (_scale m) * z))
  /\ (forall v e c a s col m,
        __init__ v e c a s col = Ok m ->
        exists x y z,
          is_scale s x y z /\ x <> 0 /\ y <> 0 /\ z <> 0
          /\ _scale m = mkPoint (x * x) (y * y) (z * z))
  /\ (forall s x y z m,
        is_scale s x y z -> x <> 0 -> y <> 0 -> z <> 0 ->
        exists p,
          _scale_matrix s m
          = (Ok [[x; 0; 0; 0];
                 [0; y; 0; 0];
                 [0; 0; z; 0];
                 [0; 0; 0; 1]], put_scale p m)).
Proof.
  split; [exact _scale_matrix_rejects_zero|].
  split.
  { intros c a s m x y z al be ga Hc Ha R1 R2 R3 Hz.
    unfold applyTransform.
    rewrite (bind_ok _ _ _ _ _ (_shift_matrix_ok _ _ _ _ m Hc)).
    rewrite (bind_ok _ _ _ _ _ (_rotation_matrix_ok _ _ _ _ _ Ha R1 R2 R3)).
    rewrite (bind_err _ _ _ _ _ (_scale_matrix_rejects_zero s _ Hz)).
    repeat split. }
  split; [exact _scale_matrix_ok_scale|].
  split; [exact applyTransform_ok_scale|].
  split; [exact __init___scale_squares|].
  intros s x y z m Hs Hx Hy Hz. eexists.
  exact (_scale_matrix_ok s x y z m Hs Hx Hy Hz).
Qed.

(** On a Mesh that tracks the scale (1, 1, 1): a zero among the factors
    is rejected; the factors (2, 3, 4) give their diagonal matrix and the
    tracked scale (1·2, 1·3, 1·4). *)
Lemma scale_zero_rejected_witness :
  _scale_matrix (PList [PNum 2; PNum 0; PNum 1]) sample_mesh
  = (Err AssertionError, sample_mesh)
  /\ exists m',
       _scale_matrix (PList [PNum 2; PNum 3; PNum 4]) sample_mesh
       = (Ok [[2; 0; 0; 0]; [0; 3; 0; 0]; [0; 0; 4; 0]; [0; 0; 0; 1]], m')
       /\ _scale m' = mkPoint (1 * 2) (1 * 3) (1 * 4).
Proof.
  destruct scale_zero_rejected as (Hz & _ & Hk & _ & _ & Hd). split.
  - apply (Hz (PList [PNum 2; PNum 0; PNum 1]) sample_mesh).
    apply zero_list. cbn. auto.
  - destruct (Hd (PList [PNum 2; PNum 3; PNum 4]) 2 3 4 sample_mesh)
      as (p & E); [constructor | lra | lra | lra |].
    exists (put_scale p sample_mesh). split; [exact E|].
    destruct (Hk _ _ _ _ E) as (x & y & z & Hs & _ & _ & _ & K).
    inversion Hs; subst. exact K.
Defined.

(** The claim as the specification has it, "the tracked scale components
    are never exactly zero", fails on floats: the scale [1e-200] is not
    close to zero, so the assert of [_scale_matrix] passes, and the
    constructor leaves the tracked scale (0.0, 0.0, 0.0), the product
    [1e-200 * 1e-200] being rounded to zero. *)
Lemma tracked_scale_underflows :
  PrimFloat.eqb 1e-200%float 0%float = false
  /\ isclose_float 1e-200%float 0%float = false
  /\ scale_after_init_float 1e-200%float = Some (0%float, 0%float, 0%float).
Proof. repeat split; vm_compute; reflexivity. Qed.

(** ** C9: reset *)

(** C9. Take a constructed Mesh [m0] and any sequence of [applyTransform]
    calls on it, whether they return or raise.  Then [reset()] returns,
    and afterwards [transform_matrix] is the backup taken at construction,
    which is the transform [m0] was constructed with; the tracked center,
    angle and scale, the vertices, the edges and the show flag are what
    they were before [reset()] (and so are camera, focal, the backup, the
    color and the stored projection). *)
Theorem reset_restores_backup
    (v e c a s col : pyobj) (m0 : Mesh) (calls : list (pyobj * pyobj * pyobj)) :
  __init__ v e c a s col = Ok m0 ->
  exists m',
    reset (run_calls m0 calls) = (Ok tt, m')
    /\ _transform_matrix m' = _transform_matrix_backup m0
    /\ _transform_matrix m' = _transform_matrix m0
    /\ _center m' = _center (run_calls m0 calls)
    /\ _angle m' = _angle (run_calls m0 calls)
    /\ _scale m' = _scale (run_calls m0 calls)
    /\ _vertices m' = _vertices (run_calls m0 calls)
    /\ _edges m' = _edges (run_calls m0 calls)
    /\ _show m' = _show (run_calls m0 calls)
    /\ m' = put_transform_matrix (_transform_matrix_backup m0) (run_calls m0 calls).
Proof.
  intros H.
  destruct (run_calls_same_base calls m0) as (_ & _ & _ & _ & B & _).
  exists (put_transform_matrix (_transform_matrix_backup m0) (run_calls m0 calls)).
  split; [unfold reset, bind, gets, transform_matrix_setter, modify; now rewrite B|].
  split; [reflexivity|].
  split; [cbn; now apply __init___backup in H|].
  repeat split.
Qed.

Lemma reset_restores_backup_witness :
  exists m0 m',
    __init__ scenario_vertices scenario_edges
             (PList [PNum 1; PNum 0; PNum 0]) (PList [PNum 0; PNum 0; PNum 0])
             (PList [PNum 1; PNum 1; PNum 1]) (PStr "b") = Ok m0
    /\ reset (run_calls m0 [(PList [PNum 0; PNum 1; PNum 0],
                             PList [PNum 0; PNum 0; PNum 0], PNum 2);
                            (PNum 0, PNum 0, PNum 1)])
       = (Ok tt, m')
    /\ _transform_matrix m' = _transform_matrix m0.
Proof.
  destruct (scenario_mesh_built (PList [PNum 1; PNum 0; PNum 0])
              (PList [PNum 0; PNum 0; PNum 0]) (PList [PNum 1; PNum 1; PNum 1])
              1 0 0 1 1 1) as (m0 & E & _);
    [constructor | constructor | constructor | lra | lra | lra |].
  destruct (reset_restores_backup _ _ _ _ _ _ m0
              [(PList [PNum 0; PNum 1; PNum 0],
                PList [PNum 0; PNum 0; PNum 0], PNum 2);
               (PNum 0, PNum 0, PNum 1)] E) as (m' & R & _ & T & _).
  exists m0, m'. auto.
Defined.

(** ** C10: a Point as the scale argument *)

(** C10. [_scale_matrix] on a Point raises [TypeError("Invalid scale.")]
    and leaves the object as it was.  So [applyTransform] with a Point as
    scale never returns, and never changes [transform_matrix]; once its
    center and angle are accepted the exception is that [TypeError].  The
    constructor, called with a Point as scale, does not return either. *)
Theorem point_scale_rejected (p : Point) (m : Mesh) :
  _scale_matrix (PPoint p) m = (Err (TypeError "Invalid scale."), m)
  /\ (forall c a, is_ok (fst (applyTransform c a (PPoint p) m)) = false)
  /\ (forall c a,
        _transform_matrix (snd (applyTransform c a (PPoint p) m))
        = _transform_matrix m)
  /\ (forall c a x y z alfa beta gamma,
        is_vec3 c x y z -> is_vec3 a alfa beta gamma ->
        -2 * PI <= alfa < 2 * PI ->
        -2 * PI <= beta < 2 * PI ->
        -2 * PI <= gamma < 2 * PI ->
        fst (applyTransform c a (PPoint p) m) = Err (TypeError "Invalid scale."))
  /\ (forall v e c a col, is_ok (__init__ v e c a (PPoint p) col) = false).
Proof.
  split; [reflexivity|].
  split.
  { intros c a. destruct (build_factors_point_scale c a p m) as (e & m' & B).
    apply applyTransform_factor_failure in B as [-> _]. reflexivity. }
  split.
  { intros c a. destruct (build_factors_point_scale c a p m) as (e & m' & B).
    apply applyTransform_factor_failure in B as [-> T]. exact T. }
  split.
  { intros c a x y z al be ga Hc Ha R1 R2 R3.
    apply in_range_iff in R1, R2, R3. unfold applyTransform.
    rewrite (bind_ok _ _ _ _ _ (_shift_matrix_ok _ _ _ _ m Hc)).
    rewrite (bind_ok _ _ _ _ _ (_rotation_matrix_ok _ _ _ _ _ Ha R1 R2 R3)).
    reflexivity. }
  intros v e c a col.
  destruct (__init__ v e c a (PPoint p) col) as [m1|e1] eqn:H; [|reflexivity].
  apply __init___inv in H as (mv & mc & ma & ms & m2 & _ & _ & _ & _ & Hap & _).
  destruct (build_factors_point_scale c a p
              (put_focal the_focal
                 (put_camera the_camera (put_transform_matrix (identity 4) ms))))
    as (e1 & m' & B).
  apply applyTransform_factor_failure in B as [E _].
  rewrite E in Hap. discriminate.
Qed.

Lemma point_scale_rejected_witness :
  fst (applyTransform (PList [PNum 1; PNum 0; PNum 0])
                      (PList [PNum 0; PNum 0; PNum 0])
                      (PPoint (mkPoint 2 2 2)) sample_mesh)
  = Err (TypeError "Invalid scale.").
Proof.
  destruct (point_scale_rejected (mkPoint 2 2 2) sample_mesh)
    as (_ & _ & _ & H & _).
  apply (H _ _ 1 0 0 0 0 0);
    [constructor | constructor | exact zero_in_range | exact zero_in_range
     | exact zero_in_range].
Defined.

(** ** The reader *)

Lemma read_attribute_keeps st v2 st' :
  read_attribute st v2 = Ok st' -> mesh_list st' = mesh_list st.
Proof.
  unfold read_attribute, rbind. intros H.
  repeat match type of H with
         | context [match ?r with Ok _ => _ | Err _ => _ end] =>
             destruct r; try discriminate
         | context [if ?b then _ else _] => destruct b
         end; inversion H; reflexivity.
Qed.

Lemma read_attributes_keep l st st' :
  foldM read_attribute st l = Ok st' -> mesh_list st' = mesh_list st.
Proof.
  revert st. induction l as [|v2 l IH]; intros st; cbn [foldM rbind].
  - intros H; inversion H; reflexivity.
  - destruct (read_attribute st v2) as [st1|e] eqn:E; [|discriminate].
    intros H. rewrite (IH _ H). exact (read_attribute_keeps _ _ _ E).
Qed.

(** With no Mesh in the list and the scale list empty, a pass of the
    loop returns only on a child that is neither "Geometry" nor "Model",
    and then changes nothing. *)
Lemma read_child_returns st v st' :
  mesh_list st = [] -> scale st = [] ->
  read_child st v = Ok st' ->
  st' = st /\ name v <> "Geometry"%string /\ name v <> "Model"%string.
Proof.
  intros Hm Hs. unfold read_child.
  destruct (String.eqb (name v) "Geometry") eqn:EG.
  - unfold rbind.
    destruct (getitem (children v) 2) as [c2|]; [|discriminate].
    destruct (getitem (properties c2) 0) as [vs|]; [|discriminate].
    destruct (getitem (children v) 4) as [c4|]; [|discriminate].
    destruct (getitem (properties c4) 0) as [es|]; [|discriminate].
    rewrite Hs.
    pose proof (__init___empty_scale vs es (PList (center st)) (PList (angle st))
                  (PStr "b")) as F.
    destruct (__init__ vs es _ _ (PList []) _); discriminate.
  - destruct (String.eqb (name v) "Model") eqn:EM.
    + unfold rbind.
      destruct (getitem (children v) 1) as [c1|]; [|discriminate].
      destruct (foldM read_attribute st (children c1)) as [st1|] eqn:E;
        [|discriminate].
      apply read_attributes_keep in E. rewrite E, Hm.
      unfold getitem. destruct (counter st1); discriminate.
    + intros H; inversion H; subst.
      apply String.eqb_neq in EG, EM. auto.
Qed.

Lemma read_children_return l st' :
  foldM read_child initial_locals l = Ok st' ->
  st' = initial_locals
  /\ Forall (fun v => name v <> "Geometry"%string /\ name v <> "Model"%string) l.
Proof.
  induction l as [|v l IH]; cbn [foldM rbind].
  - intros H; inversion H. auto.
  - destruct (read_child initial_locals v) as [st1|e] eqn:E; [|discriminate].
    apply read_child_returns in E as (-> & N); [|reflexivity|reflexivity].
    intros H. destruct (IH H) as [-> F]. auto.
Qed.

(** [readFBX] returns only when the object list has neither a "Geometry"
    nor a "Model", and then it returns the empty list. *)
Lemma readFBX_returns data l :
  readFBX data = Ok l ->
  l = []
  /\ exists objects,
       getitem (children data) 8 = Ok objects
       /\ Forall (fun v => name v <> "Geometry"%string /\ name v <> "Model"%string)
                 (children objects).
Proof.
  unfold readFBX, rbind.
  destruct (getitem (children data) 8) as [objects|]; [|discriminate].
  destruct (foldM read_child initial_locals (children objects)) as [st|] eqn:E;
    [|discriminate].
  apply read_children_return in E as [-> F].
  intros H; inversion H. split; [reflexivity|]. exists objects. auto.
Qed.

Lemma scaling_attribute_skipped st x y z :
  read_attribute st (attribute "Lcl Scaling" x y z) = Ok st.
Proof. reflexivity. Qed.

(** ** C8: the "Geometry" branch *)

(** C8. On a "Geometry" node the reader takes the vertices from the first
    property of the third child and the edges from the first property of
    the fifth, and calls the constructor with them, center [0, 0, 0],
    angle [0, 0, 0] and the empty scale list.  That Mesh is never built:
    the constructor raises on the empty scale list, whatever the vertices
    and the edges, because [applyTransform] raises on it
    ([x, y, z = scale] has nothing to unpack).  So a pass of the loop over
    a "Geometry" node raises when the scale list is empty, as it is
    whenever the loop gets there, and [readFBX] raises on the document
    with one "Geometry" node; when [readFBX] returns, it returns the
    empty list. *)
Theorem geometry_mesh_never_built :
  (forall v c2 c4 vertices edges,
     name v = "Geometry"%string ->
     getitem (children v) 2 = Ok c2 -> getitem (properties c2) 0 = Ok vertices ->
     getitem (children v) 4 = Ok c4 -> getitem (properties c4) 0 = Ok edges ->
     read_child initial_locals v
     = rbind (__init__ vertices edges
                       (PList [PNum 0; PNum 0; PNum 0])
                       (PList [PNum 0; PNum 0; PNum 0])
                       (PList []) (PStr "b"))
             (fun new_mesh =>
                Ok (mkLocals [new_mesh] 0 [PNum 0; PNum 0; PNum 0]
                             [PNum 0; PNum 0; PNum 0] [])))
  /\ (forall v e c a col, is_ok (__init__ v e c a (PList []) col) = false)
  /\ (forall c a m, is_ok (fst (applyTransform c a (PList []) m)) = false)
  /\ (forall st v,
        name v = "Geometry"%string -> scale st = [] ->
        is_ok (read_child st v) = false)
  /\ is_ok (readFBX geometry_only) = false
  /\ (forall data l, readFBX data = Ok l -> l = []).
Proof.
  split.
  { intros v c2 c4 vs es Hn H2 H0 H4 H0'. unfold read_child.
    rewrite Hn. cbn [String.eqb Ascii.eqb Bool.eqb].
    rewrite H2. cbn [rbind]. rewrite H0. cbn [rbind].
    rewrite H4. cbn [rbind]. rewrite H0'. reflexivity. }
  split; [exact __init___empty_scale|].
  split; [exact applyTransform_empty_scale|].
  split.
  { intros st v Hn Hs. unfold read_child. rewrite Hn. cbn [String.eqb Ascii.eqb Bool.eqb].
    unfold rbind.
    destruct (getitem (children v) 2) as [c2|]; [|reflexivity].
    destruct (getitem (properties c2) 0) as [vs|]; [|reflexivity].
    destruct (getitem (children v) 4) as [c4|]; [|reflexivity].
    destruct (getitem (properties c4) 0) as [es|]; [|reflexivity].
    rewrite Hs.
    pose proof (__init___empty_scale vs es (PList (center st)) (PList (angle st))
                  (PStr "b")) as F.
    destruct (__init__ vs es _ _ (PList []) _); [discriminate|reflexivity]. }
  split.
  { destruct (readFBX geometry_only) as [l|e] eqn:H; [|reflexivity].
    apply readFBX_returns in H as (_ & objects & Hg & F).
    inversion Hg; subst. inversion F as [|? ? [N _] _]; subst.
    exfalso. apply N. reflexivity. }
  intros data l H. apply readFBX_returns in H as [-> _]. reflexivity.
Qed.

(** ** C1: the end-to-end scenario *)

(** C1. On the document of the scenario, [readFBX] raises: no Mesh is
    returned.  Two more things stand between the code and the scenario's
    outcome: the attribute named "Lcl Scaling" is passed over, since the
    first character of the name is compared with "Lcl Scaling", so the
    scale list stays empty; and a Mesh constructed on the scenario's
    vertices with center (1,0,0), angle (0,0,0) and scale (1,1,1) tracks
    the center (2,0,0), the center being stored by the setter and then
    added again by [_shift_matrix]. *)
Theorem scenario_raises :
  is_ok (readFBX scenario) = false
  /\ read_attribute initial_locals (attribute "Lcl Scaling" 100 100 100)
     = Ok initial_locals
  /\ exists m,
       __init__ scenario_vertices scenario_edges
                (PList [PNum 1; PNum 0; PNum 0]) (PList [PNum 0; PNum 0; PNum 0])
                (PList [PNum 1; PNum 1; PNum 1]) (PStr "b") = Ok m
       /\ _center m = mkPoint 2 0 0.
Proof.
  split.
  { destruct (readFBX scenario) as [l|e] eqn:H; [|reflexivity].
    apply readFBX_returns in H as (_ & objects & Hg & F).
    inversion Hg; subst. inversion F as [|? ? [N _] _]; subst.
    exfalso. apply N. reflexivity. }
  split; [reflexivity|].
  destruct (scenario_mesh_built (PList [PNum 1; PNum 0; PNum 0])
              (PList [PNum 0; PNum 0; PNum 0]) (PList [PNum 1; PNum 1; PNum 1])
              1 0 0 1 1 1) as (m & E & _ & C);
    [constructor | constructor | constructor | lra | lra | lra |].
  exists m. split; [exact E|]. rewrite C. f_equal; lra.
Qed.

(** * Further properties

    What the methods accept, what sequences of calls add up to, and what
    the calls to the operating system can and cannot do. *)

(** ** What applyTransform accepts *)

Lemma py_iter_nums_vec3 o x y z :
  py_iter o = Ok [PNum x; PNum y; PNum z] -> is_vec3 o x y z.
Proof.
  destruct o as [r|s|l|l|p|A|]; cbn; intros H; try discriminate.
  - destruct s as [|c0 s]; [discriminate|]. cbn in H. discriminate.
  - inversion H; subst. constructor.
  - inversion H; subst. constructor.
  - destruct p as [a b c]. inversion H; subst. constructor.
Qed.

Lemma unpack3_inv o a b c :
  unpack3 o = Ok (a, b, c) -> py_iter o = Ok [a; b; c].
Proof.
  unfold unpack3, rbind. destruct (py_iter o) as [l|e]; [|discriminate].
  destruct l as [|a' [|b' [|c' [|d l]]]]; intros H; try discriminate.
  inversion H; subst. reflexivity.
Qed.

Lemma _shift_matrix_ok_inv shift m sh m' :
  _shift_matrix shift m = (Ok sh, m') -> exists x y z, is_vec3 shift x y z.
Proof.
  unfold _shift_matrix, bind, lift. intros H.
  destruct (unpack3 shift) as [[[a b] c]|e] eqn:U; [|discriminate].
  apply unpack3_inv in U.
  destruct (np_matrix _) as [A|e] eqn:N; [|discriminate].
  clear H.
  destruct a; try (cbn in N; discriminate).
  destruct b; try (cbn in N; discriminate).
  destruct c; try (cbn in N; discriminate).
  eauto using py_iter_nums_vec3.
Qed.

Lemma _rotation_matrix_ok_inv rotation m ro m' :
  _rotation_matrix rotation m = (Ok ro, m') ->
  exists alfa beta gamma,
    is_vec3 rotation alfa beta gamma
    /\ in_range alfa = true /\ in_range beta = true /\ in_range gamma = true.
Proof.
  unfold _rotation_matrix, bind, lift. intros H.
  destruct (py_iter rotation) as [l|e] eqn:I; [|discriminate].
  destruct (all_in_range l) as [ok|e] eqn:A; [|discriminate].
  destruct ok; [|discriminate]. cbn [assert ret] in H.
  destruct (unpack3 rotation) as [[[a b] c]|e] eqn:U; [|discriminate].
  apply unpack3_inv in U. rewrite U in I. inversion I; subst l.
  destruct a; try (cbn in H; discriminate).
  destruct b; try (cbn in H; discriminate).
  destruct c; try (cbn in H; discriminate).
  clear H. cbn in A.
  destruct (in_range r) eqn:R1; [|discriminate].
  destruct (in_range r0) eqn:R2; [|discriminate].
  destruct (in_range r1) eqn:R3; [|discriminate].
  eauto 10 using py_iter_nums_vec3.
Qed.

Lemma applyTransform_ok_accepts c a s m m' :
  applyTransform c a s m = (Ok tt, m') -> exists p, accepts (c, a, s) p.
Proof.
  intros E.
  apply applyTransform_ok_inv in E as (sh & ro & sc & m3 & B & _).
  apply build_factors_ok_inv in B as (sh' & m1 & ro' & m2 & sc' & S1 & S2 & S3 & _).
  apply _shift_matrix_ok_inv in S1 as (x & y & z & Hc).
  apply _rotation_matrix_ok_inv in S2 as (al & be & ga & Ha & R1 & R2 & R3).
  apply _scale_matrix_ok_inv in S3 as (sx & sy & sz & Hs & N1 & N2 & N3).
  exists (mkPlacement x y z al be ga sx sy sz). cbn. tauto.
Qed.

(** X1. On a Mesh in the state the constructor establishes,
    [applyTransform] returns exactly on a center of three numbers (list,
    tuple or Point), an angle of three numbers each in [-2π, 2π), and a
    scale that is a non-zero number or a list or tuple of three non-zero
    numbers; on every other argument it raises. *)
Theorem applyTransform_accepts_iff (c a s : pyobj) (m : Mesh) :
  wf_mesh m ->
  (is_ok (fst (applyTransform c a s m)) = true <-> exists p, accepts (c, a, s) p).
Proof.
  intros W. split.
  - destruct (applyTransform c a s m) as [[[]|e] m'] eqn:E; [|discriminate].
    intros _. exact (applyTransform_ok_accepts _ _ _ _ _ E).
  - intros (p & Hc & Ha & R1 & R2 & R3 & Hs & N1 & N2 & N3).
    destruct (applyTransform_ok c a s _ _ _ _ _ _ _ _ _ Hc Ha R1 R2 R3 Hs N1 N2 N3 m W)
      as (m' & -> & _).
    reflexivity.
Qed.

Lemma applyTransform_accepts_iff_witness :
  wf_mesh sample_mesh
  /\ (is_ok (fst (applyTransform (PTuple [PNum 1; PNum 2; PNum 3])
                                 (PPoint (mkPoint 0 0 0)) (PNum 2) sample_mesh)) = true
      <-> exists p, accepts (PTuple [PNum 1; PNum 2; PNum 3],
                             PPoint (mkPoint 0 0 0), PNum 2) p).
Proof.
  split; [exact sample_mesh_wf|].
  apply (applyTransform_accepts_iff _ _ _ sample_mesh). exact sample_mesh_wf.
Defined.

(** ** Sequences of accepted calls *)

Lemma run_calls_cons m c a s calls :
  run_calls m ((c, a, s) :: calls) = run_calls (snd (applyTransform c a s m)) calls.
Proof. reflexivity. Qed.

(** X2. A sequence of accepted calls adds up, in the order of the calls.
    The transform is the product of the factors
    scale · rotation · shift of the calls, each multiplied from the left
    onto the transform so far.  The tracked center and angle are moved by
    the center and the angle of each call in turn, and the tracked scale
    is multiplied by the scale of each call in turn, component by
    component, starting from what the Mesh tracked. *)
Theorem accepted_calls_add_up
    (calls : list (pyobj * pyobj * pyobj)) (ps : list placement) (m : Mesh) :
  wf_mesh m ->
  Forall2 accepts calls ps ->
  _transform_matrix (run_calls m calls)
  = fold_left (fun T p => mmul (factor p) T) ps (_transform_matrix m)
  /\ _center (run_calls m calls)
     = fold_left (fun c p => mkPoint (px c + p_x p) (py c + p_y p) (pz c + p_z p))
                 ps (_center m)
  /\ _angle (run_calls m calls)
     = fold_left (fun a p => mkPoint (px a + p_alfa p) (py a + p_beta p)
                                     (pz a + p_gamma p))
                 ps (_angle m)
  /\ _scale (run_calls m calls)
     = fold_left (fun s p => mkPoint (px s * p_sx p) (py s * p_sy p) (pz s * p_sz p))
                 ps (_scale m).
Proof.
  intros W F. revert m W.
  induction F as [|[[c a] s] p calls ps Hp _ IH]; intros m W.
  - cbn. auto.
  - destruct Hp as (Hc & Ha & R1 & R2 & R3 & Hs & N1 & N2 & N3).
    destruct (applyTransform_ok c a s _ _ _ _ _ _ _ _ _ Hc Ha R1 R2 R3 Hs N1 N2 N3 m W)
      as (m' & E & T & C & A & S).
    pose proof (applyTransform_wf c a s m W) as W'.
    rewrite run_calls_cons. rewrite E in *. cbn [snd] in *.
    destruct (IH m' W') as (T' & C' & A' & S').
    rewrite T', C', A', S', T, C, A, S.
    cbn [fold_left]. repeat split.
Qed.

(** Two calls on a Mesh that tracks the center (0, 0, 0) and the scale
    (1, 1, 1): shifts by (1, 0, 0) and (0, 3, 0), scales 2 and 4. *)
Lemma accepted_calls_add_up_witness :
  _center (run_calls sample_mesh
             [(PList [PNum 1; PNum 0; PNum 0], PList [PNum 0; PNum 0; PNum 0], PNum 2);
              (PList [PNum 0; PNum 3; PNum 0], PList [PNum 0; PNum 0; PNum 0], PNum 4)])
  = mkPoint (0 + 1 + 0) (0 + 0 + 3) (0 + 0 + 0)
  /\ _scale (run_calls sample_mesh
               [(PList [PNum 1; PNum 0; PNum 0], PList [PNum 0; PNum 0; PNum 0], PNum 2);
                (PList [PNum 0; PNum 3; PNum 0], PList [PNum 0; PNum 0; PNum 0], PNum 4)])
     = mkPoint (1 * 2 * 4) (1 * 2 * 4) (1 * 2 * 4).
Proof.
  destruct (accepted_calls_add_up
              [(PList [PNum 1; PNum 0; PNum 0], PList [PNum 0; PNum 0; PNum 0], PNum 2);
               (PList [PNum 0; PNum 3; PNum 0], PList [PNum 0; PNum 0; PNum 0], PNum 4)]
              [mkPlacement 1 0 0 0 0 0 2 2 2; mkPlacement 0 3 0 0 0 0 4 4 4]
              sample_mesh sample_mesh_wf)
    as (_ & C & _ & S).
  - repeat constructor; cbn; try apply in_range_0; lra.
  - split; [exact C|exact S].
Defined.

(** ** A call that is rejected late *)

(** The outcome of [_scale_matrix] does not depend on the state. *)
Lemma _scale_matrix_outcome s m m' :
  fst (_scale_matrix s m') = fst (_scale_matrix s m).
Proof.
  destruct (_scale_matrix s m) as [[sc|e] m1] eqn:E; cbn [fst].
  - pose proof (_scale_matrix_ok_inv _ _ _ _ E) as (x & y & z & Hs & N1 & N2 & N3).
    rewrite (_scale_matrix_ok s x y z m Hs N1 N2 N3) in E. inversion E; subst.
    rewrite (_scale_matrix_ok s x y z m' Hs N1 N2 N3). reflexivity.
  - revert E. unfold _scale_matrix, bind, lift, gets.
    destruct s as [r|str|l|l|p|A|]; cbn [raise]; try (intros E; inversion E; reflexivity).
    + destruct (negb (isclose r 0)); cbn [assert ret raise];
        [|intros E; inversion E; reflexivity].
      cbn. intros E; discriminate.
    + destruct (forallb truthy l); cbn [assert ret raise];
        [|intros E; inversion E; reflexivity].
      destruct (unpack3 (PList l)) as [[[x y] z]|e0];
        [|intros E; inversion E; reflexivity].
      destruct (np_matrix _) as [B|e0] eqn:N; [|intros E; inversion E; reflexivity].
      destruct x; try (cbn in N; discriminate).
      destruct y; try (cbn in N; discriminate).
      destruct z; cbn in N; discriminate.
    + destruct (forallb truthy l); cbn [assert ret raise];
        [|intros E; inversion E; reflexivity].
      destruct (unpack3 (PTuple l)) as [[[x y] z]|e0];
        [|intros E; inversion E; reflexivity].
      destruct (np_matrix _) as [B|e0] eqn:N; [|intros E; inversion E; reflexivity].
      destruct x; try (cbn in N; discriminate).
      destruct y; try (cbn in N; discriminate).
      destruct z; cbn in N; discriminate.
Qed.

(** X3. A call whose center and angle are accepted and whose scale is
    rejected raises the exception of [_scale_matrix], and leaves the
    object between two states: the tracked center and angle have already
    moved by the arguments, while the transform, the tracked scale, the
    stored projection and everything else are as before the call. *)
Theorem rejected_scale_moves_center_and_angle
    (c a s : pyobj) (x y z alfa beta gamma : R) (e : exn) (m : Mesh) :
  is_vec3 c x y z ->
  is_vec3 a alfa beta gamma ->
  in_range alfa = true -> in_range beta = true -> in_range gamma = true ->
  fst (_scale_matrix s m) = Err e ->
  applyTransform c a s m
  = (Err e,
     put_angle (mkPoint (px (_angle m) + alfa) (py (_angle m) + beta)
                        (pz (_angle m) + gamma))
       (put_center (mkPoint (px (_center m) + x) (py (_center m) + y)
                            (pz (_center m) + z)) m)).
Proof.
  intros Hc Ha R1 R2 R3 Hs.
  set (m1 := put_center _ m). set (m2 := put_angle _ m1).
  assert (B : build_factors c a s m = (Err e, m2)).
  { unfold build_factors.
    rewrite (bind_ok _ _ _ _ _ (_shift_matrix_ok c x y z m Hc)).
    rewrite (bind_ok _ _ _ _ _ (_rotation_matrix_ok a alfa beta gamma _ Ha R1 R2 R3)).
    fold m1. change (put_angle _ m1) with m2.
    destruct (_scale_matrix s m2) as [r m3] eqn:E.
    pose proof (_scale_matrix_outcome s m m2) as O. rewrite E, Hs in O. cbn in O.
    subst r. pose proof (_scale_matrix_err_state _ _ _ _ E). subst m3.
    apply bind_err. exact E. }
  apply applyTransform_factor_failure in B as [-> _]. reflexivity.
Qed.

Lemma rejected_scale_moves_center_and_angle_witness :
  applyTransform (PList [PNum 1; PNum 2; PNum 3]) (PList [PNum 0; PNum 0; PNum 0])
                 (PNum 0) sample_mesh
  = (Err AssertionError,
     put_angle (mkPoint (px (_angle sample_mesh) + 0) (py (_angle sample_mesh) + 0)
                        (pz (_angle sample_mesh) + 0))
       (put_center (mkPoint (px (_center sample_mesh) + 1)
                            (py (_center sample_mesh) + 2)
                            (pz (_center sample_mesh) + 3)) sample_mesh)).
Proof.
  apply (rejected_scale_moves_center_and_angle _ _ _ 1 2 3 0 0 0);
    try constructor; try apply in_range_0.
  rewrite _scale_matrix_zero_number. reflexivity.
Defined.

(** ** The stored projection stays the projection of the state *)

Lemma _to2D_fst_depends m m' :
  focal m' = focal m -> camera m' = camera m ->
  _transform_matrix m' = _transform_matrix m -> _vertices m' = _vertices m ->
  fst (_to2D m') = fst (_to2D m).
Proof.
  intros F C T V. unfold _to2D, bind, lift, gets. rewrite F, C, T, V.
  repeat match goal with
         | |- context [match ?r with Ok _ => _ | Err _ => _ end] => destruct r
         end; reflexivity.
Qed.

Lemma fresh_transfer m m' :
  fresh m ->
  focal m' = focal m -> camera m' = camera m ->
  _transform_matrix m' = _transform_matrix m -> _vertices m' = _vertices m ->
  _2DVertices m' = _2DVertices m ->
  fresh m'.
Proof.
  unfold fresh. intros Fr F C T V D.
  pose proof (_to2D_fst_depends m m' F C T V) as E.
  pose proof (_to2D_state m') as S.
  destruct (_to2D m') as [r m'']. cbn [fst snd] in E, S. subst m''.
  rewrite Fr in E. cbn [fst] in E. rewrite E, D. reflexivity.
Qed.

Lemma build_factors_2DVertices c a s m r m' :
  build_factors c a s m = (r, m') -> _2DVertices m' = _2DVertices m.
Proof.
  unfold build_factors. unfold bind at 1.
  destruct (_shift_matrix c m) as [[sh|e] m1] eqn:H1;
    apply _shift_matrix_frame in H1;
    assert (D1 : _2DVertices m1 = _2DVertices m)
      by (destruct H1 as [->|[p ->]]; reflexivity);
    [|intros H; inversion H; subst; exact D1].
  unfold bind at 1.
  destruct (_rotation_matrix a m1) as [[ro|e] m2] eqn:H2;
    apply _rotation_matrix_frame in H2;
    assert (D2 : _2DVertices m2 = _2DVertices m1)
      by (destruct H2 as [->|[p ->]]; reflexivity);
    [|intros H; inversion H; subst; congruence].
  unfold bind at 1.
  destruct (_scale_matrix s m2) as [[sc|e] m3] eqn:H3;
    apply _scale_matrix_frame in H3;
    assert (D3 : _2DVertices m3 = _2DVertices m2)
      by (destruct H3 as [->|[p ->]]; reflexivity);
    intros H; inversion H; subst; congruence.
Qed.

Lemma applyTransform_fresh c a s m :
  wf_mesh m -> fresh m -> fresh (snd (applyTransform c a s m)).
Proof.
  intros W Fr.
  destruct (applyTransform c a s m) as [[[]|e] m'] eqn:E; cbn [snd].
  - apply applyTransform_ok_inv in E as (sh & ro & sc & m3 & _ & Cm).
    exact (commit_recomputes _ _ _ _ _ Cm).
  - pose proof (applyTransform_same_base c a s m) as (V & _ & Cam & Foc & _).
    rewrite E in V, Cam, Foc. cbn [snd] in V, Cam, Foc.
    destruct (applyTransform_raises_in_factors c a s m e W) as (m'' & B);
      [rewrite E; reflexivity|].
    pose proof (build_factors_2DVertices _ _ _ _ _ _ B) as D.
    apply applyTransform_factor_failure in B as [E' T].
    rewrite E in E'. inversion E'; subst m''.
    apply (fresh_transfer m m'); assumption.
Qed.

Lemma __init___fresh v e c a s col m :
  __init__ v e c a s col = Ok m -> fresh m.
Proof.
  intros H.
  apply __init___inv in H as (mv & mc & ma & ms & m1 & _ & _ & _ & _ & Hap & ->).
  apply applyTransform_ok_inv in Hap as (sh & ro & sc & m3 & _ & Cm).
  apply commit_recomputes in Cm.
  apply (fresh_transfer m1); [exact Cm|reflexivity..].
Qed.

Lemma run_calls_fresh calls m :
  wf_mesh m -> fresh m -> fresh (run_calls m calls).
Proof.
  revert m. induction calls as [|[[c a] s] calls IH]; intros m W Fr; [exact Fr|].
  rewrite run_calls_cons.
  apply IH; [apply applyTransform_wf, W|apply applyTransform_fresh; assumption].
Qed.

Lemma fresh_shape m n :
  wf_mesh m -> fresh m -> has_shape 4 n (_vertices m) -> has_shape 2 n (_2DVertices m).
Proof.
  intros (HT & _ & Hc & Hf) Fr HV.
  destruct (_to2D_ok m n HT HV Hc Hf) as (r0 & r1 & r2 & _ & L0 & L1 & L2 & E).
  unfold fresh in Fr. rewrite E in Fr. injection Fr as D. rewrite <- D.
  split; [reflexivity|].
  repeat constructor; apply map2_length; assumption.
Qed.

(** X4. On a constructed Mesh, after any sequence of [applyTransform]
    calls, whether they return or raise, the stored 2D vertices are the
    projection of the state the object is in: [_to2D], called now, returns
    the stored matrix.  That matrix has two rows and as many columns as
    there are vertices. *)
Theorem projection_stays_current
    (v e c a s col : pyobj) (m0 : Mesh) (calls : list (pyobj * pyobj * pyobj)) :
  numpy_input v ->
  __init__ v e c a s col = Ok m0 ->
  _to2D (run_calls m0 calls)
  = (Ok (_2DVertices (run_calls m0 calls)), run_calls m0 calls)
  /\ exists n,
       has_shape 4 n (_vertices (run_calls m0 calls))
       /\ has_shape 2 n (_2DVertices (run_calls m0 calls)).
Proof.
  intros Hin H.
  pose proof (__init___constructed _ _ _ _ _ _ _ Hin H) as [W0 _].
  pose proof (__init___fresh _ _ _ _ _ _ _ H) as F0.
  pose proof (run_calls_fresh calls m0 W0 F0) as Fr.
  pose proof (run_calls_constructed calls m0 (__init___constructed _ _ _ _ _ _ _ Hin H))
    as [W _].
  split; [exact Fr|].
  destruct W as (HT & (n & HV) & Hc & Hf).
  exists n. split; [exact HV|].
  apply fresh_shape; [|exact Fr|exact HV].
  split; [exact HT|split; [exists n; exact HV|split; assumption]].
Qed.

Lemma projection_stays_current_witness :
  exists m0,
    __init__ scenario_vertices scenario_edges
             (PList [PNum 1; PNum 0; PNum 0]) (PList [PNum 0; PNum 0; PNum 0])
             (PNum 2) (PStr "b") = Ok m0
    /\ _to2D (run_calls m0 [(PNum 0, PNum 0, PNum 1)])
       = (Ok (_2DVertices (run_calls m0 [(PNum 0, PNum 0, PNum 1)])),
          run_calls m0 [(PNum 0, PNum 0, PNum 1)]).
Proof.
  destruct (scenario_mesh_built (PList [PNum 1; PNum 0; PNum 0])
              (PList [PNum 0; PNum 0; PNum 0]) (PNum 2) 1 0 0 2 2 2)
    as (m0 & E & _); [constructor | constructor | constructor | lra | lra | lra |].
  exists m0. split; [exact E|].
  exact (proj1 (projection_stays_current scenario_vertices _ _ _ _ _ m0 [(PNum 0, PNum 0, PNum 1)] I E)).
Defined.

(** ** What no public method changes *)

Lemma getVertex_state i m : snd (getVertex i m) = m.
Proof.
  unfold getVertex, bind, gets, lift. destruct (is_int i); reflexivity.
Qed.

Lemma get2DVertex_state i m : snd (get2DVertex i m) = m.
Proof.
  unfold get2DVertex, bind, gets, lift. destruct (is_int i); reflexivity.
Qed.

Lemma state_after_keeps m c :
  constructed m ->
  constructed (state_after m c)
  /\ _vertices (state_after m c) = _vertices m
  /\ _edges (state_after m c) = _edges m
  /\ _transform_matrix_backup (state_after m c) = _transform_matrix_backup m
  /\ _color (state_after m c) = _color m.
Proof.
  intros Cm. destruct c as [c a s| | | |i|i]; cbn [state_after].
  - pose proof (applyTransform_same_base c a s m) as (V & E & _ & _ & B & _ & Col).
    split; [apply applyTransform_constructed, Cm|]. tauto.
  - split; [apply reset_constructed, Cm|]. repeat split.
  - split; [exact Cm|]. repeat split.
  - split; [exact Cm|]. repeat split.
  - rewrite getVertex_state. tauto.
  - rewrite get2DVertex_state. tauto.
Qed.

(** X5. What the public methods of a constructed Mesh never change.
    After any sequence of calls of [applyTransform], [reset], [enable],
    [disable], [getVertex] and [get2DVertex], with any arguments and
    whether the calls return or raise: the vertex buffer, the edges and
    the color are those of the construction, camera and focal are the
    fixed ones, the backup is the transform the constructor left, and the
    transform is 4×4. *)
Theorem methods_keep_construction
    (v e c a s col : pyobj) (m0 : Mesh) (calls : list method) :
  numpy_input v ->
  __init__ v e c a s col = Ok m0 ->
  _vertices (run_methods m0 calls) = _vertices m0
  /\ _edges (run_methods m0 calls) = e
  /\ _color (run_methods m0 calls) = col
  /\ camera (run_methods m0 calls) = the_camera
  /\ focal (run_methods m0 calls) = the_focal
  /\ _transform_matrix_backup (run_methods m0 calls) = _transform_matrix m0
  /\ has_shape 4 4 (_transform_matrix (run_methods m0 calls)).
Proof.
  intros Hin H.
  pose proof (__init___constructed _ _ _ _ _ _ _ Hin H) as C0.
  pose proof (__init___backup _ _ _ _ _ _ _ H) as B0.
  assert (E0 : _edges m0 = e /\ _color m0 = col).
  { destruct (__init___inv _ _ _ _ _ _ _ H)
      as (mv & mc & ma & ms & m1 & Hv & Hc & Ha & Hs & Hap & ->).
    split; [|reflexivity].
    pose proof (applyTransform_same_base c a s
                  (put_focal the_focal (put_camera the_camera
                     (put_transform_matrix (identity 4) ms)))) as (_ & E & _).
    rewrite Hap in E. cbn [snd] in E. mesh_fields. rewrite E. mesh_fields.
    apply scale_setter_frame in Hs as (p3 & ->).
    apply angle_setter_frame in Ha as (p2 & ->).
    apply center_setter_frame in Hc as (p1 & ->). reflexivity. }
  destruct E0 as [<- <-]. rewrite <- B0.
  assert (G : forall m,
             constructed m ->
             constructed (run_methods m calls)
             /\ _vertices (run_methods m calls) = _vertices m
             /\ _edges (run_methods m calls) = _edges m
             /\ _transform_matrix_backup (run_methods m calls)
                = _transform_matrix_backup m
             /\ _color (run_methods m calls) = _color m).
  { unfold run_methods. induction calls as [|c1 calls IH]; intros m Cm;
      cbn [fold_left]; [tauto|].
    destruct (state_after_keeps m c1 Cm) as (C1 & V1 & E1 & B1 & Col1).
    destruct (IH _ C1) as (C2 & V2 & E2 & B2 & Col2).
    split; [exact C2|]. repeat split; congruence. }
  destruct (G m0 C0) as ([(HT & _ & Hc & Hf) _] & V & E & B & Col).
  tauto.
Qed.

(** A constructed Mesh after a shift that returns, a call that raises,
    [disable], [reset] and a read out of range. *)
Lemma methods_keep_construction_witness :
  exists m0,
    __init__ scenario_vertices scenario_edges
             (PList [PNum 1; PNum 0; PNum 0]) (PList [PNum 0; PNum 0; PNum 0])
             (PNum 2) (PStr "b") = Ok m0
    /\ _vertices (run_methods m0
                    [ApplyTransform (PList [PNum 0; PNum 1; PNum 0])
                                    (PList [PNum 0; PNum 0; PNum 0]) (PNum 3);
                     ApplyTransform (PNum 0) (PNum 0) (PNum 0);
                     Disable; Reset; GetVertex (Int 7)])
       = _vertices m0
    /\ _edges (run_methods m0
                 [ApplyTransform (PList [PNum 0; PNum 1; PNum 0])
                                 (PList [PNum 0; PNum 0; PNum 0]) (PNum 3);
                  ApplyTransform (PNum 0) (PNum 0) (PNum 0);
                  Disable; Reset; GetVertex (Int 7)])
       = scenario_edges
    /\ _transform_matrix_backup
         (run_methods m0
            [ApplyTransform (PList [PNum 0; PNum 1; PNum 0])
                            (PList [PNum 0; PNum 0; PNum 0]) (PNum 3);
             ApplyTransform (PNum 0) (PNum 0) (PNum 0);
             Disable; Reset; GetVertex (Int 7)])
       = _transform_matrix m0.
Proof.
  destruct (scenario_mesh_built (PList [PNum 1; PNum 0; PNum 0])
              (PList [PNum 0; PNum 0; PNum 0]) (PNum 2) 1 0 0 2 2 2)
    as (m0 & E & _); [constructor | constructor | constructor | lra | lra | lra |].
  exists m0. split; [exact E|].
  destruct (methods_keep_construction scenario_vertices _ _ _ _ _ m0
              [ApplyTransform (PList [PNum 0; PNum 1; PNum 0])
                              (PList [PNum 0; PNum 0; PNum 0]) (PNum 3);
               ApplyTransform (PNum 0) (PNum 0) (PNum 0);
               Disable; Reset; GetVertex (Int 7)] I E)
    as (V & Ed & _ & _ & _ & B & _).
  auto.
Defined.

(** ** The constructor counts its arguments twice *)

Lemma mmul_identity_4_r (A : matrix) :
  has_shape 4 4 A -> mmul A (identity 4) = A.
Proof.
  intros HA. explode_4_4 HA.
  cbv [mmul map transpose ncols length seq col nth dot identity Nat.eqb].
  matrix_eq ltac:(ring).
Qed.

Lemma factor_shape p : has_shape 4 4 (factor p).
Proof.
  unfold factor. apply (mmul_shape 4 3 4); [|apply shift_mat_shape].
  apply (has_shape_nrows 4 4). apply (mmul_shape 4 3 4); [reflexivity|].
  apply rot_mat_shape.
Qed.

(** X6. The constructor stores center, angle and scale through the
    setters and then hands the same arguments to [applyTransform], which
    adds center and angle to the stored ones and multiplies the stored
    scale by the argument.  A Mesh built on a homogeneous 4×N buffer
    with accepted arguments so has the transform
    scale · rotation · shift of the arguments, applied once, while it
    tracks twice the center, twice the angle and the square of the
    scale. *)
Theorem constructor_counts_arguments_twice
    (A : matrix) (n : nat) (e c a s col : pyobj)
    (x y z alfa beta gamma sx sy sz : R) :
  has_shape 4 n A -> all_ones (nth 3 A []) ->
  is_vec3 c x y z ->
  is_vec3 a alfa beta gamma ->
  in_range alfa = true -> in_range beta = true -> in_range gamma = true ->
  is_scale s sx sy sz -> sx <> 0 -> sy <> 0 -> sz <> 0 ->
  exists m,
    __init__ (PMatrix A) e c a s col = Ok m
    /\ _vertices m = A
    /\ _transform_matrix m
       = mmul (mmul (scale_mat sx sy sz) (rot_mat alfa beta gamma)) (shift_mat x y z)
    /\ _center m = mkPoint (2 * x) (2 * y) (2 * z)
    /\ _angle m = mkPoint (2 * alfa) (2 * beta) (2 * gamma)
    /\ _scale m = mkPoint (sx * sx) (sy * sy) (sz * sz).
Proof.
  intros HA H1 Hc Ha R1 R2 R3 Hs N1 N2 N3.
  destruct (__init___ok (PMatrix A) e c a s col A n x y z alfa beta gamma sx sy sz
              (vertices_setter_keeps A n blank HA H1) HA Hc Ha R1 R2 R3 Hs N1 N2 N3)
    as (m & E & _ & V & _ & T & _ & C & An & S & _).
  exists m. split; [exact E|]. split; [exact V|].
  split.
  { rewrite T.
    apply (mmul_identity_4_r _ (factor_shape (mkPlacement x y z alfa beta gamma sx sy sz))). }
  rewrite C, An, S. repeat split; f_equal; ring.
Qed.

Lemma constructor_counts_arguments_twice_witness :
  exists m,
    __init__ (PMatrix [[0; 1]; [0; 0]; [0; 0]; [1; 1]]) PNone
             (PList [PNum 1; PNum 2; PNum 3]) (PList [PNum 0; PNum 0; PNum 0])
             (PNum 3) (PStr "b") = Ok m
    /\ _center m = mkPoint (2 * 1) (2 * 2) (2 * 3)
    /\ _scale m = mkPoint (3 * 3) (3 * 3) (3 * 3).
Proof.
  destruct (constructor_counts_arguments_twice
              [[0; 1]; [0; 0]; [0; 0]; [1; 1]] 2 PNone
              (PList [PNum 1; PNum 2; PNum 3]) (PList [PNum 0; PNum 0; PNum 0])
              (PNum 3) (PStr "b") 1 2 3 0 0 0 3 3 3)
    as (m & E & _ & _ & C & _ & S);
    try constructor; try apply in_range_0; try lra; try (repeat constructor).
  exists m. auto.
Defined.

(** ** The rotation matrix and the rotation z · y · x *)

(** X7. For an accepted angle (alfa, beta, gamma), the matrix that
    [_rotation_matrix] returns is the rotation z(gamma) · y(beta) · x(alfa)
    exactly when cos(alfa) · sin(beta) · (sin(alfa) − sin(gamma)) = 0:
    entry (1, 2) is written with sin(alfa) where the rotation has
    sin(gamma). *)
Theorem rotation_matrix_is_zyx_iff
    (rotation : pyobj) (alfa beta gamma : R) (m : Mesh) :
  is_vec3 rotation alfa beta gamma ->
  in_range alfa = true -> in_range beta = true -> in_range gamma = true ->
  exists ro m',
    _rotation_matrix rotation m = (Ok ro, m')
    /\ (ro = rot_zyx alfa beta gamma
        <-> cos alfa * sin beta * (sin alfa - sin gamma) = 0).
Proof.
  intros Ha R1 R2 R3.
  rewrite (_rotation_matrix_ok rotation alfa beta gamma m Ha R1 R2 R3).
  eexists _, _. split; [reflexivity|].
  destruct (rot_mat_entries alfa beta gamma) as (_ & E1 & E2).
  split.
  - intros H. apply (f_equal (entry 1 2)) in H. rewrite E1, E2 in H.
    replace (cos alfa * sin beta * (sin alfa - sin gamma))
      with ((cos alfa * sin beta * sin alfa - sin alfa * cos gamma)
            - (cos alfa * sin beta * sin gamma - sin alfa * cos gamma)) by ring.
    rewrite H. ring.
  - intros H.
    unfold rot_zyx, rot_mat, rot_x, rot_y, rot_z.
    cbv [mmul map transpose ncols length seq col nth dot].
    matrix_eq ltac:(first [ring
                          | apply Rminus_diag_uniq;
                            etransitivity; [|exact H]; ring]).
Qed.

(** With a [beta] of zero the matrix is the rotation. *)
Lemma rotation_matrix_is_zyx_iff_witness :
  exists ro m',
    _rotation_matrix (PList [PNum 1; PNum 0; PNum 1]) blank = (Ok ro, m')
    /\ (ro = rot_zyx 1 0 1 <-> cos 1 * sin 0 * (sin 1 - sin 1) = 0).
Proof.
  assert (R : in_range 1 = true).
  { apply in_range_iff. pose proof PI2_1. lra. }
  apply (rotation_matrix_is_zyx_iff _ 1 0 1 blank);
    [constructor | exact R | exact in_range_0 | exact R].
Defined.

(** ** The neutral call *)

Lemma mesh_ext m m' :
  _vertices m' = _vertices m -> _edges m' = _edges m ->
  _center m' = _center m -> _angle m' = _angle m -> _scale m' = _scale m ->
  _transform_matrix m' = _transform_matrix m ->
  camera m' = camera m -> focal m' = focal m ->
  _transform_matrix_backup m' = _transform_matrix_backup m ->
  _show m' = _show m -> _color m' = _color m ->
  _2DVertices m' = _2DVertices m ->
  m' = m.
Proof. destruct m, m'. cbn. intros. subst. reflexivity. Qed.

(** An accepted call on a well-formed Mesh, with the whole of the state
    it leaves. *)
Lemma applyTransform_accepted_state c a s p m :
  wf_mesh m -> accepts (c, a, s) p ->
  exists m',
    applyTransform c a s m = (Ok tt, m')
    /\ wf_mesh m' /\ fresh m' /\ same_base m m'
    /\ _transform_matrix m' = mmul (factor p) (_transform_matrix m)
    /\ _center m' = mkPoint (px (_center m) + p_x p) (py (_center m) + p_y p)
                            (pz (_center m) + p_z p)
    /\ _angle m' = mkPoint (px (_angle m) + p_alfa p) (py (_angle m) + p_beta p)
                           (pz (_angle m) + p_gamma p)
    /\ _scale m' = mkPoint (px (_scale m) * p_sx p) (py (_scale m) * p_sy p)
                           (pz (_scale m) * p_sz p).
Proof.
  intros W (Hc & Ha & R1 & R2 & R3 & Hs & N1 & N2 & N3).
  destruct (applyTransform_ok c a s _ _ _ _ _ _ _ _ _ Hc Ha R1 R2 R3 Hs N1 N2 N3 m W)
    as (m' & E & T & C & A & S).
  exists m'. split; [exact E|].
  pose proof (applyTransform_wf c a s m W) as W'.
  pose proof (applyTransform_same_base c a s m) as B.
  rewrite E in W', B. cbn [snd] in W', B.
  split; [exact W'|]. split.
  { destruct (applyTransform_ok_inv _ _ _ _ _ E) as (sh & ro & sc & m3 & _ & Cm).
    exact (commit_recomputes _ _ _ _ _ Cm). }
  split; [exact B|]. split; [exact T|]. auto.
Qed.

(** X8. A call with center (0,0,0), angle (0,0,0) and scale 1 (or
    (1,1,1)) is neutral: it returns and leaves every field of the object
    as it was, on a Mesh whose stored projection is current. *)
Theorem neutral_call_changes_nothing (c a s : pyobj) (m : Mesh) :
  wf_mesh m -> fresh m ->
  is_vec3 c 0 0 0 -> is_vec3 a 0 0 0 -> is_scale s 1 1 1 ->
  applyTransform c a s m = (Ok tt, m).
Proof.
  intros W Fr Hc Ha Hs.
  assert (A : accepts (c, a, s) (mkPlacement 0 0 0 0 0 0 1 1 1)).
  { cbn. repeat split; try assumption; try apply in_range_0; lra. }
  destruct (applyTransform_accepted_state c a s _ m W A)
    as (m1 & E1 & W1 & F1 & (V & Ed & Cam & Foc & Bk & Sh & Col) & T1 & C1 & An1 & S1).
  rewrite E1. f_equal.
  assert (T : _transform_matrix m1 = _transform_matrix m).
  { rewrite T1. destruct W as (HT & _). explode_4_4 HT.
    unfold factor, rot_mat, scale_mat, shift_mat. cbn [p_x p_y p_z p_alfa p_beta p_gamma p_sx p_sy p_sz].
    rewrite cos_0, sin_0.
    cbv [mmul map transpose ncols length seq col nth dot].
    matrix_eq ltac:(ring). }
  apply mesh_ext; try assumption.
  - rewrite C1. cbn [p_x p_y p_z]. destruct (_center m) as [u v w]. cbn [px py pz].
    f_equal; lra.
  - rewrite An1. cbn [p_alfa p_beta p_gamma]. destruct (_angle m) as [u v w].
    cbn [px py pz]. f_equal; lra.
  - rewrite S1. cbn [p_sx p_sy p_sz]. destruct (_scale m) as [u v w]. cbn [px py pz].
    f_equal; lra.
  - pose proof (_to2D_fst_depends m m1 Foc Cam T V) as D.
    unfold fresh in Fr, F1. rewrite Fr, F1 in D. cbn [fst] in D. congruence.
Qed.

Lemma neutral_call_changes_nothing_witness :
  exists m0,
    __init__ scenario_vertices scenario_edges
             (PList [PNum 1; PNum 0; PNum 0]) (PList [PNum 0; PNum 0; PNum 0])
             (PNum 2) (PStr "b") = Ok m0
    /\ applyTransform (PList [PNum 0; PNum 0; PNum 0]) (PTuple [PNum 0; PNum 0; PNum 0])
                      (PNum 1) m0 = (Ok tt, m0).
Proof.
  destruct (scenario_mesh_built (PList [PNum 1; PNum 0; PNum 0])
              (PList [PNum 0; PNum 0; PNum 0]) (PNum 2) 1 0 0 2 2 2)
    as (m0 & E & W & _); [constructor | constructor | constructor | lra | lra | lra |].
  exists m0. split; [exact E|].
  apply (neutral_call_changes_nothing _ _ _ m0 W (__init___fresh _ _ _ _ _ _ _ E));
    constructor.
Defined.

(** ** The vertices setter, case by case *)

Lemma transpose_ncols (A : matrix) : ncols A = 4%nat -> ncols (transpose A) = length A.
Proof.
  intros Hc. unfold transpose. rewrite Hc. cbn [seq map ncols]. apply col_length.
Qed.

Lemma transpose_nth (A : matrix) j :
  (j < ncols A)%nat -> nth j (transpose A) [] = col j A.
Proof. intros Hj. apply nth_error_nth, transpose_row, Hj. Qed.

Lemma nth_error_3 (A : matrix) :
  length A = 4%nat -> nth_error A 3 = Some (nth 3 A []).
Proof.
  intros HL. destruct A as [|r0 [|r1 [|r2 [|r3 [|? ?]]]]]; try discriminate.
  reflexivity.
Qed.

(** The branches of the vertices setter. *)
Lemma vertices_setter_branches (A : matrix) (m : Mesh) :
  (nrows A = 4%nat -> all_ones (nth 3 A []) ->
     vertices_setter (PMatrix A) m = (Ok tt, put_vertices A m))
  /\ (nrows A = 4%nat -> ~ all_ones (nth 3 A []) -> ncols A = 4%nat ->
     vertices_setter (PMatrix A) m = (Ok tt, put_vertices (transpose A) m))
  /\ (nrows A = 4%nat -> ~ all_ones (nth 3 A []) -> ncols A <> 4%nat ->
     vertices_setter (PMatrix A) m = (Err AssertionError, m))
  /\ (nrows A <> 4%nat -> ncols A = 4%nat -> all_ones (col 3 A) ->
     vertices_setter (PMatrix A) m = (Ok tt, put_vertices (transpose A) m))
  /\ (nrows A <> 4%nat -> ncols A = 4%nat -> ~ all_ones (col 3 A) ->
     vertices_setter (PMatrix A) m = (Err AssertionError, m))
  /\ (nrows A <> 4%nat -> ncols A <> 4%nat ->
     vertices_setter (PMatrix A) m = (Err AssertionError, m)).
Proof.
  unfold vertices_setter, bind, lift, last_row_all_one, assert, modify. unfold nrows.
  repeat split.
  - intros H4 H1. rewrite (proj2 (Nat.eqb_eq _ _) H4). cbn [negb ret].
    rewrite (nth_error_3 A H4). rewrite (proj2 (forallb_ones _) H1). reflexivity.
  - intros H4 H1 Hc. rewrite (proj2 (Nat.eqb_eq _ _) H4). cbn [negb ret].
    rewrite (nth_error_3 A H4). rewrite (proj2 (forallb_ones_false _) H1).
    cbn [negb]. rewrite (proj2 (Nat.eqb_eq _ _) Hc). reflexivity.
  - intros H4 H1 Hc. rewrite (proj2 (Nat.eqb_eq _ _) H4). cbn [negb ret].
    rewrite (nth_error_3 A H4). rewrite (proj2 (forallb_ones_false _) H1).
    cbn [negb]. rewrite (proj2 (Nat.eqb_neq _ _) Hc). reflexivity.
  - intros H4 Hc H1. rewrite (proj2 (Nat.eqb_neq _ _) H4). cbn [negb].
    rewrite (proj2 (Nat.eqb_eq _ _) Hc). cbn [ret].
    rewrite (transpose_row A 3) by lia.
    rewrite (proj2 (forallb_ones _) H1). reflexivity.
  - intros H4 Hc H1. rewrite (proj2 (Nat.eqb_neq _ _) H4). cbn [negb].
    rewrite (proj2 (Nat.eqb_eq _ _) Hc). cbn [ret].
    rewrite (transpose_row A 3) by lia.
    rewrite (proj2 (forallb_ones_false _) H1). cbn [negb].
    rewrite (transpose_ncols A Hc). rewrite (proj2 (Nat.eqb_neq _ _) H4).
    reflexivity.
  - intros H4 Hc. rewrite (proj2 (Nat.eqb_neq _ _) H4). cbn [negb].
    rewrite (proj2 (Nat.eqb_neq _ _) Hc). reflexivity.
Qed.

(** X11. The vertices setter, case by case, on a matrix [A] handed over
    as a numpy matrix or as the nested list of its rows.  With four rows:
    [A] is stored as it is when its last row is all ones; otherwise it is
    stored transposed when it has four columns, and rejected when it has
    not.  With another number of rows: [A] must have four columns and a
    last column all ones, and is stored transposed; everything else is
    rejected.  A rejection is the [AssertionError] of one of the two
    asserts and leaves the object untouched; no other exception is
    raised. *)
Theorem vertices_setter_cases (v : pyobj) (A : matrix) (m : Mesh) :
  v = PMatrix A \/ (v = nested A /\ A <> [] /\ rect A) ->
  (nrows A = 4%nat -> all_ones (nth 3 A []) ->
     vertices_setter v m = (Ok tt, put_vertices A m))
  /\ (nrows A = 4%nat -> ~ all_ones (nth 3 A []) -> ncols A = 4%nat ->
     vertices_setter v m = (Ok tt, put_vertices (transpose A) m))
  /\ (nrows A = 4%nat -> ~ all_ones (nth 3 A []) -> ncols A <> 4%nat ->
     vertices_setter v m = (Err AssertionError, m))
  /\ (nrows A <> 4%nat -> ncols A = 4%nat -> all_ones (col 3 A) ->
     vertices_setter v m = (Ok tt, put_vertices (transpose A) m))
  /\ (nrows A <> 4%nat -> ncols A = 4%nat -> ~ all_ones (col 3 A) ->
     vertices_setter v m = (Err AssertionError, m))
  /\ (nrows A <> 4%nat -> ncols A <> 4%nat ->
     vertices_setter v m = (Err AssertionError, m)).
Proof.
  intros [->|(-> & Hne & Hr)].
  - exact (vertices_setter_branches A m).
  - rewrite (vertices_setter_nested A m Hne Hr).
    exact (vertices_setter_branches A m).
Qed.

(** Two vertices given as rows (x, y, z, 1) are stored as columns. *)
Lemma vertices_setter_cases_witness :
  vertices_setter (nested [[0; 0; 0; 1]; [1; 0; 0; 1]]) blank
  = (Ok tt, put_vertices (transpose [[0; 0; 0; 1]; [1; 0; 0; 1]]) blank).
Proof.
  destruct (vertices_setter_cases (nested [[0; 0; 0; 1]; [1; 0; 0; 1]])
              [[0; 0; 0; 1]; [1; 0; 0; 1]] blank)
    as (_ & _ & _ & C4 & _).
  - right. split; [reflexivity|]. split; [discriminate|repeat constructor].
  - apply C4; [discriminate|reflexivity|repeat constructor].
Defined.

Lemma all_ones_dec (row : list R) : all_ones row \/ ~ all_ones row.
Proof.
  destruct (forallb (fun x => Reqb x 1) row) eqn:E.
  - left. apply forallb_ones, E.
  - right. apply forallb_ones_false, E.
Qed.

(** X12. What the vertices setter leaves behind.  It either raises
    [AssertionError] with the object untouched, or stores [A] or its
    transpose.  The stored buffer has four rows; its last row is all ones
    except when [A] is 4×4 with a last row that is not all ones.  A stored
    buffer whose last row is all ones can be assigned again and stays as
    it is. *)
Theorem vertices_setter_outcome (A : matrix) (m : Mesh) :
  vertices_setter (PMatrix A) m = (Err AssertionError, m)
  \/ exists B,
       vertices_setter (PMatrix A) m = (Ok tt, put_vertices B m)
       /\ (B = A \/ B = transpose A)
       /\ nrows B = 4%nat
       /\ (homogeneous B
           \/ (nrows A = 4%nat /\ ncols A = 4%nat /\ ~ all_ones (nth 3 A [])))
       /\ (homogeneous B ->
           vertices_setter (PMatrix B) (put_vertices B m)
           = (Ok tt, put_vertices B m)).
Proof.
  destruct (vertices_setter_branches A m) as (C1 & C2 & C3 & C4 & C5 & C6).
  assert (Again : forall B, homogeneous B ->
                    vertices_setter (PMatrix B) (put_vertices B m)
                    = (Ok tt, put_vertices B m)).
  { intros B [H4 H1].
    destruct (vertices_setter_branches B (put_vertices B m)) as (K & _).
    rewrite (K H4 H1). reflexivity. }
  destruct (Nat.eq_dec (nrows A) 4) as [H4|H4].
  - destruct (all_ones_dec (nth 3 A [])) as [H1|H1].
    + right. exists A. split; [exact (C1 H4 H1)|].
      split; [left; reflexivity|]. split; [exact H4|].
      split; [left; split; assumption|apply Again].
    + destruct (Nat.eq_dec (ncols A) 4) as [Hc|Hc].
      * right. exists (transpose A). split; [exact (C2 H4 H1 Hc)|].
        split; [right; reflexivity|].
        split; [unfold nrows; rewrite transpose_length; exact Hc|].
        split; [right; tauto|apply Again].
      * left. exact (C3 H4 H1 Hc).
  - destruct (Nat.eq_dec (ncols A) 4) as [Hc|Hc].
    + destruct (all_ones_dec (col 3 A)) as [H1|H1].
      * right. exists (transpose A). split; [exact (C4 H4 Hc H1)|].
        split; [right; reflexivity|].
        assert (HT : nrows (transpose A) = 4%nat)
          by (unfold nrows; rewrite transpose_length; exact Hc).
        split; [exact HT|].
        split; [|apply Again].
        left. split; [exact HT|]. rewrite transpose_nth by lia. exact H1.
      * left. exact (C5 H4 Hc H1).
    + left. exact (C6 H4 Hc).
Qed.

(** ** Reading a vertex *)

Lemma np_index_in_range (n : nat) (i : Z) :
  (- Z.of_nat n <= i < Z.of_nat n)%Z ->
  np_index n i = Ok (Z.to_nat (i mod Z.of_nat n))
  /\ (Z.to_nat (i mod Z.of_nat n) < n)%nat.
Proof.
  intros Hi. unfold np_index.
  assert (Hn : (0 < Z.of_nat n)%Z) by lia.
  split.
  - destruct (Z.leb_spec 0 i) as [H0|H0]; cbn [andb].
    + destruct (Z.ltb_spec i (Z.of_nat n)); [|lia].
      rewrite Z.mod_small by lia. reflexivity.
    + destruct (Z.leb_spec (- Z.of_nat n) i); [|lia].
      destruct (Z.ltb_spec i 0); [|lia]. cbn [andb].
      f_equal. f_equal.
      rewrite <- (Z.mod_small (Z.of_nat n + i) (Z.of_nat n)) by lia.
      rewrite <- (Z.mod_add i 1 (Z.of_nat n)) by lia. f_equal. lia.
  - pose proof (Z.mod_pos_bound i (Z.of_nat n) Hn). lia.
Qed.

Lemma np_index_out_of_range (n : nat) (i : Z) :
  ~ (- Z.of_nat n <= i < Z.of_nat n)%Z ->
  np_index n i = Err (IndexError "index is out of bounds for axis 1").
Proof.
  intros Hi. unfold np_index.
  destruct (Z.leb_spec 0 i); destruct (Z.ltb_spec i (Z.of_nat n)); cbn [andb];
    try lia;
    destruct (Z.leb_spec (- Z.of_nat n) i); destruct (Z.ltb_spec i 0); cbn [andb];
    try lia; reflexivity.
Qed.

Lemma column_shape r n j (A : matrix) : has_shape r n A -> has_shape r 1 (column j A).
Proof.
  intros [HL _]. unfold column. split; [now rewrite length_map|].
  apply Forall_forall. intros row Hin. apply in_map_iff in Hin as (u & <- & _).
  reflexivity.
Qed.

Lemma get_column_spec r n (A : matrix) :
  has_shape (S r) n A ->
  (forall i, (- Z.of_nat n <= i < Z.of_nat n)%Z ->
     get_column A (Int i) = Ok (column (Z.to_nat (i mod Z.of_nat n)) A))
  /\ (forall i, ~ (- Z.of_nat n <= i < Z.of_nat n)%Z ->
     get_column A (Int i) = Err (IndexError "index is out of bounds for axis 1")).
Proof.
  intros HA. pose proof (has_shape_ncols _ _ _ HA) as Hc.
  unfold get_column. rewrite Hc. split; intros i Hi.
  - rewrite (proj1 (np_index_in_range n i Hi)). reflexivity.
  - rewrite (np_index_out_of_range n i Hi). reflexivity.
Qed.

Lemma getters_in_range (m : Mesh) (n : nat) :
  has_shape 4 n (_vertices m) ->
  has_shape 2 n (_2DVertices m) ->
  forall i, (- Z.of_nat n <= i < Z.of_nat n)%Z ->
    getVertex (Int i) m
    = (Ok (column (Z.to_nat (i mod Z.of_nat n)) (_vertices m)), m)
    /\ get2DVertex (Int i) m
       = (Ok (column (Z.to_nat (i mod Z.of_nat n)) (_2DVertices m)), m).
Proof.
  intros HV HD i Hi.
  destruct (get_column_spec 3 n _ HV) as [V1 _].
  destruct (get_column_spec 1 n _ HD) as [D1 _].
  unfold getVertex, get2DVertex, bind, gets, lift. cbn [is_int assert ret raise].
  rewrite (V1 i Hi), (D1 i Hi). split; reflexivity.
Qed.

(** X13. [getVertex(i)] and [get2DVertex(i)] on a Mesh with N vertices.
    For an integer [i] with -N ≤ i < N they return column [i mod N] of the
    vertex buffer (4×1) and of the stored projection (2×1): a negative
    index counts from the end.  For another integer they raise
    [IndexError], for a value that is no integer [AssertionError].  They
    never change the object. *)
Theorem vertex_getters (m : Mesh) (n : nat) :
  has_shape 4 n (_vertices m) ->
  has_shape 2 n (_2DVertices m) ->
  (forall i, (- Z.of_nat n <= i < Z.of_nat n)%Z ->
     getVertex (Int i) m
     = (Ok (column (Z.to_nat (i mod Z.of_nat n)) (_vertices m)), m)
     /\ has_shape 4 1 (column (Z.to_nat (i mod Z.of_nat n)) (_vertices m))
     /\ get2DVertex (Int i) m
        = (Ok (column (Z.to_nat (i mod Z.of_nat n)) (_2DVertices m)), m)
     /\ has_shape 2 1 (column (Z.to_nat (i mod Z.of_nat n)) (_2DVertices m)))
  /\ (forall i, ~ (- Z.of_nat n <= i < Z.of_nat n)%Z ->
     getVertex (Int i) m
     = (Err (IndexError "index is out of bounds for axis 1"), m)
     /\ get2DVertex (Int i) m
        = (Err (IndexError "index is out of bounds for axis 1"), m))
  /\ (forall o,
     getVertex (NotInt o) m = (Err AssertionError, m)
     /\ get2DVertex (NotInt o) m = (Err AssertionError, m))
  /\ (forall i, snd (getVertex i m) = m /\ snd (get2DVertex i m) = m).
Proof.
  intros HV HD.
  destruct (get_column_spec 3 n _ HV) as [V1 V2].
  destruct (get_column_spec 1 n _ HD) as [D1 D2].
  unfold getVertex, get2DVertex, bind, gets, lift. cbn [is_int assert ret raise].
  split; [|split; [|split]].
  - intros i Hi. rewrite (V1 i Hi), (D1 i Hi).
    split; [reflexivity|]. split; [exact (column_shape _ _ _ _ HV)|].
    split; [reflexivity|exact (column_shape _ _ _ _ HD)].
  - intros i Hi. rewrite (V2 i Hi), (D2 i Hi). split; reflexivity.
  - intros o. split; reflexivity.
  - intros i. destruct i; split; reflexivity.
Qed.

Lemma vertex_getters_witness :
  getVertex (Int (-1)) (put_2DVertices [[0; 5]; [0; 0]] sample_mesh)
  = (Ok [[1]; [0]; [0]; [1]], put_2DVertices [[0; 5]; [0; 0]] sample_mesh).
Proof.
  assert (HV : has_shape 4 2 (_vertices sample_mesh))
    by (split; [reflexivity|repeat constructor]).
  assert (HD : has_shape 2 2 (_2DVertices (put_2DVertices [[0; 5]; [0; 0]] sample_mesh)))
    by (split; [reflexivity|repeat constructor]).
  destruct (vertex_getters (put_2DVertices [[0; 5]; [0; 0]] sample_mesh) 2 HV HD)
    as (G & _).
  destruct (G (-1)%Z) as (E & _); [lia|].
  exact E.
Defined.

(** ** The projection of one vertex *)

Lemma column_mmul (M B : matrix) j :
  B <> [] -> (j < ncols B)%nat ->
  column j (mmul M B) = mmul M (column j B).
Proof.
  intros HB Hj. unfold column at 1, mmul. rewrite map_map. apply map_ext. intros r.
  assert (T : transpose (column j B) = [col j B]).
  { unfold transpose. destruct B as [|b B]; [contradiction|].
    cbn [column map ncols length seq]. f_equal.
    unfold col, column. cbn [map nth]. f_equal. rewrite map_map. reflexivity. }
  rewrite T. cbn [map]. f_equal.
  apply nth_error_nth. rewrite nth_error_map, (transpose_row B j Hj). reflexivity.
Qed.

(** X14. The stored 2D vertex [i] is the projection of vertex [i] alone.
    On a Mesh whose stored projection is current, for -N ≤ i < N:
    [get2DVertex(i)] is what the perspective division gives on
    focal · camera⁻¹ · transform_matrix · [getVertex(i)]. *)
Theorem get2DVertex_projects_getVertex (m : Mesh) (n : nat) (i : Z) :
  wf_mesh m -> fresh m ->
  has_shape 4 n (_vertices m) ->
  (- Z.of_nat n <= i < Z.of_nat n)%Z ->
  exists v v2,
    getVertex (Int i) m = (Ok v, m)
    /\ get2DVertex (Int i) m = (Ok v2, m)
    /\ perspective_divide
         (mmul (mmul (mmul the_focal camera_inv) (_transform_matrix m)) v)
       = Ok v2.
Proof.
  intros W Fr HV Hi.
  pose proof (fresh_shape m n W Fr HV) as HD.
  destruct (getters_in_range m n HV HD i Hi) as (G1 & G2).
  rewrite G1, G2. eexists _, _. split; [reflexivity|]. split; [reflexivity|].
  destruct W as (HT & _ & Hc & Hf).
  destruct (_to2D_ok m n HT HV Hc Hf) as (r0 & r1 & r2 & P & L0 & L1 & L2 & E).
  unfold fresh in Fr. rewrite E in Fr. injection Fr as D. rewrite <- D.
  destruct (np_index_in_range n i Hi) as [_ Hj].
  set (j := Z.to_nat (i mod Z.of_nat n)) in *.
  rewrite <- column_mmul.
  - rewrite P. unfold column, perspective_divide. cbn [map nth_error firstn map2].
    rewrite (map2_nth Rdiv r0 r2 n j L0 L2 Hj), (map2_nth Rdiv r1 r2 n j L1 L2 Hj).
    reflexivity.
  - destruct HV as [HL _]. destruct (_vertices m); [discriminate|]. discriminate.
  - rewrite (has_shape_ncols _ _ _ HV). exact Hj.
Qed.

Lemma get2DVertex_projects_getVertex_witness :
  exists m0 v v2,
    __init__ scenario_vertices scenario_edges
             (PList [PNum 1; PNum 0; PNum 0]) (PList [PNum 0; PNum 0; PNum 0])
             (PNum 2) (PStr "b") = Ok m0
    /\ getVertex (Int 1) m0 = (Ok v, m0)
    /\ get2DVertex (Int 1) m0 = (Ok v2, m0)
    /\ perspective_divide
         (mmul (mmul (mmul the_focal camera_inv) (_transform_matrix m0)) v)
       = Ok v2.
Proof.
  destruct (__init___ok scenario_vertices scenario_edges
              (PList [PNum 1; PNum 0; PNum 0]) (PList [PNum 0; PNum 0; PNum 0])
              (PNum 2) (PStr "b")
              [[0; 1]; [0; 0]; [0; 0]; [1; 1]] 2 1 0 0 0 0 0 2 2 2
              (scenario_vertices_stored blank))
    as (m0 & E & W & V & _);
    try constructor; try apply in_range_0; try lra; try (repeat constructor).
  assert (HV : has_shape 4 2 (_vertices m0))
    by (rewrite V; split; [reflexivity|repeat constructor]).
  destruct (get2DVertex_projects_getVertex m0 2 1 W (__init___fresh _ _ _ _ _ _ _ E) HV)
    as (v & v2 & G1 & G2 & P); [lia|].
  exists m0, v, v2. auto.
Defined.

(** ** The reader: when it returns, and the scaling it never reads *)

Lemma read_child_other st v :
  name v <> "Geometry"%string -> name v <> "Model"%string -> read_child st v = Ok st.
Proof.
  intros NG NM. unfold read_child.
  rewrite (proj2 (String.eqb_neq _ _) NG), (proj2 (String.eqb_neq _ _) NM).
  reflexivity.
Qed.

Lemma read_children_other l st :
  Forall (fun v => name v <> "Geometry"%string /\ name v <> "Model"%string) l ->
  foldM read_child st l = Ok st.
Proof.
  induction 1 as [|v l [NG NM] _ IH]; cbn [foldM rbind]; [reflexivity|].
  rewrite (read_child_other st v NG NM). exact IH.
Qed.

(** X15. [readFBX], from the parsed document on, returns exactly when the
    root has a ninth child (the object list) and no node of that list is
    named "Geometry" or "Model"; it then returns the empty list.  On
    every other document it raises: no document makes it return a
    Mesh. *)
Theorem readFBX_returns_iff (data : node) :
  (readFBX data = Ok []
   <-> exists objects,
         getitem (children data) 8 = Ok objects
         /\ Forall (fun v => name v <> "Geometry"%string /\ name v <> "Model"%string)
                   (children objects))
  /\ (is_ok (readFBX data) = true <-> readFBX data = Ok []).
Proof.
  split; split.
  - intros H. exact (proj2 (readFBX_returns _ _ H)).
  - intros (objects & G & F). unfold readFBX, rbind. rewrite G.
    rewrite (read_children_other _ _ F). reflexivity.
  - destruct (readFBX data) as [l|e] eqn:H; [|discriminate].
    intros _. destruct (readFBX_returns _ _ H) as [-> _]. reflexivity.
  - intros ->. reflexivity.
Qed.

Lemma one_char_is_not_scaling c :
  String.eqb (String c EmptyString) "Lcl Scaling" = false.
Proof.
  cbn [String.eqb].
  match goal with |- context [Ascii.eqb c ?x] => destruct (Ascii.eqb c x) end;
    reflexivity.
Qed.

Lemma read_attribute_scale_kept st v2 nm st' :
  getitem (properties v2) 0 = Ok (PStr nm) ->
  read_attribute st v2 = Ok st' ->
  scale st' = scale st.
Proof.
  intros P0. unfold read_attribute. rewrite P0. cbn [rbind].
  destruct (py_eq_str (PStr nm) "Lcl Translation").
  { destruct (mapM _ _); cbn [rbind]; [|discriminate].
    intros H; inversion H; reflexivity. }
  destruct (py_eq_str (PStr nm) "Lcl Rotation").
  { destruct (mapM _ _); cbn [rbind]; [|discriminate].
    intros H; inversion H; reflexivity. }
  destruct nm as [|c nm]; cbn [py_getitem0 rbind]; [discriminate|].
  cbn [py_eq_str]. rewrite one_char_is_not_scaling.
  intros H; inversion H; reflexivity.
Qed.

Lemma read_attributes_scale_kept l st st' :
  Forall (fun v2 => exists nm, getitem (properties v2) 0 = Ok (PStr nm)) l ->
  foldM read_attribute st l = Ok st' ->
  scale st' = scale st.
Proof.
  intros F. revert st. induction F as [|v2 l [nm P0] _ IH]; intros st;
    cbn [foldM rbind].
  - intros H; inversion H; reflexivity.
  - destruct (read_attribute st v2) as [st1|e] eqn:E; [|discriminate].
    intros H. rewrite (IH _ H). exact (read_attribute_scale_kept _ _ _ _ P0 E).
Qed.

(** X16. An attribute whose name (its first property) is a string never
    changes the scale that the reader collects, whatever the name: the
    test for "Lcl Scaling" compares the first character of the name with
    the whole word, so it fails for every string.  The list of Meshes and
    the counter are not touched either. *)
Theorem string_named_attribute_keeps_scale
    (st : locals) (v2 : node) (nm : string) (st' : locals) :
  getitem (properties v2) 0 = Ok (PStr nm) ->
  read_attribute st v2 = Ok st' ->
  scale st' = scale st
  /\ mesh_list st' = mesh_list st
  /\ counter st' = counter st.
Proof.
  intros P0 H. split; [exact (read_attribute_scale_kept _ _ _ _ P0 H)|].
  split; [exact (read_attribute_keeps _ _ _ H)|].
  revert H. unfold read_attribute, rbind. intros H.
  repeat match type of H with
         | context [match ?r with Ok _ => _ | Err _ => _ end] =>
             destruct r; try discriminate
         | context [if ?b then _ else _] => destruct b
         end; inversion H; reflexivity.
Qed.

Lemma string_named_attribute_keeps_scale_witness :
  exists st',
    read_attribute initial_locals (attribute "Lcl Scaling" 100 100 100) = Ok st'
    /\ scale st' = scale initial_locals
    /\ mesh_list st' = mesh_list initial_locals
    /\ counter st' = counter initial_locals.
Proof.
  exists initial_locals. split; [reflexivity|].
  apply (string_named_attribute_keeps_scale
           initial_locals (attribute "Lcl Scaling" 100 100 100) "Lcl Scaling"
           initial_locals); reflexivity.
Defined.

(** X17. The "Model" branch never builds its Mesh.  On a node named
    "Model" whose attributes have strings as names, reached with the scale
    list empty (as it is at the start and after every "Model"), a pass of
    the loop raises, whatever Meshes the list already holds: the scale
    list is still empty when the constructor is called, and the
    constructor raises on it. *)
Theorem model_mesh_never_built (st : locals) (v c1 : node) :
  name v = "Model"%string ->
  scale st = [] ->
  getitem (children v) 1 = Ok c1 ->
  Forall (fun v2 => exists nm, getitem (properties v2) 0 = Ok (PStr nm))
         (children c1) ->
  is_ok (read_child st v) = false.
Proof.
  intros Hn Hs G F. unfold read_child. rewrite Hn. cbn [String.eqb Ascii.eqb].
  change (String.eqb "Model" "Geometry") with false.
  change (String.eqb "Model" "Model") with true. cbn iota.
  rewrite G. cbn [rbind].
  destruct (foldM read_attribute st (children c1)) as [st1|e] eqn:E; [|reflexivity].
  cbn [rbind].
  pose proof (read_attributes_scale_kept _ _ _ F E) as S1. rewrite Hs in S1.
  destruct (getitem (mesh_list st1) (counter st1)) as [old|e]; [|reflexivity].
  cbn [rbind]. rewrite S1.
  pose proof (__init___empty_scale (PMatrix (_vertices old)) (_edges old)
                (PList (center st1)) (PList (angle st1)) (PStr "b")) as I.
  destruct (__init__ _ _ _ _ (PList []) _); [discriminate|reflexivity].
Qed.

Lemma model_mesh_never_built_witness :
  is_ok (read_child (mkLocals [sample_mesh] 0 [PNum 0; PNum 0; PNum 0]
                              [PNum 0; PNum 0; PNum 0] [])
                    scenario_model) = false.
Proof.
  apply (model_mesh_never_built _ scenario_model
           (Node "Properties70"
                 [attribute "Lcl Translation" 1 0 0;
                  attribute "Lcl Rotation" 0 0 0;
                  attribute "Lcl Scaling" 100 100 100]
                 []));
    try reflexivity.
  repeat constructor; eexists; reflexivity.
Defined.

(** ** The calls to the operating system *)

Lemma run_bind {A B} (sys : os) (p : io A) (f : A -> io B) (done : list event) :
  run sys (io_bind p f) done
  = match run sys p done with
    | (Returned a, tr) => run sys (f a) tr
    | (Raised e, tr) => (Raised e, tr)
    end.
Proof.
  revert done. induction p as [a|e|X c k IH]; intros done; cbn [io_bind run];
    try reflexivity.
  destruct (sys done X c) as [x|e]; [apply IH|reflexivity].
Qed.

Lemma run_call {X B} (sys : os) (c : os_call X) (f : X -> io B) (done : list event) :
  run sys (io_bind (call c) f) done
  = match sys done X c with
    | inl x => run sys (f x) (done ++ [event_of c])
    | inr e => (Raised e, done ++ [event_of c])
    end.
Proof. reflexivity. Qed.

(** The runs of [fbx2json], by what the operating system answers. *)
Lemma fbx2json_run (sys : os) (input : string) (output : option string)
      (force : bool) (done : list event) :
  let t1 := done ++ [EChdir "src/script"] in
  let t2 := done ++ [EChdir "src/script"; EExists output] in
  let t3 := done ++ [EChdir "src/script"; EExists output; ERemove output] in
  (exists e, run sys (fbx2json input output force) done = (Raised e, t1))
  \/ (exists e, run sys (fbx2json input output force) done = (Raised e, t2)
      /\ (force = false
          -> e = FileExistsError (str_of_path output ++ " already exists.")
             \/ sys t1 bool (PathExists output) = inr e
             \/ output = None))
  \/ (exists e, run sys (fbx2json input output force) done = (Raised e, t3)
      /\ force = true /\ sys t1 bool (PathExists output) = inl true)
  \/ (exists out o,
        output = Some out
        /\ sys t1 bool (PathExists output) = inl false
        /\ run sys (fbx2json input output force) done
           = (o, t2 ++ [ESystem (("readFbxInfo.exe " ++ input ++ " >> ") ++ out)])
        /\ match sys t2 Z (System (("readFbxInfo.exe " ++ input ++ " >> ") ++ out)) with
           | inl _ => o = Returned tt
           | inr e => o = Raised e
           end)
  \/ (exists out o,
        output = Some out
        /\ force = true
        /\ sys t1 bool (PathExists output) = inl true
        /\ sys t2 unit (Remove output) = inl tt
        /\ run sys (fbx2json input output force) done
           = (o, t3 ++ [ESystem (("readFbxInfo.exe " ++ input ++ " >> ") ++ out)])
        /\ match sys t3 Z (System (("readFbxInfo.exe " ++ input ++ " >> ") ++ out)) with
           | inl _ => o = Returned tt
           | inr e => o = Raised e
           end).
Proof.
  cbv zeta. unfold fbx2json. rewrite run_call.
  destruct (sys done unit (Chdir "src/script")) as [[]|e] eqn:S0;
    [|left; eauto].
  right. rewrite run_call. cbn [event_of].
  replace (done ++ [EChdir "src/script"; EExists output])
    with ((done ++ [EChdir "src/script"]) ++ [EExists output])
    by (rewrite <- app_assoc; reflexivity).
  replace (done ++ [EChdir "src/script"; EExists output; ERemove output])
    with (((done ++ [EChdir "src/script"]) ++ [EExists output]) ++ [ERemove output])
    by (rewrite <- !app_assoc; reflexivity).
  set (t1 := done ++ [EChdir "src/script"]).
  destruct (sys t1 bool (PathExists output)) as [found|e] eqn:S1;
    [|left; exists e; split; [reflexivity|auto]].
  set (t2 := t1 ++ [EExists output]).
  destruct found.
  - destruct force.
    + rewrite run_call. cbn [event_of].
      destruct (sys t2 unit (Remove output)) as [[]|e] eqn:S2;
        [|right; left; exists e; auto].
      set (t3 := t2 ++ [ERemove output]).
      destruct output as [out|]; cbn [str_concat io_lift io_bind run].
      * right. right. right. exists out.
        unfold call. cbn [io_bind run event_of].
        destruct (sys t3 Z (System _)) as [code|e]; eexists;
          repeat (split; [reflexivity|]); reflexivity.
      * right. left. eexists. split; [reflexivity|]. auto.
    + left. cbn [io_bind run]. eexists. split; [reflexivity|]. auto.
  - cbn [io_bind].
    destruct output as [out|]; cbn [str_concat io_lift io_bind run].
    + right. right. left. exists out.
      unfold call. cbn [io_bind run event_of].
      destruct (sys t2 Z (System _)) as [code|e]; eexists;
        repeat (split; [reflexivity|]); reflexivity.
    + left. eexists. split; [reflexivity|]. auto.
Qed.

Ltac in_events H :=
  cbn [In] in H;
  repeat match type of H with
         | _ \/ _ => destruct H as [H|H]
         | False => contradiction
         end;
  try discriminate H.

(** X18. What [fbx2json] asks of the operating system, whatever the
    operating system answers.  The calls of a run are recorded after the
    calls [done] made before it.  A file is removed only with [force], only
    when the existence test answered yes, and it is the output file.  The
    converter is started only on a command of the form
    [readFbxInfo.exe <input> >> <output>], and only when the output file was
    reported absent or [force] is set: without [force] an existing output is
    never appended to.  No file is read.  The first call changes the
    working directory to the relative path [src/script], and no later call
    changes it back.  When [fbx2json] returns, the
    converter has been started; and once [os.system] returns, [fbx2json]
    returns whatever the exit status: a failed conversion goes unnoticed. *)
Theorem fbx2json_calls
    (sys : os) (input : string) (output : option string) (force : bool)
    (done : list event) :
  exists new,
    snd (run sys (fbx2json input output force) done) = done ++ new
    /\ (exists rest,
          new = EChdir "src/script" :: rest /\ forall p, ~ In (EChdir p) rest)
    /\ (forall p, In (ERemove p) new ->
          force = true /\ p = output
          /\ sys (done ++ [EChdir "src/script"]) bool (PathExists output) = inl true)
    /\ (forall cmd, In (ESystem cmd) new ->
          (exists out,
             output = Some out
             /\ cmd = (("readFbxInfo.exe " ++ input ++ " >> ") ++ out)%string)
          /\ (force = true
              \/ sys (done ++ [EChdir "src/script"]) bool (PathExists output)
                 = inl false))
    /\ (forall p, ~ In (ELoadJson p) new)
    /\ (fst (run sys (fbx2json input output force) done) = Returned tt ->
        exists cmd, In (ESystem cmd) new)
    /\ (forall cmd code,
          In (ESystem cmd) new ->
          sys (done ++ removelast new) Z (System cmd) = inl code ->
          fst (run sys (fbx2json input output force) done) = Returned tt).
Proof.
  destruct (fbx2json_run sys input output force done)
    as [(e & E)|[(e & E & _)|[(e & E & F & S1)
        |[(out & o & -> & S1 & E & O)|(out & o & -> & F & S1 & S2 & E & O)]]]];
    rewrite E; cbn [fst snd].
  - exists [EChdir "src/script"]. split; [reflexivity|].
    split; [eexists; split; [reflexivity|intros p H; in_events H]|].
    split; [intros p H; in_events H|].
    split; [intros cmd H; in_events H|].
    split; [intros p H; in_events H|].
    split; [intros H; discriminate|intros cmd code H; in_events H].
  - exists [EChdir "src/script"; EExists output]. split; [reflexivity|].
    split; [eexists; split; [reflexivity|intros p H; in_events H]|].
    split; [intros p H; in_events H|].
    split; [intros cmd H; in_events H|].
    split; [intros p H; in_events H|].
    split; [intros H; discriminate|intros cmd code H; in_events H].
  - exists [EChdir "src/script"; EExists output; ERemove output].
    split; [reflexivity|].
    split; [eexists; split; [reflexivity|intros p H; in_events H]|].
    split; [intros p H; in_events H; injection H as <-; auto|].
    split; [intros cmd H; in_events H|].
    split; [intros p H; in_events H|].
    split; [intros H; discriminate|intros cmd code H; in_events H].
  - exists [EChdir "src/script"; EExists (Some out);
            ESystem (("readFbxInfo.exe " ++ input ++ " >> ") ++ out)].
    split; [rewrite <- app_assoc; reflexivity|].
    split; [eexists; split; [reflexivity|intros p H; in_events H]|].
    split; [intros p H; in_events H|].
    split; [intros cmd H; in_events H; injection H as <-; eauto|].
    split; [intros p H; in_events H|].
    split; [intros _; eexists; cbn [In]; eauto|].
    intros cmd code H Hs. in_events H. injection H as <-.
    match type of O with
    | match ?scr with inl _ => _ | inr _ => _ end =>
        assert (X : scr = inl code) by exact Hs; rewrite X in O
    end.
    exact O.
  - exists [EChdir "src/script"; EExists (Some out); ERemove (Some out);
            ESystem (("readFbxInfo.exe " ++ input ++ " >> ") ++ out)].
    split; [rewrite <- app_assoc; reflexivity|].
    split; [eexists; split; [reflexivity|intros p H; in_events H]|].
    split; [intros p H; in_events H; injection H as <-; auto|].
    split; [intros cmd H; in_events H; injection H as <-; eauto|].
    split; [intros p H; in_events H|].
    split; [intros _; eexists; cbn [In]; eauto|].
    intros cmd code H Hs. in_events H. injection H as <-.
    match type of O with
    | match ?scr with inl _ => _ | inr _ => _ end =>
        assert (X : scr = inl code) by exact Hs; rewrite X in O
    end.
    exact O.
Qed.

(** X19. [readFBX] with its default [json_path] ([None]) never returns,
    whatever the files and the operating system: the path is concatenated
    to a string, in [fbx2json] or in the [open] that follows, and no
    default is put in its place.  In such a run the converter is not
    started and no file is read. *)
Theorem readFBX_without_json_path
    (sys : os) (fbx_path : string) (overwrite : bool) (done : list event) :
  exists e new,
    run sys (readFBX_file fbx_path None overwrite) done = (Raised e, done ++ new)
    /\ (forall cmd, ~ In (ESystem cmd) new)
    /\ (forall p, ~ In (ELoadJson p) new).
Proof.
  unfold readFBX_file. rewrite run_bind.
  destruct (fbx2json_run sys fbx_path None overwrite done)
    as [(e & E)|[(e & E & _)|[(e & E & _)
        |[(out & o & D & _)|(out & o & D & _)]]]];
    try discriminate D; rewrite E; eexists _, _;
    (split; [reflexivity|]); split; intros x H; in_events H.
Qed.

(** X20. When [readFBX] returns, it returns the empty list.  The path
    was given; the calls made were, in this order: the change of directory
    to [src/script], the existence test of the output path, its removal
    (only with [overwrite], when it was there), the converter, and the
    reading of the file ["../" + json_path]; and the document read has an
    object list without "Geometry" and "Model". *)
Theorem readFBX_file_returns
    (sys : os) (fbx_path : string) (json_path : option string) (overwrite : bool)
    (done : list event) (l : list Mesh) :
  fst (run sys (readFBX_file fbx_path json_path overwrite) done) = Returned l ->
  l = []
  /\ exists out removal data,
       json_path = Some out
       /\ (removal = [] \/ (overwrite = true /\ removal = [ERemove (Some out)]))
       /\ snd (run sys (readFBX_file fbx_path json_path overwrite) done)
          = done ++ [EChdir "src/script"; EExists (Some out)] ++ removal
                 ++ [ESystem (("readFbxInfo.exe " ++ fbx_path ++ " >> ") ++ out);
                     ELoadJson ("../" ++ out)]
       /\ sys (done ++ [EChdir "src/script"; EExists (Some out)] ++ removal
                    ++ [ESystem (("readFbxInfo.exe " ++ fbx_path ++ " >> ") ++ out)])
              node (LoadJson ("../" ++ out))
          = inl data
       /\ readFBX data = Ok [].
Proof.
  unfold readFBX_file. rewrite run_bind.
  destruct (fbx2json_run sys fbx_path json_path overwrite done)
    as [(e & E)|[(e & E & _)|[(e & E & _)
        |[(out & o & -> & S1 & E & O)|(out & o & -> & F & S1 & S2 & E & O)]]]];
    rewrite E; try (cbn [fst]; discriminate).
  - destruct (sys _ Z (System _)) as [code|e]; subst o; [|cbn [fst]; discriminate].
    cbn [str_concat io_lift io_bind]. rewrite run_call. cbn [event_of].
    match goal with
    | |- context [sys ?t node (LoadJson ?p)] =>
        destruct (sys t node (LoadJson p)) as [data|e] eqn:SL
    end; [|cbn [fst]; discriminate].
    destruct (readFBX data) as [l'|e] eqn:R; cbn [io_lift run fst snd];
      [|discriminate].
    intros H; inversion H; subst l'.
    destruct (readFBX_returns _ _ R) as [-> _]. split; [reflexivity|].
    exists out, [], data. split; [reflexivity|]. split; [left; reflexivity|].
    cbn [app]. split; [rewrite <- !app_assoc; reflexivity|].
    split; [|exact R].
    rewrite <- SL. f_equal. rewrite <- !app_assoc. reflexivity.
  - destruct (sys _ Z (System _)) as [code|e]; subst o; [|cbn [fst]; discriminate].
    cbn [str_concat io_lift io_bind]. rewrite run_call. cbn [event_of].
    match goal with
    | |- context [sys ?t node (LoadJson ?p)] =>
        destruct (sys t node (LoadJson p)) as [data|e] eqn:SL
    end; [|cbn [fst]; discriminate].
    destruct (readFBX data) as [l'|e] eqn:R; cbn [io_lift run fst snd];
      [|discriminate].
    intros H; inversion H; subst l'.
    destruct (readFBX_returns _ _ R) as [-> _]. split; [reflexivity|].
    exists out, [ERemove (Some out)], data. split; [reflexivity|].
    split; [right; split; [exact F|reflexivity]|].
    cbn [app]. split; [rewrite <- !app_assoc; reflexivity|].
    split; [|exact R].
    rewrite <- SL. f_equal. rewrite <- !app_assoc. reflexivity.
Qed.

Lemma readFBX_file_returns_witness :
  fst (run (quiet_os empty_document) (readFBX_file "m.fbx" (Some "m.json"%string) false) [])
  = Returned []
  /\ snd (run (quiet_os empty_document) (readFBX_file "m.fbx" (Some "m.json"%string) false) [])
     = [EChdir "src/script"; EExists (Some "m.json"%string);
        ESystem "readFbxInfo.exe m.fbx >> m.json"; ELoadJson "../m.json"].
Proof.
  split; [reflexivity|].
  destruct (readFBX_file_returns (quiet_os empty_document) "m.fbx" (Some "m.json"%string)
              false [] [] eq_refl)
    as (_ & out & removal & data & _ & _ & T & _).
  reflexivity.
Defined.

(** ** What the constructor accepts *)

(** X21. The constructor returns exactly when the vertices setter
    accepts the vertices and [applyTransform] accepts center, angle and
    scale: a center and an angle of three numbers, the angles in
    [-2π, 2π), and a scale that is a non-zero number or three non-zero
    numbers.  The edges and the color are not looked at. *)
Theorem constructor_accepts_iff (v e c a s col : pyobj) :
  numpy_input v ->
  (is_ok (__init__ v e c a s col) = true
   <-> is_ok (fst (vertices_setter v blank)) = true
       /\ exists p, accepts (c, a, s) p).
Proof.
  intros Hin. split.
  - destruct (__init__ v e c a s col) as [m|err] eqn:H; [|discriminate].
    intros _.
    destruct (__init___inv _ _ _ _ _ _ _ H)
      as (mv & mc & ma & ms & m1 & Hv & _ & _ & _ & Hap & _).
    rewrite Hv. split; [reflexivity|].
    exact (applyTransform_ok_accepts _ _ _ _ _ Hap).
  - intros [Hv (p & Hc & Ha & R1 & R2 & R3 & Hs & N1 & N2 & N3)].
    destruct (vertices_setter v blank) as [[[]|err] mv] eqn:E; [|discriminate].
    destruct (vertices_setter_stores v blank mv Hin E) as (B & n & -> & HB).
    destruct (__init___ok v e c a s col B n _ _ _ _ _ _ _ _ _ E HB
                Hc Ha R1 R2 R3 Hs N1 N2 N3) as (m & -> & _).
    reflexivity.
Qed.

Lemma constructor_accepts_iff_witness :
  is_ok (__init__ scenario_vertices scenario_edges
                  (PList [PNum 1; PNum 0; PNum 0]) (PList [PNum 0; PNum 0; PNum 0])
                  (PNum 2) (PStr "b")) = true
  <-> is_ok (fst (vertices_setter scenario_vertices blank)) = true
      /\ exists p, accepts (PList [PNum 1; PNum 0; PNum 0],
                            PList [PNum 0; PNum 0; PNum 0], PNum 2) p.
Proof.
  apply (constructor_accepts_iff scenario_vertices). exact I.
Defined.
